(** * A7s Prime Hash WebTool: the classical-cipher page and the padding page

    A shallow embedding of [pages/Classical Cipher.py] (parameter parsing,
    the default-parameter catalog, the parameter form, guarded construction
    and the two button handlers) and of the PKCS7 functions of
    [pages/Padding & Unpadding Text.py], with the properties the
    specification states about them. *)

From Stdlib Require Import ZArith String Ascii List Lia Bool.
From Stdlib.Strings Require Import Byte.
From stdpp Require Import base option list gmap strings pretty sorting.

Local Open Scope Z_scope.

#[local] Set Warnings "-clear-no-such-hyp,-register-all".

(** ** Python values and exceptions *)

(** The values a parameter can hold: what the catalog stores (integers and
    text) and what a literal of the modelled fragment denotes.  [bool] is a
    subclass of [int] in Python, which [as_int] reflects. *)
Inductive pyval : Type :=
  | VNone
  | VBool (b : bool)
  | VInt (z : Z)
  | VStr (s : string)
  | VList (l : list pyval).

Definition as_int (v : pyval) : option Z :=
  match v with
  | VInt z => Some z
  | VBool b => Some (Z.b2z b)
  | _ => None
  end.

(** Python's [==] on these values: numbers compare by value across [bool]
    and [int], text with text, lists element by element; anything else is
    unequal. *)
Fixpoint py_eqb (a b : pyval) {struct a} : bool :=
  match a, b with
  | VNone, VNone => true
  | VStr s, VStr t => String.eqb s t
  | VList l, VList m =>
      (fix go (l : list pyval) (m : list pyval) {struct l} : bool :=
         match l, m with
         | [], [] => true
         | x :: l', y :: m' => py_eqb x y && go l' m'
         | _, _ => false
         end) l m
  | (VInt _ | VBool _), (VInt _ | VBool _) =>
      match as_int a, as_int b with
      | Some x, Some y => Z.eqb x y
      | _, _ => false
      end
  | _, _ => false
  end.

(** [x in xs] for a list [xs]. *)
Definition py_in (x : pyval) (xs : list pyval) : bool :=
  existsb (py_eqb x) xs.

Inductive exn_class : Type :=
  | SyntaxError | ValueError | TypeError | AssertionError | AttributeError
  | KeyError | IndexError | ZeroDivisionError
  | KeyboardInterrupt | SystemExit.

(** [KeyboardInterrupt] and [SystemExit] derive from [BaseException] only;
    [except Exception] lets them through, a bare [except:] does not. *)
Definition is_Exception (c : exn_class) : bool :=
  match c with
  | KeyboardInterrupt | SystemExit => false
  | _ => true
  end.

Record exn : Type := Exn { exn_cls : exn_class; exn_msg : string }.

Inductive result (A : Type) : Type :=
  | Return (a : A)
  | Raise (e : exn).
Arguments Return {A} a.
Arguments Raise {A} e.

Definition rbind {A B} (r : result A) (k : A → result B) : result B :=
  match r with
  | Return a => k a
  | Raise e => Raise e
  end.

(** ** [ast.literal_eval] on a fragment of the literal syntax *)

Module Literal.

Definition is_digit (c : ascii) : bool :=
  let n := N_of_ascii c in (48 <=? n)%N && (n <=? 57)%N.

Definition is_blank (c : ascii) : bool :=
  (N_of_ascii c =? 32)%N || (N_of_ascii c =? 9)%N.

Definition is_printable (c : ascii) : bool :=
  let n := N_of_ascii c in (32 <=? n)%N && (n <=? 126)%N.

Definition digit_val (c : ascii) : Z := Z.of_N (N_of_ascii c) - 48.

(** [node_or_string.lstrip(" \t")] *)
Fixpoint lstrip (s : list ascii) : list ascii :=
  match s with
  | c :: s' => if is_blank c then lstrip s' else s
  | [] => []
  end.

Fixpoint span_digits (s : list ascii) : list ascii * list ascii :=
  match s with
  | c :: s' =>
      if is_digit c
      then let '(ds, rest) := span_digits s' in (c :: ds, rest)
      else ([], s)
  | [] => ([], [])
  end.

Definition digits_val (ds : list ascii) : Z :=
  fold_left (fun acc c => 10 * acc + digit_val c) ds 0.

(** A decimal integer literal: a run of digits that is all zeros or does
    not start with a zero, of at most 4300 digits (the interpreter's
    default limit on integer text). *)
Definition decimal_ok (ds : list ascii) : bool :=
  match ds with
  | [] => false
  | c :: _ =>
      (negb (N_of_ascii c =? 48)%N || forallb (fun d => (N_of_ascii d =? 48)%N) ds)
      && (length ds <=? 4300)%nat
  end.

Definition parse_nat (s : list ascii) : option (Z * list ascii) :=
  let '(ds, rest) := span_digits s in
  if decimal_ok ds then Some (digits_val ds, rest) else None.

Definition starts_with (p s : list ascii) : option (list ascii) :=
  if decide (take (length p) s = p) then Some (drop (length p) s) else None.

(** One value of the fragment: [None], [True], [False], a decimal integer
    with at most one sign directly before it, or a bracketed list of such
    values separated by commas (a trailing comma allowed), blanks between
    the tokens.  [fuel] bounds both the nesting and the number of items. *)
Fixpoint parse_value (fuel : nat) (s : list ascii) : option (pyval * list ascii) :=
  match fuel with
  | O => None
  | S fuel' =>
      match s with
      | "["%char :: s1 =>
          (fix items (n : nat) (acc : list pyval) (s : list ascii)
             : option (pyval * list ascii) :=
             match n with
             | O => None
             | S n' =>
                 match lstrip s with
                 | "]"%char :: rest => Some (VList (rev acc), rest)
                 | s2 =>
                     match parse_value fuel' s2 with
                     | Some (v, s3) =>
                         match lstrip s3 with
                         | ","%char :: s4 => items n' (v :: acc) s4
                         | "]"%char :: rest => Some (VList (rev (v :: acc)), rest)
                         | _ => None
                         end
                     | None => None
                     end
                 end
             end) fuel' [] s1
      | "-"%char :: s1 =>
          match parse_nat s1 with
          | Some (z, rest) => Some (VInt (- z), rest)
          | None => None
          end
      | "+"%char :: s1 =>
          match parse_nat s1 with
          | Some (z, rest) => Some (VInt z, rest)
          | None => None
          end
      | _ =>
          match starts_with (list_ascii_of_string "None") s with
          | Some rest => Some (VNone, rest)
          | None =>
          match starts_with (list_ascii_of_string "True") s with
          | Some rest => Some (VBool true, rest)
          | None =>
          match starts_with (list_ascii_of_string "False") s with
          | Some rest => Some (VBool false, rest)
          | None =>
          match parse_nat s with
          | Some (z, rest) => Some (VInt z, rest)
          | None => None
          end end end end
      end
  end.

(** The tokenizer's bracket stack, on text without quotes, comments or
    continuation marks: [None] when a closer has no matching opener,
    otherwise the openers left unclosed. *)
Fixpoint brackets (stack : list ascii) (s : list ascii) : option (list ascii) :=
  match s with
  | [] => Some stack
  | c :: s' =>
      if (c =? "(")%char || (c =? "[")%char || (c =? "{")%char
      then brackets (c :: stack) s'
      else if (c =? ")")%char || (c =? "]")%char || (c =? "}")%char
      then match stack with
           | o :: stack' =>
               if ((o =? "(")%char && (c =? ")")%char)
                  || ((o =? "[")%char && (c =? "]")%char)
                  || ((o =? "{")%char && (c =? "}")%char)
               then brackets stack' s'
               else None
           | [] => None
           end
      else brackets stack s'
  end.

Definition plain (c : ascii) : bool :=
  is_printable c
  && negb ((c =? "'")%char || (N_of_ascii c =? 34)%N || (c =? "#")%char || (c =? "\")%char).

Definition unbalanced (s : list ascii) : bool :=
  forallb plain s
  && match brackets [] s with
     | Some [] => false
     | _ => true
     end.

Definition max_nesting : nat := 64.

(** What [ast.literal_eval] does on the inputs this development decides:
    - a value that is neither text nor a syntax node is a malformed node
      ([ValueError]);
    - text of the fragment above denotes its value;
    - plain text whose brackets do not balance cannot be parsed
      ([SyntaxError]).
    Elsewhere the result is [None]: not decided here. *)
Definition literal_eval_known (node_or_string : pyval) : option (result pyval) :=
  match node_or_string with
  | VStr str =>
      let s := lstrip (list_ascii_of_string str) in
      if unbalanced s
      then Some (Raise (Exn SyntaxError "invalid syntax"))
      else match parse_value max_nesting s with
           | Some (v, rest) =>
               match lstrip rest with
               | [] => Some (Return v)
               | _ => None
               end
           | None => None
           end
  | _ => Some (Raise (Exn ValueError "malformed node or string"))
  end.

(** The evaluator completed with a failure where the fragment is silent. *)
Definition literal_eval_default (node_or_string : pyval) : result pyval :=
  match literal_eval_known node_or_string with
  | Some r => r
  | None => Raise (Exn ValueError "malformed node or string")
  end.

(** An evaluator that agrees with the fragment wherever it decides. *)
Definition extends_known (literal_eval : pyval → result pyval) : Prop :=
  ∀ v r, literal_eval_known v = Some r →
    match r with
    | Return w => literal_eval v = Return w
    | Raise _ => ∃ e, literal_eval v = Raise e
    end.

End Literal.

(** ** [parse_param] *)

Section ParseParam.

(** [ast.literal_eval], from the standard library. *)
Variable literal_eval : pyval → result pyval.

Definition parse_param (val : pyval) : result pyval :=
  if py_in val [VStr "None"; VNone; VStr ""] then Return VNone
  else match literal_eval val with
       | Return v => Return v
       | Raise _ => Return val
       end.

End ParseParam.


(** ** Text

    Text is a string of characters with code points below 256; the
    functions below are Python's [str] methods on such text (the case
    functions on its ASCII letters). *)

Module Text.

Definition code (c : ascii) : Z := Z.of_N (N_of_ascii c).
Definition chr (n : Z) : ascii := ascii_of_N (Z.to_N n).

Definition is_upper (c : ascii) : bool := (65 <=? code c) && (code c <=? 90).
Definition is_lower (c : ascii) : bool := (97 <=? code c) && (code c <=? 122).
Definition isalpha (c : ascii) : bool := is_upper c || is_lower c.

Definition upper_char (c : ascii) : ascii :=
  if is_lower c then chr (code c - 32) else c.
Definition lower_char (c : ascii) : ascii :=
  if is_upper c then chr (code c + 32) else c.

Definition isspace (c : ascii) : bool :=
  let n := code c in
  ((9 <=? n) && (n <=? 13)) || ((28 <=? n) && (n <=? 32))
  || (n =? 133) || (n =? 160).

Definition chars : string → list ascii := list_ascii_of_string.
Definition str : list ascii → string := string_of_list_ascii.

Definition upper (s : string) : string := str (map upper_char (chars s)).

Definition capitalize (s : string) : string :=
  match chars s with
  | [] => ""
  | c :: cs => str (upper_char c :: map lower_char cs)
  end.

Fixpoint lstrip (s : list ascii) : list ascii :=
  match s with
  | c :: s' => if isspace c then lstrip s' else s
  | [] => []
  end.

Definition strip (s : string) : string :=
  str (rev (lstrip (rev (lstrip (chars s))))).

Definition newline : string := String (chr 10) "".

Definition double_quote : ascii := chr 34.

Definition hex_digit (n : Z) : ascii :=
  if n <? 10 then chr (48 + n) else chr (87 + n).

(** [repr] of text: single quotes unless the text has a single quote and
    no double quote; the quote, the backslash and control characters are
    escaped. *)
Definition repr (s : string) : string :=
  let cs := chars s in
  let q : ascii :=
    if existsb (Ascii.eqb "'") cs && negb (existsb (Ascii.eqb double_quote) cs)
    then double_quote else "'"%char in
  let esc (c : ascii) : list ascii :=
    if (c =? "\")%char then ["\"; "\"]%char
    else if (c =? q)%char then ["\"%char; q]
    else if code c =? 10 then ["\"; "n"]%char
    else if code c =? 13 then ["\"; "r"]%char
    else if code c =? 9 then ["\"; "t"]%char
    else if (code c <? 32) || (code c =? 127)
    then ["\"%char; "x"%char; hex_digit (code c / 16); hex_digit (code c mod 16)]
    else [c] in
  str (q :: concat (map esc cs) ++ [q]).

End Text.

(** [str(v)] and [repr(v)]. *)
Fixpoint py_repr (v : pyval) : string :=
  match v with
  | VNone => "None"
  | VBool b => if b then "True" else "False"
  | VInt z => pretty z
  | VStr s => Text.repr s
  | VList l =>
      "[" +:+
      (fix join (l : list pyval) : string :=
         match l with
         | [] => ""
         | [x] => py_repr x
         | x :: l' => py_repr x +:+ ", " +:+ join l'
         end) l
      +:+ "]"
  end.

Definition py_str (v : pyval) : string :=
  match v with
  | VStr s => s
  | _ => py_repr v
  end.

(** ** The cipher provider as the page sees it

    An attribute of the [pycipher] module is used in two ways: the
    parameter names of its [__init__] are inspected, and it is called with
    keyword arguments.  What the call returns is used through [encipher] and
    [decipher] only.  Any of the four can raise. *)

Record cipher_obj : Type := CipherObj {
  encipher : string → result string;
  decipher : string → result string
}.

Record cipher_class : Type := CipherClass {
  init_parameters : result (list string);
  new : gmap string pyval → result cipher_obj
}.

(** ** The page's effects

    What a run shows on the page, and the operations it asks of the
    provider, in order. *)

Inductive ui_msg : Type :=
  | StError (body : string)
  | StSuccess (body : string)
  | StInfo (body : string)
  | StMarkdown (body : string).

Inductive call : Type :=
  | Getattr (name : string)
  | Signature (name : string)
  | Construct (name : string) (kwargs : gmap string pyval)
  | Encipher (text : string)
  | Decipher (text : string).

Definition is_transform (c : call) : bool :=
  match c with
  | Encipher _ | Decipher _ => true
  | _ => false
  end.

Record world : Type := World { ui : list ui_msg; calls : list call }.

Definition M (A : Type) : Type := world → result A * world.

Global Instance M_ret : MRet M := λ A a w, (Return a, w).
Global Instance M_bind : MBind M := λ A B k c w,
  match c w with
  | (Return a, w') => k a w'
  | (Raise e, w') => (Raise e, w')
  end.

Definition lift {A} (r : result A) : M A := λ w, (r, w).

Definition ask {A} (c : call) (r : result A) : M A :=
  λ w, (r, World (ui w) (calls w ++ [c])).

Definition show (m : ui_msg) : M unit :=
  λ w, (Return tt, World (ui w ++ [m]) (calls w)).

(** [try: body  except Exception as e: handler e] *)
Definition try_except_Exception {A} (body : M A) (handler : exn → M A) : M A :=
  λ w,
    match body w with
    | (Raise e, w') =>
        if is_Exception (exn_cls e) then handler e w' else (Raise e, w')
    | r => r
    end.

Fixpoint for_each {A S} (xs : list A) (body : S → A → M S) (s : S) : M S :=
  match xs with
  | [] => mret s
  | x :: xs' => s' ← body s x; for_each xs' body s'
  end.

(** The widgets of the page, read by key: what the user has set them to. *)
Record widgets : Type := Widgets {
  checkbox : string → bool;
  text_input : string → string → string;
  text_area : string → string → string;
  selectbox : string → list string → string;
  button : string → bool
}.

(** ** The default-parameter catalog *)

Definition cipher_params : list (string * list (string * pyval)) :=
  [ ("Atbash", []);
    ("SimpleSubstitution", [("key", VStr "AJPCZWRLFBDKOTYUQGENHXMIVS")]);
    ("Caesar", [("key", VInt 13)]);
    ("Affine", [("a", VInt 5); ("b", VInt 9)]);
    ("Autokey", [("key", VStr "FORTIFICATION")]);
    ("Beaufort", [("key", VStr "FORTIFICATION")]);
    ("Bifid", [("key", VStr "phqgmeaylnofdxkrcvszwbuti"); ("period", VInt 5)]);
    ("ColTrans", [("keyword", VStr "GERMAN")]);
    ("Gronsfeld", [("key", VStr "[5, 4, 7, 9]")]);
    ("Foursquare", [("key1", VStr "zgptfoihmuwdrcnykeqaxvsbl");
                    ("key2", VStr "mfnbdcrhsaxyogvituewlqzkp")]);
    ("PolybiusSquare", [("key", VStr "phqgiumeaylnofdxkrcvstzwb"); ("size", VInt 5)]);
    ("Playfair", [("key", VStr "ABCDEFGHIKLMNOPQRSTUVWXYZ")]);
    ("Vigenere", [("key", VStr "fortification")]);
    ("Rot13", []);
    ("Railfence", [("key", VInt 5)]) ].

(** [d[k]] on a dict given by its items. *)
Fixpoint dict_get {V} (d : list (string * V)) (k : string) : option V :=
  match d with
  | [] => None
  | (k', v) :: d' => if String.eqb k' k then Some v else dict_get d' k
  end.

Definition dict_getitem {V} (d : list (string * V)) (k : string) : result V :=
  match dict_get d k with
  | Some v => Return v
  | None => Raise (Exn KeyError (Text.repr k))
  end.

(** ** The page *)

Section Page.

(** [ast.literal_eval], the [pycipher] module's attributes, and the state
    of the widgets. *)
Variable literal_eval : pyval → result pyval.
Variable pycipher : string → result cipher_class.
Variable st : widgets.

Definition checkbox_key (section_prefix cipher_name p : string) : string :=
  section_prefix +:+ "_chk_" +:+ cipher_name +:+ "_" +:+ p.

Definition text_input_key (section_prefix cipher_name p : string) : string :=
  section_prefix +:+ "_inp_" +:+ cipher_name +:+ "_" +:+ p.

(** The body of [for p, default_val in params.items():]. *)
Definition param_row (cipher_name section_prefix : string)
    (user_inputs : gmap string pyval) (item : string * pyval)
  : M (gmap string pyval) :=
  let '(p, default_val) := item in
  parsed_default ← lift (parse_param literal_eval default_val);
  let use_param := checkbox st (checkbox_key section_prefix cipher_name p) in
  if use_param then
    let default_str :=
      match parsed_default with
      | VNone => ""
      | _ => py_str parsed_default
      end in
    let user_input :=
      text_input st (text_input_key section_prefix cipher_name p) default_str in
    v ← lift (parse_param literal_eval (VStr user_input));
    mret (<[p := v]> user_inputs)
  else mret user_inputs.

Definition build_param_ui (cipher_name section_prefix : string)
  : M (gmap string pyval) :=
  params ← lift (dict_getitem cipher_params cipher_name);
  show (StMarkdown ("**" +:+ Text.capitalize section_prefix
                    +:+ " Parameters – " +:+ cipher_name +:+ "**"));;
  match params with
  | _ :: _ => for_each params (param_row cipher_name section_prefix) ∅
  | [] =>
      show (StInfo "This cipher has no parameters.");;
      mret ∅
  end.

Definition safe_cipher_instance (cipher_name : string)
    (user_inputs : gmap string pyval) : M (option cipher_obj) :=
  try_except_Exception
    (cipher_class ← ask (Getattr cipher_name) (pycipher cipher_name);
     accepted_params ← ask (Signature cipher_name) (init_parameters cipher_class);
     let valid_inputs :=
       filter (λ kv : string * pyval, kv.1 ∈ accepted_params) user_inputs in
     obj ← ask (Construct cipher_name valid_inputs) (new cipher_class valid_inputs);
     mret (Some obj))
    (λ e,
       show (StError ("Error creating cipher instance: " +:+ exn_msg e));;
       mret None).

(** The body of [if st.button("Encipher", key="enc_btn"):]. *)
Definition encipher_clicked (enc_cipher : string)
    (enc_inputs : gmap string pyval) (enc_text : string) : M unit :=
  cipher_obj ← safe_cipher_instance enc_cipher enc_inputs;
  match cipher_obj with
  | Some obj =>
      try_except_Exception
        (let text := Text.strip enc_text in
         result ← ask (Encipher text) (encipher obj text);
         show (StSuccess ("🔐 Result:" +:+ Text.newline +:+ result)))
        (λ e, show (StError ("Encipher Failed: " +:+ exn_msg e)))
  | None => mret tt
  end.

(** The body of [if st.button("Decipher", key="dec_btn"):]. *)
Definition decipher_clicked (dec_cipher : string)
    (dec_inputs : gmap string pyval) (dec_text : string) : M unit :=
  cipher_obj ← safe_cipher_instance dec_cipher dec_inputs;
  match cipher_obj with
  | Some obj =>
      try_except_Exception
        (let text := Text.strip dec_text in
         result ← ask (Decipher text) (decipher obj text);
         show (StSuccess ("🔓 Result:" +:+ Text.newline +:+ result)))
        (λ e, show (StError ("Decipher Failed: " +:+ exn_msg e)))
  | None => mret tt
  end.

(** [sorted(cipher_params.keys())] *)
Definition cipher_names : list string :=
  merge_sort String.le (map fst cipher_params).

(** [main], without its layout: the columns, the headings, the separator
    and the help text shown after the buttons add nothing to what the
    buttons do.  An instance is always true in [if cipher_obj:]. *)
Definition main : M unit :=
  let enc_text := text_area st "enc_text" "HELLO" in
  let enc_cipher := selectbox st "enc_cipher" cipher_names in
  enc_inputs ← build_param_ui enc_cipher "enc";
  let dec_text := text_area st "dec_text" "" in
  let dec_cipher := selectbox st "dec_cipher" cipher_names in
  dec_inputs ← build_param_ui dec_cipher "dec";
  (if button st "enc_btn"
   then encipher_clicked enc_cipher enc_inputs enc_text
   else mret tt);;
  (if button st "dec_btn"
   then decipher_clicked dec_cipher dec_inputs dec_text
   else mret tt).

End Page.

(** ** The cipher classes

    The page imports its ciphers from the [pycipher] package and defines
    none of them, so the classes below are written from what the
    specification and the page's own help text say about them, in the shape
    the package gives them: a base class that maps letters to 0..25 and
    back and removes everything but letters, and one subclass per cipher. *)

Module Pycipher.

Definition rmap {A B} (f : A → B) (r : result A) : result B :=
  rbind r (λ a, Return (f a)).

(** Modelled from the spec: the base class of the package, absent from the
    sources.  A letter stands for its position 0..25, whatever its case;
    anything else is a [KeyError]. *)
Definition a2i (ch : ascii) : result Z :=
  let c := Text.upper_char ch in
  if Text.is_upper c then Return (Text.code c - 65)
  else Raise (Exn KeyError (Text.repr (String c ""))).

(** Modelled from the spec: the base class of the package, absent from the
    sources.  A position, taken modulo 26, stands for its upper-case
    letter. *)
Definition i2a (i : Z) : ascii := Text.chr (65 + i mod 26).

(** Modelled from the spec: the base class of the package, absent from the
    sources.  Before a transform the text is upper-cased and everything but
    the letters A to Z, the alphabet the ciphers work on, is removed. *)
Definition remove_punctuation (text : string) : list ascii :=
  List.filter Text.is_upper (map Text.upper_char (Text.chars text)).

(** Modelled from the spec: the loop of a letter-by-letter transform,
    absent from the sources:
    [for c in string: if c.isalpha(): ret += f(a2i(c)) else: ret += c]. *)
Fixpoint each_letter (f : Z → result ascii) (s : list ascii) : result (list ascii) :=
  match s with
  | [] => Return []
  | c :: s' =>
      rbind (if Text.isalpha c then rbind (a2i c) f else Return c) (λ c',
      rbind (each_letter f s') (λ r, Return (c' :: r)))
  end.

(** [key[i]] for a position [i]. *)
Definition key_at (key : list ascii) (i : Z) : result ascii :=
  match key !! Z.to_nat i with
  | Some c => Return c
  | None => Raise (Exn IndexError "string index out of range")
  end.

(** How Python binds the keyword arguments of a call of the class to an
    [__init__] whose parameters after [self] are [names], all with
    defaults. *)
Definition bind_keywords (names : list string) (kwargs : gmap string pyval)
  : result unit :=
  if bool_decide ("self" ∈ dom kwargs)
  then Raise (Exn TypeError "got multiple values for argument 'self'")
  else if bool_decide (map_Forall (λ k _, k ∈ names) kwargs)
  then Return tt
  else Raise (Exn TypeError "got an unexpected keyword argument").

Definition keyword (kwargs : gmap string pyval) (name : string) (dflt : pyval)
  : pyval :=
  default dflt (kwargs !! name).

(** Modelled from the spec: the substitution alphabet of [Atbash], absent
    from the sources: the alphabet reversed. *)
Definition Atbash_key : list ascii := Text.chars "ZYXWVUTSRQPONMLKJIHGFEDCBA".

(** Modelled from the spec: the transform of [Atbash], absent from the
    sources: each letter is replaced by the letter at its position in the
    reversed alphabet (HELLO becomes SVOOL). *)
Definition Atbash_encipher (text : string) : result string :=
  rmap Text.str (each_letter (key_at Atbash_key) (remove_punctuation text)).

(** Modelled from the spec: class [Atbash], absent from the sources.  No
    parameters; a simple substitution cipher reversing the alphabet,
    deciphering being enciphering. *)
Definition Atbash : cipher_class :=
  {| init_parameters := Return ["self"];
     new kwargs :=
       rbind (bind_keywords [] kwargs) (λ _,
       Return (CipherObj Atbash_encipher Atbash_encipher)) |}.

(** Modelled from the spec: the substitution alphabet of [Rot13], absent
    from the sources: the alphabet moved by 13. *)
Definition Rot13_key : list ascii := Text.chars "NOPQRSTUVWXYZABCDEFGHIJKLM".

(** Modelled from the spec: the transform of [Rot13], absent from the
    sources. *)
Definition Rot13_encipher (text : string) : result string :=
  rmap Text.str (each_letter (key_at Rot13_key) (remove_punctuation text)).

(** Modelled from the spec: class [Rot13], absent from the sources.  No
    parameters; the fixed Caesar cipher with shift 13, deciphering being
    enciphering. *)
Definition Rot13 : cipher_class :=
  {| init_parameters := Return ["self"];
     new kwargs :=
       rbind (bind_keywords [] kwargs) (λ _,
       Return (CipherObj Rot13_encipher Rot13_encipher)) |}.

(** Modelled from the spec: [Caesar.encipher], absent from the sources:
    each letter moves forward by the shift. *)
Definition Caesar_encipher (key : Z) (text : string) : result string :=
  rmap Text.str
    (each_letter (λ i, Return (i2a (i + key))) (remove_punctuation text)).

(** Modelled from the spec: [Caesar.decipher], absent from the sources:
    each letter moves backward by the shift. *)
Definition Caesar_decipher (key : Z) (text : string) : result string :=
  rmap Text.str
    (each_letter (λ i, Return (i2a (i - key))) (remove_punctuation text)).

(** Modelled from the spec: class [Caesar], absent from the sources.  One
    parameter [key], the integer shift (default 13), kept modulo 26.  Only
    integer keys are described: the constructor applies [%] to whatever it
    is given, and a key that is no integer is taken here as an error of
    that operation. *)
Definition Caesar : cipher_class :=
  {| init_parameters := Return ["self"; "key"];
     new kwargs :=
       rbind (bind_keywords ["key"] kwargs) (λ _,
       match as_int (keyword kwargs "key" (VInt 13)) with
       | Some key =>
           let key := key mod 26 in
           Return (CipherObj (Caesar_encipher key) (Caesar_decipher key))
       | None =>
           Raise (Exn TypeError "unsupported operand type(s) for %")
       end) |}.

(** Modelled from the spec: the search of [Affine]'s constructor, absent
    from the sources, for the inverse of the multiplier modulo 26 among the
    odd numbers below 26; [-1] when there is none. *)
Definition Affine_inverse (a : Z) : Z :=
  fold_left (λ inva i, if (a * i) mod 26 =? 1 then i else inva)
    [1; 3; 5; 7; 9; 11; 13; 15; 17; 19; 21; 23; 25] (-1).

(** Modelled from the spec: the arithmetic of an [Affine] transform on one
    letter, absent from the sources; it needs an integer [b]. *)
Definition Affine_shift (b : pyval) (k : Z → Z) : result ascii :=
  match as_int b with
  | Some b => Return (i2a (k b))
  | None => Raise (Exn TypeError "unsupported operand type(s)")
  end.

(** Modelled from the spec: [Affine.encipher], absent from the sources: a
    letter [x] becomes [a*x + b] modulo 26. *)
Definition Affine_encipher (a : Z) (b : pyval) (text : string) : result string :=
  rmap Text.str
    (each_letter (λ x, Affine_shift b (λ b, a * x + b)) (remove_punctuation text)).

(** Modelled from the spec: [Affine.decipher], absent from the sources: a
    letter [x] becomes [inva*(x - b)] modulo 26. *)
Definition Affine_decipher (inva : Z) (b : pyval) (text : string) : result string :=
  rmap Text.str
    (each_letter (λ x, Affine_shift b (λ b, inva * (x - b))) (remove_punctuation text)).

(** Modelled from the spec: class [Affine], absent from the sources.
    Parameters [a], the multiplier (default 5), and [b], the additive shift
    (default 9).  Construction fails when [a] has no inverse modulo 26, that
    is when it shares a factor with 26, and when [a] is not an integer; [b]
    is first used by the transforms. *)
Definition Affine : cipher_class :=
  {| init_parameters := Return ["self"; "a"; "b"];
     new kwargs :=
       rbind (bind_keywords ["a"; "b"] kwargs) (λ _,
       let b := keyword kwargs "b" (VInt 9) in
       match as_int (keyword kwargs "a" (VInt 5)) with
       | Some a =>
           let inva := Affine_inverse a in
           if (0 <=? inva) && (inva <=? 25)
           then Return (CipherObj (Affine_encipher a b) (Affine_decipher inva b))
           else Raise (Exn AssertionError
                  ("invalid key: a=" +:+ pretty a +:+ ", no inverse exists (mod 26)"))
       | None =>
           Raise (Exn TypeError "unsupported operand type(s) for %")
       end) |}.

(** [key.index(c)] *)
Definition index_of (key : list ascii) (c : ascii) : result Z :=
  match list_find (λ k, k = c) key with
  | Some (i, _) => Return (Z.of_nat i)
  | None => Raise (Exn ValueError (Text.repr (String c "") +:+ " is not in list"))
  end.

(** Modelled from the spec: the Playfair rule for one pair of letters,
    absent from the sources, on the 5 by 5 square [key] read row by row:
    letters in one row move [step] columns, letters in one column move
    [step] rows, other pairs swap columns. *)
Definition Playfair_pair (step : Z) (key : list ascii) (a b : ascii)
  : result (list ascii) :=
  rbind (index_of key a) (λ ia,
  rbind (index_of key b) (λ ib,
  let '(arow, acol) := (ia / 5, ia mod 5) in
  let '(brow, bcol) := (ib / 5, ib mod 5) in
  let at_ (r c : Z) := key_at key (r * 5 + c) in
  if arow =? brow then
    rbind (at_ arow ((acol + step) mod 5)) (λ x,
    rbind (at_ brow ((bcol + step) mod 5)) (λ y, Return [x; y]))
  else if acol =? bcol then
    rbind (at_ ((arow + step) mod 5) acol) (λ x,
    rbind (at_ ((brow + step) mod 5) bcol) (λ y, Return [x; y]))
  else
    rbind (at_ arow bcol) (λ x,
    rbind (at_ brow acol) (λ y, Return [x; y])))).

(** Modelled from the spec: [Playfair.encipher_pair], absent from the
    sources: the second of two equal letters is replaced by X. *)
Definition encipher_pair (key : list ascii) (a b : ascii) : result (list ascii) :=
  let b := if (a =? b)%char then "X"%char else b in
  Playfair_pair 1 key a b.

(** Modelled from the spec: [Playfair.decipher_pair], absent from the
    sources: two equal letters cannot be deciphered. *)
Definition decipher_pair (key : list ascii) (a b : ascii) : result (list ascii) :=
  if (a =? b)%char
  then Raise (Exn AssertionError
         "two of the same letters occurred together, illegal in playfair")
  else Playfair_pair (-1) key a b.

(** [for c in range(0, len(string), 2): ret += f(string[c], string[c+1])]
    on a text of even length. *)
Fixpoint by_pairs (f : ascii → ascii → result (list ascii)) (s : list ascii)
  : result (list ascii) :=
  match s with
  | a :: b :: s' =>
      rbind (f a b) (λ r, rbind (by_pairs f s') (λ rest, Return (r ++ rest)))
  | _ => Return []
  end.

(** [if len(string) % 2 == 1: string += 'X'] *)
Definition pad_X (s : list ascii) : list ascii :=
  if Nat.odd (length s) then s ++ ["X"%char] else s.

(** Modelled from the spec: [Playfair.encipher], absent from the sources:
    J is read as I, a text of odd length gets an X appended, and the text
    is enciphered two letters at a time. *)
Definition Playfair_encipher (key : list ascii) (text : string) : result string :=
  let s := remove_punctuation text in
  let s := map (λ c, if (c =? "J")%char then "I"%char else c) s in
  rmap Text.str (by_pairs (encipher_pair key) (pad_X s)).

(** Modelled from the spec: [Playfair.decipher], absent from the
    sources. *)
Definition Playfair_decipher (key : list ascii) (text : string) : result string :=
  rmap Text.str (by_pairs (decipher_pair key) (pad_X (remove_punctuation text))).

(** Modelled from the spec: class [Playfair], absent from the sources.  One
    parameter [key], the 25 letters of the square (default the alphabet
    without J); a key of another length, or one that is not text, is a
    construction error. *)
Definition Playfair : cipher_class :=
  {| init_parameters := Return ["self"; "key"];
     new kwargs :=
       rbind (bind_keywords ["key"] kwargs) (λ _,
       match keyword kwargs "key" (VStr "ABCDEFGHIKLMNOPQRSTUVWXYZ") with
       | VStr key =>
           if (String.length key =? 25)%nat
           then let key := map Text.upper_char (Text.chars key) in
                Return (CipherObj (Playfair_encipher key) (Playfair_decipher key))
           else Raise (Exn AssertionError "playfair key is not length 25")
       | _ => Raise (Exn TypeError "playfair key is not text")
       end) |}.

(** The attributes of the package described above; [None] for a name that
    is not described here. *)
Definition known (name : string) : option cipher_class :=
  if String.eqb name "Atbash" then Some Atbash
  else if String.eqb name "Rot13" then Some Rot13
  else if String.eqb name "Caesar" then Some Caesar
  else if String.eqb name "Affine" then Some Affine
  else if String.eqb name "Playfair" then Some Playfair
  else None.

(** A provider that has the classes above under their names. *)
Definition provides (pycipher : string → result cipher_class) : Prop :=
  ∀ name cls, known name = Some cls → pycipher name = Return cls.

(** The described classes alone: every other name is a missing attribute. *)
Definition getattr (name : string) : result cipher_class :=
  match known name with
  | Some cls => Return cls
  | None =>
      Raise (Exn AttributeError
        ("module 'pycipher' has no attribute " +:+ Text.repr name))
  end.

End Pycipher.

(** ** PKCS7 padding *)

Module Padding.

Global Instance byte_eq_decision : EqDecision byte := Byte.byte_eq_dec.

Definition len {A} (l : list A) : Z := Z.of_nat (length l).

Definition int_of_byte (b : byte) : Z := Z.of_N (Byte.to_N b).

(** [bytes(ints)]: every item must be in [range(0, 256)]. *)
Fixpoint bytes (ints : list Z) : result (list byte) :=
  match ints with
  | [] => Return []
  | i :: ints' =>
      match (if 0 <=? i then Byte.of_N (Z.to_N i) else None) with
      | Some b => rbind (bytes ints') (λ bs, Return (b :: bs))
      | None => Raise (Exn ValueError "bytes must be in range(0, 256)")
      end
  end.

(** [[x] * n]: empty when [n] is not positive. *)
Definition repeated {A} (x : A) (n : Z) : list A := replicate (Z.to_nat n) x.

(** A slice bound: negative bounds count from the end, and every bound is
    clamped to the sequence. *)
Definition bound {A} (l : list A) (i : Z) : nat :=
  Z.to_nat (Z.min (len l) (Z.max 0 (if i <? 0 then len l + i else i))).

(** [l[i:]] and [l[:i]] *)
Definition slice_from {A} (l : list A) (i : Z) : list A := drop (bound l i) l.
Definition slice_to {A} (l : list A) (i : Z) : list A := take (bound l i) l.

(** [data[-1]] *)
Definition last_byte (data : list byte) : result Z :=
  match last data with
  | Some b => Return (int_of_byte b)
  | None => Raise (Exn IndexError "index out of range")
  end.

Definition pkcs7_pad (data : list byte) (block_size : Z) : result (list byte) :=
  if block_size =? 0
  then Raise (Exn ZeroDivisionError "integer modulo by zero")
  else
    let pad_len := block_size - (len data mod block_size) in
    rbind (bytes (repeated pad_len pad_len)) (λ pad, Return (data ++ pad)).

Definition pkcs7_unpad (data : list byte) : result (list byte) :=
  rbind (last_byte data) (λ pad_len,
  if (pad_len <? 1) || (len data <? pad_len)
  then Raise (Exn ValueError "Invalid padding length")
  else
    rbind (bytes (repeated pad_len pad_len)) (λ pad,
    if bool_decide (slice_from data (- pad_len) ≠ pad)
    then Raise (Exn ValueError "Invalid PKCS7 padding bytes")
    else Return (slice_to data (- pad_len)))).

Definition zero_pad (data : list byte) (block_size : Z) : result (list byte) :=
  if block_size =? 0
  then Raise (Exn ZeroDivisionError "integer modulo by zero")
  else
    let pad_len := block_size - (len data mod block_size) in
    rbind (bytes (repeated 0 pad_len)) (λ pad, Return (data ++ pad)).

(** [data.rstrip(b'\x00')] *)
Definition zero_unpad (data : list byte) : list byte :=
  fold_right (λ b rest,
                match rest with
                | [] => if bool_decide (b = "000"%byte) then [] else [b]
                | _ => b :: rest
                end) [] data.

(** [l[i:j]] *)
Definition slice {A} (l : list A) (i j : Z) : list A :=
  take (bound l j - bound l i) (drop (bound l i) l).

Definition ansi_x923_pad (data : list byte) (block_size : Z) : result (list byte) :=
  if block_size =? 0
  then Raise (Exn ZeroDivisionError "integer modulo by zero")
  else
    let pad_len := block_size - (len data mod block_size) in
    rbind (bytes (repeated 0 (pad_len - 1))) (λ zeros,
    rbind (bytes [pad_len]) (λ last, Return (data ++ zeros ++ last))).

Definition ansi_x923_unpad (data : list byte) : result (list byte) :=
  rbind (last_byte data) (λ pad_len,
  if (pad_len <? 1) || (len data <? pad_len)
  then Raise (Exn ValueError "Invalid padding length")
  else
    rbind (bytes (repeated 0 (pad_len - 1))) (λ zeros,
    if bool_decide (slice data (- pad_len) (-1) ≠ zeros)
    then Raise (Exn ValueError "Invalid ANSI X.923 padding")
    else Return (slice_to data (- pad_len)))).

Section Random.

(** [os.urandom], from the standard library. *)
Variable urandom : Z → result (list byte).

Definition iso_10126_pad (data : list byte) (block_size : Z) : result (list byte) :=
  if block_size =? 0
  then Raise (Exn ZeroDivisionError "integer modulo by zero")
  else
    let pad_len := block_size - (len data mod block_size) in
    rbind (urandom (pad_len - 1)) (λ noise,
    rbind (bytes [pad_len]) (λ last, Return (data ++ noise ++ last))).

End Random.

Definition iso_10126_unpad (data : list byte) : result (list byte) :=
  rbind (last_byte data) (λ pad_len,
  if (pad_len <? 1) || (len data <? pad_len)
  then Raise (Exn ValueError "Invalid padding length")
  else Return (slice_to data (- pad_len))).

(** What [os.urandom] promises: as many bytes as asked for, and a
    [ValueError] for a negative size. *)
Definition urandom_ok (urandom : Z → result (list byte)) : Prop :=
  ∀ n,
    if n <? 0
    then ∃ msg, urandom n = Raise (Exn ValueError msg)
    else ∃ noise, urandom n = Return noise ∧ len noise = n.

(** A source for the examples: zero bytes. *)
Definition urandom_zeros (n : Z) : result (list byte) :=
  if n <? 0 then Raise (Exn ValueError "negative argument not allowed")
  else Return (repeated "000"%byte n).

End Padding.

(** ** UTF-8 on ASCII text, and hexadecimal text *)

Module Codec.

Definition ascii_char (c : ascii) : bool := Text.code c <? 128.
Definition ascii_byte (b : byte) : bool := Padding.int_of_byte b <? 128.

(** What [str.encode("utf-8")] gives on ASCII text: one byte per character,
    of the same code.  [None] for other text: not decided here. *)
Definition encode_known (s : string) : option (list byte) :=
  if forallb ascii_char (Text.chars s)
  then Some (map byte_of_ascii (Text.chars s))
  else None.

(** What [bytes.decode("utf-8")] gives on bytes below 128. *)
Definition decode_known (bs : list byte) : option string :=
  if forallb ascii_byte bs
  then Some (Text.str (map ascii_of_byte bs))
  else None.

(** A codec that agrees with UTF-8 on ASCII. *)
Definition extends_known (encode : string → result (list byte))
    (decode : list byte → result string) : Prop :=
  (∀ s bs, encode_known s = Some bs → encode s = Return bs)
  ∧ (∀ bs s, decode_known bs = Some s → decode bs = Return s).

(** The codec completed with a failure outside ASCII. *)
Definition encode_default (s : string) : result (list byte) :=
  match encode_known s with
  | Some bs => Return bs
  | None => Raise (Exn ValueError "'utf-8' codec can't encode")
  end.

Definition decode_default (bs : list byte) : result string :=
  match decode_known bs with
  | Some s => Return s
  | None => Raise (Exn ValueError "'utf-8' codec can't decode")
  end.

Definition hex_char (n : Z) : ascii :=
  if n <? 10 then Text.chr (48 + n) else Text.chr (87 + n).

(** [bytes.hex()] *)
Definition hex (bs : list byte) : string :=
  Text.str (concat (map (λ b, let n := Padding.int_of_byte b in
                              [hex_char (n / 16); hex_char (n mod 16)]) bs)).

(** The value of a hexadecimal digit, in either case. *)
Definition hex_val (c : ascii) : option Z :=
  let n := Text.code c in
  if (48 <=? n) && (n <=? 57) then Some (n - 48)
  else if (97 <=? n) && (n <=? 102) then Some (n - 87)
  else if (65 <=? n) && (n <=? 70) then Some (n - 55)
  else None.

(** The blanks [bytes.fromhex] skips between two bytes. *)
Definition c_isspace (c : ascii) : bool :=
  let n := Text.code c in ((9 <=? n) && (n <=? 13)) || (n =? 32).

Definition not_hex (pos : nat) : exn :=
  Exn ValueError
    ("non-hexadecimal number found in fromhex() arg at position " +:+ pretty pos).

(** [bytes.fromhex(text)], reading [text] from position [pos] on. *)
Fixpoint fromhex_from (pos : nat) (cs : list ascii) : result (list byte) :=
  match cs with
  | [] => Return []
  | c :: cs1 =>
      if c_isspace c then fromhex_from (S pos) cs1
      else
        match hex_val c with
        | None => Raise (not_hex pos)
        | Some top =>
            match cs1 with
            | [] => Raise (not_hex (S pos))
            | d :: cs2 =>
                match hex_val d with
                | None => Raise (not_hex (S pos))
                | Some bot =>
                    match Byte.of_N (Z.to_N (16 * top + bot)) with
                    | Some b =>
                        rbind (fromhex_from (S (S pos)) cs2) (λ bs, Return (b :: bs))
                    | None => Raise (not_hex pos)
                    end
                end
            end
        end
  end.

(** The position of the first character that is not ASCII. *)
Fixpoint first_non_ascii (pos : nat) (cs : list ascii) : option nat :=
  match cs with
  | [] => None
  | c :: cs' => if ascii_char c then first_non_ascii (S pos) cs' else Some pos
  end.

(** [bytes.fromhex(text)]: a text that is not all ASCII is refused at its
    first character that is not, before anything is read. *)
Definition fromhex (text : string) : result (list byte) :=
  match first_non_ascii 0 (Text.chars text) with
  | Some pos => Raise (not_hex pos)
  | None => fromhex_from 0 (Text.chars text)
  end.

(** The whitespace of [str.split()] among the characters below 256. *)
Definition isspace (c : ascii) : bool :=
  let n := Text.code c in
  ((9 <=? n) && (n <=? 13)) || ((28 <=? n) && (n <=? 32))
  || (n =? 133) || (n =? 160).

(** [''.join(text.split())]: the text without its whitespace. *)
Definition join_split (text : string) : string :=
  Text.str (List.filter (λ c, negb (isspace c)) (Text.chars text)).

End Codec.

(** ** The padding page *)

Module PaddingPage.

Record scheme : Type := Scheme {
  pad_func : list byte → Z → result (list byte);
  unpad_func : list byte → result (list byte)
}.

(** The three keys of the session that a computation writes. *)
Record outputs : Type := Outputs {
  output_hex : string;
  output_text : string;
  error : option string
}.

Section Handler.

(** [os.urandom], [str.encode("utf-8")] and [bytes.decode("utf-8")]. *)
Variable urandom : Z → result (list byte).
Variable encode : string → result (list byte).
Variable decode : list byte → result string.

Definition paddings : list (string * scheme) :=
  [ ("PKCS7", Scheme Padding.pkcs7_pad Padding.pkcs7_unpad);
    ("Zero", Scheme Padding.zero_pad (λ data, Return (Padding.zero_unpad data)));
    ("ANSI X.923", Scheme Padding.ansi_x923_pad Padding.ansi_x923_unpad);
    ("ISO 10126", Scheme (Padding.iso_10126_pad urandom) Padding.iso_10126_unpad) ].

(** The body of the [try] under [if compute:]. *)
Definition compute_body (padding_type action : string) (block_size : Z)
    (input_text : string) : result outputs :=
  rbind (dict_getitem paddings padding_type) (λ funcs,
  rbind
    (if String.eqb action "Pad" then
       rbind (encode input_text) (λ input_bytes,
       pad_func funcs input_bytes block_size)
     else
       let hex_clean := Codec.join_split input_text in
       if (String.length hex_clean =? 0)%nat
          || negb (String.length hex_clean mod 2 =? 0)%nat
       then Raise (Exn ValueError
                     "Input hex string must be even-length and not empty")
       else
         match Codec.fromhex hex_clean with
         | Return input_bytes => unpad_func funcs input_bytes
         | Raise e =>
             match exn_cls e with
             | ValueError =>
                 Raise (Exn ValueError ("Invalid hex input: " +:+ exn_msg e))
             | _ => Raise e
             end
         end)
    (λ output_bytes,
  rbind (if String.eqb action "Unpad" then decode output_bytes else Return "")
    (λ text,
  Return (Outputs (Codec.hex output_bytes) text None)))).

(** [if compute:] with its [except Exception as e:]. *)
Definition compute (padding_type action : string) (block_size : Z)
    (input_text : string) : result outputs :=
  match compute_body padding_type action block_size input_text with
  | Return o => Return o
  | Raise e =>
      if is_Exception (exn_cls e)
      then Return (Outputs "" "" (Some (exn_msg e)))
      else Raise e
  end.

End Handler.

End PaddingPage.

(** * The vocabulary of the statements *)

(** The catalog as the specification words it. *)
Definition spec_catalog : list (string * list (string * pyval)) :=
  [ ("Caesar", [("shift", VInt 13)]);
    ("Affine", [("multiplier", VInt 5); ("additive", VInt 9)]);
    ("Atbash", []);
    ("Gronsfeld", [("key", VList [VInt 5; VInt 4; VInt 7; VInt 9])]) ].

(** ** Worlds *)

Definition empty_world : world := World [] [].

(** [w] followed by what [d] holds. *)
Definition extend (w d : world) : world :=
  World (ui w ++ ui d) (calls w ++ calls d).

(** A computation reads nothing of the world it starts in: its result and
    what it adds to the page and to the provider's trace are those of a run
    from the empty world. *)
Definition framed {A} (c : M A) : Prop :=
  ∀ w, c w = ((c empty_world).1, extend w (c empty_world).2).

(** The result of a computation and what it adds to the page and to the
    provider's trace do not depend on the world it starts in. *)
Definition same_outcome {A} (c : M A) : Prop :=
  ∀ w1 w2,
    (c w1).1 = (c w2).1
    ∧ ∃ d, (c w1).2 = extend w1 d ∧ (c w2).2 = extend w2 d.

(** ** Construction *)

(** What the handler of [safe_cipher_instance] leaves for an exception
    raised after the provider was asked [cs]. *)
Definition reported (e : exn) (cs : list call) (w : world)
  : result (option cipher_obj) * world :=
  if is_Exception (exn_cls e)
  then (Return None,
        extend w (World [StError ("Error creating cipher instance: " +:+ exn_msg e)] cs))
  else (Raise e, extend w (World [] cs)).

(** The entries of [user_inputs] whose key is an accepted name: the
    [valid_inputs] of [safe_cipher_instance]. *)
Definition kept (accepted : list string) (user_inputs : gmap string pyval)
  : gmap string pyval :=
  filter (λ kv : string * pyval, kv.1 ∈ accepted) user_inputs.

(** [k] is a parameter name of the [__init__] of the class called [name]. *)
Definition accepts (pycipher : string → result cipher_class) (name k : string)
  : Prop :=
  ∃ cls accepted,
    pycipher name = Return cls
    ∧ init_parameters cls = Return accepted
    ∧ k ∈ accepted.

(** The provider raises subclasses of [Exception] only. *)
Definition raises_only_Exception (pycipher : string → result cipher_class)
  : Prop :=
  ∀ name,
    match pycipher name with
    | Raise e => is_Exception (exn_cls e) = true
    | Return cls =>
        (∀ e, init_parameters cls = Raise e →
           is_Exception (exn_cls e) = true)
        ∧ (∀ kwargs e, new cls kwargs = Raise e →
             is_Exception (exn_cls e) = true)
    end.

(** [Affine]'s two parameters as keyword arguments. *)
Definition Affine_kwargs (a b : pyval) : gmap string pyval :=
  <["a" := a]> {["b" := b]}.

(** The range the constructor of [Affine] asserts for the inverse. *)
Definition in_range (inva : Z) : bool := (0 <=? inva) && (inva <=? 25).

(** ** The form *)

(** The checkbox of parameter [p] is ticked. *)
Definition enabled (st : widgets) (cipher_name section_prefix p : string) : bool :=
  checkbox st (checkbox_key section_prefix cipher_name p).

(** Widgets as the page first shows them (every parameter ticked, every
    field at its default, the first cipher selected, no button clicked),
    except that the checkboxes with a key in [off] are not ticked. *)
Definition untouched_but (off : list string) : widgets :=
  {| checkbox key := negb (bool_decide (key ∈ off));
     text_input _ value := value;
     text_area _ value := value;
     selectbox _ options := default "" (head options);
     button _ := false |}.

(** ** Round trips *)

(** Text over the ciphers' alphabet: the letters A to Z. *)
Definition upper_text (s : list ascii) : Prop :=
  Forall (λ c, Text.is_upper c = true) s.

(** [f2] undoes [f1] on the positions 0..25, and [f1] yields letters. *)
Definition undoes (f1 f2 : Z → result ascii) : Prop :=
  ∀ i, 0 ≤ i < 26 →
    ∃ c, f1 i = Return c
         ∧ Text.is_upper c = true
         ∧ f2 (Text.code c - 65) = Return (Text.chr (65 + i)).

(** Deciphering what [obj] enciphers [x] to returns [x]. *)
Definition round_trips (obj : cipher_obj) (x : string) : Prop :=
  ∃ y, encipher obj x = Return y ∧ decipher obj y = Return x.

(** ** The standard library and the instances *)

(** A function that raises subclasses of [Exception] only. *)
Definition raises_Exception_only {A B} (f : A → result B) : Prop :=
  ∀ a e, f a = Raise e → is_Exception (exn_cls e) = true.

(** The instances that the provider constructs raise subclasses of
    [Exception] only, in both transforms. *)
Definition transforms_raise_only_Exception
    (pycipher : string → result cipher_class) : Prop :=
  ∀ name cls kwargs obj,
    pycipher name = Return cls → new cls kwargs = Return obj →
    raises_Exception_only (encipher obj) ∧ raises_Exception_only (decipher obj).

(** The text in lower case. *)
Definition lower_text (s : string) : string :=
  Text.str (map Text.lower_char (Text.chars s)).

(** The text of the field of parameter [p], shown with the parsed default
    [parsed_default] of the catalog: the [user_input] of [build_param_ui]. *)
Definition field_text (st : widgets) (cipher_name section_prefix p : string)
    (parsed_default : pyval) : string :=
  text_input st (text_input_key section_prefix cipher_name p)
    match parsed_default with
    | VNone => ""
    | _ => py_str parsed_default
    end.

(** * Properties *)

(** ** PKCS7 *)

Section PaddingFacts.
Import Padding.

Lemma byte_of_int (k : Z) :
  0 ≤ k ≤ 255 → ∃ b, Byte.of_N (Z.to_N k) = Some b ∧ int_of_byte b = k.
Proof.
  intros Hk.
  destruct (Byte.of_N (Z.to_N k)) as [b|] eqn:E.
  - exists b. split; [done|].
    apply Byte.to_of_N in E. unfold int_of_byte. rewrite E. lia.
  - apply Byte.of_N_None_iff in E. lia.
Qed.

Lemma bytes_replicate (m : nat) (k : Z) (b : byte) :
  0 ≤ k → Byte.of_N (Z.to_N k) = Some b →
  bytes (replicate m k) = Return (replicate m b).
Proof.
  intros Hk Hb. induction m as [|m IH]; simpl; [done|].
  destruct (0 <=? k) eqn:E; [|lia].
  rewrite Hb, IH. done.
Qed.

Lemma last_replicate_app {A} (l : list A) (m : nat) (x : A) :
  last (l ++ replicate (S m) x) = Some x.
Proof.
  rewrite replicate_S_end, app_assoc. apply last_snoc.
Qed.

Lemma len_app {A} (l k : list A) : len (l ++ k) = len l + len k.
Proof. unfold len. rewrite length_app. lia. Qed.

Lemma len_replicate {A} (m : nat) (x : A) : len (replicate m x) = Z.of_nat m.
Proof. unfold len. by rewrite length_replicate. Qed.

Lemma slice_from_suffix {A} (l k : list A) :
  k ≠ [] → slice_from (l ++ k) (- len k) = k.
Proof.
  intros Hk. unfold slice_from, bound.
  assert (0 < len k) by (unfold len; destruct k; simpl; [done|lia]).
  destruct (Z.ltb_spec (- len k) 0); [|lia].
  rewrite len_app.
  replace (Z.to_nat _) with (length l) by (unfold len in *; lia).
  by rewrite drop_app_length.
Qed.

Lemma slice_to_suffix {A} (l k : list A) :
  k ≠ [] → slice_to (l ++ k) (- len k) = l.
Proof.
  intros Hk. unfold slice_to, bound.
  assert (0 < len k) by (unfold len; destruct k; simpl; [done|lia]).
  destruct (Z.ltb_spec (- len k) 0); [|lia].
  rewrite len_app.
  replace (Z.to_nat _) with (length l) by (unfold len in *; lia).
  by rewrite take_app_length.
Qed.

(** What [pkcs7_pad] returns for a block size between 1 and 255: the data
    followed by [pad_len] bytes of value [pad_len]. *)
Lemma pkcs7_pad_spec (data : list byte) (n : Z) :
  1 ≤ n ≤ 255 →
  ∃ b m, pkcs7_pad data n = Return (data ++ replicate (S m) b)
         ∧ int_of_byte b = Z.of_nat (S m)
         ∧ Z.of_nat (S m) = n - len data mod n.
Proof.
  intros Hn. unfold pkcs7_pad.
  destruct (Z.eqb_spec n 0); [lia|].
  pose proof (Z.mod_pos_bound (len data) n ltac:(lia)) as Hm.
  set (k := n - len data mod n) in *.
  destruct (byte_of_int k ltac:(lia)) as (b & Hb & Hk).
  exists b, (Z.to_nat k - 1)%nat.
  replace (S (Z.to_nat k - 1)) with (Z.to_nat k) by lia.
  unfold repeated. rewrite (bytes_replicate _ _ b) by (done || lia).
  simpl. split; [done|]. split; lia.
Qed.

Lemma pkcs7_unpad_padded (data : list byte) (b : byte) (m : nat) :
  int_of_byte b = Z.of_nat (S m) →
  pkcs7_unpad (data ++ replicate (S m) b) = Return data.
Proof.
  intros Hb. unfold pkcs7_unpad, last_byte.
  rewrite last_replicate_app. cbn [rbind]. rewrite Hb.
  destruct (Z.ltb_spec (Z.of_nat (S m)) 1); [lia|].
  rewrite len_app, len_replicate.
  destruct (Z.ltb_spec (len data + Z.of_nat (S m)) (Z.of_nat (S m)));
    [unfold len in *; lia|].
  cbn [orb]. unfold repeated. rewrite Nat2Z.id.
  assert (Hof : Byte.of_N (Z.to_N (Z.of_nat (S m))) = Some b).
  { rewrite <- Hb. unfold int_of_byte. rewrite N2Z.id. apply Byte.of_to_N. }
  rewrite (bytes_replicate _ _ b) by (done || lia).
  cbn [rbind].
  assert (Hl : Z.of_nat (S m) = len (replicate (S m) b))
    by (by rewrite len_replicate).
  rewrite Hl, slice_from_suffix, slice_to_suffix by done.
  rewrite bool_decide_eq_false_2 by (intros Hne; by apply Hne).
  done.
Qed.

End PaddingFacts.

(** C9. PKCS7 padding round-trips: for every byte string [data] and every
    block size [n] with 1 ≤ n ≤ 255, [pkcs7_pad data n] returns a byte string
    that [pkcs7_unpad] turns back into [data], and whose length is a
    positive multiple of [n] strictly greater than the length of [data]. *)
Theorem pkcs7_roundtrip (data : list byte) (n : Z) :
  1 ≤ n ≤ 255 →
  ∃ padded,
    Padding.pkcs7_pad data n = Return padded
    ∧ Padding.pkcs7_unpad padded = Return data
    ∧ Padding.len padded mod n = 0
    ∧ 0 < Padding.len padded
    ∧ Padding.len data < Padding.len padded.
Proof.
  intros Hn.
  destruct (pkcs7_pad_spec data n Hn) as (b & m & Hpad & Hb & Hm).
  exists (data ++ replicate (S m) b).
  split; [done|]. split; [by apply pkcs7_unpad_padded|].
  rewrite len_app, len_replicate, Hm.
  pose proof (Z.mod_pos_bound (Padding.len data) n ltac:(lia)) as Hr.
  assert (0 ≤ Padding.len data) by (unfold Padding.len; lia).
  split; [|split; lia].
  replace (Padding.len data + (n - Padding.len data mod n))
    with (Padding.len data - Padding.len data mod n + 1 * n) by lia.
  rewrite Z.mod_add by lia.
  rewrite <- Zminus_mod_idemp_l, Z.sub_diag. by apply Z.mod_0_l; lia.
Qed.

Lemma pkcs7_roundtrip_witness :
  ∃ padded,
    Padding.pkcs7_pad ["H"%byte; "e"%byte; "y"%byte] 16 = Return padded
    ∧ Padding.pkcs7_unpad padded = Return ["H"%byte; "e"%byte; "y"%byte]
    ∧ Padding.len padded mod 16 = 0
    ∧ 0 < Padding.len padded
    ∧ Padding.len ["H"%byte; "e"%byte; "y"%byte] < Padding.len padded.
Proof. apply (pkcs7_roundtrip ["H"%byte; "e"%byte; "y"%byte] 16). lia. Defined.

Example pkcs7_pad_Hey :
  Padding.pkcs7_pad ["H"%byte; "e"%byte; "y"%byte] 4
  = Return ["H"%byte; "e"%byte; "y"%byte; "001"%byte].
Proof. reflexivity. Qed.

Example pkcs7_pad_full_block :
  Padding.pkcs7_pad ["H"%byte; "e"%byte] 2
  = Return ["H"%byte; "e"%byte; "002"%byte; "002"%byte].
Proof. reflexivity. Qed.

Example pkcs7_unpad_rejects :
  Padding.pkcs7_unpad ["H"%byte; "002"%byte]
  = Raise (Exn ValueError "Invalid PKCS7 padding bytes").
Proof. reflexivity. Qed.

(** ** Parameter parsing *)

Example parse_param_catalog_integer :
  parse_param Literal.literal_eval_default (VInt 13) = Return (VInt 13).
Proof. reflexivity. Qed.

Example parse_param_keyword :
  parse_param Literal.literal_eval_default (VStr "FORTIFICATION")
  = Return (VStr "FORTIFICATION").
Proof. by vm_compute. Qed.

Lemma default_extends_known : Literal.extends_known Literal.literal_eval_default.
Proof.
  intros v r Hr. unfold Literal.literal_eval_default. rewrite Hr.
  destruct r; eauto.
Qed.

Lemma parse_param_returns (literal_eval : pyval → result pyval) (val : pyval) :
  ∃ v, parse_param literal_eval val = Return v.
Proof.
  unfold parse_param.
  destruct (py_in val _); [eauto|].
  destruct (literal_eval val); eauto.
Qed.

Lemma parse_param_literal (literal_eval : pyval → result pyval) (s : string) (v : pyval) :
  Literal.extends_known literal_eval →
  py_in (VStr s) [VStr "None"; VNone; VStr ""] = false →
  Literal.literal_eval_known (VStr s) = Some (Return v) →
  parse_param literal_eval (VStr s) = Return v.
Proof.
  intros Hext Hin Hs. unfold parse_param. rewrite Hin.
  by rewrite (Hext _ _ Hs).
Qed.

Lemma parse_param_fallback (literal_eval : pyval → result pyval) (s : string) (e : exn) :
  s ≠ "" → s ≠ "None" → literal_eval (VStr s) = Raise e →
  parse_param literal_eval (VStr s) = Return (VStr s).
Proof.
  intros H1 H2 He. unfold parse_param, py_in. simpl.
  apply String.eqb_neq in H1, H2. rewrite H1, H2. simpl.
  by rewrite He.
Qed.

(** C1. [parse_param] never raises: on every value it returns a value.  The
    empty text, the text [None] and [None] itself give [None]; the text
    [13] gives the integer 13; the text [[5, 4, 7, 9]] gives the list of
    these four integers; and any other text on which [ast.literal_eval]
    raises, such as [not a literal {{{], comes back unchanged as text.
    [literal_eval] is any evaluator that behaves as the standard one on the
    inputs [Literal.literal_eval_known] decides. *)
Theorem parse_param_total (literal_eval : pyval → result pyval) :
  Literal.extends_known literal_eval →
  (∀ val, ∃ v, parse_param literal_eval val = Return v)
  ∧ parse_param literal_eval (VStr "") = Return VNone
  ∧ parse_param literal_eval (VStr "None") = Return VNone
  ∧ parse_param literal_eval VNone = Return VNone
  ∧ parse_param literal_eval (VStr "13") = Return (VInt 13)
  ∧ parse_param literal_eval (VStr "[5, 4, 7, 9]")
    = Return (VList [VInt 5; VInt 4; VInt 7; VInt 9])
  ∧ (∀ s e, s ≠ "" → s ≠ "None" → literal_eval (VStr s) = Raise e →
       parse_param literal_eval (VStr s) = Return (VStr s))
  ∧ parse_param literal_eval (VStr "not a literal {{{")
    = Return (VStr "not a literal {{{").
Proof.
  intros Hext.
  split; [apply parse_param_returns|].
  do 3 (split; [reflexivity|]).
  split; [by apply parse_param_literal|].
  split; [by apply parse_param_literal|].
  split; [intros s e; apply parse_param_fallback|].
  destruct (Hext (VStr "not a literal {{{") (Raise (Exn SyntaxError "invalid syntax")))
    as [e He]; [by vm_compute|].
  by apply (parse_param_fallback _ _ e).
Qed.

Lemma parse_param_total_witness :
  (∀ val, ∃ v, parse_param Literal.literal_eval_default val = Return v)
  ∧ parse_param Literal.literal_eval_default (VStr "") = Return VNone
  ∧ parse_param Literal.literal_eval_default (VStr "None") = Return VNone
  ∧ parse_param Literal.literal_eval_default VNone = Return VNone
  ∧ parse_param Literal.literal_eval_default (VStr "13") = Return (VInt 13)
  ∧ parse_param Literal.literal_eval_default (VStr "[5, 4, 7, 9]")
    = Return (VList [VInt 5; VInt 4; VInt 7; VInt 9])
  ∧ (∀ s e, s ≠ "" → s ≠ "None" →
       Literal.literal_eval_default (VStr s) = Raise e →
       parse_param Literal.literal_eval_default (VStr s) = Return (VStr s))
  ∧ parse_param Literal.literal_eval_default (VStr "not a literal {{{")
    = Return (VStr "not a literal {{{").
Proof.
  apply (parse_param_total Literal.literal_eval_default).
  exact default_extends_known.
Defined.

(** ** The catalog *)

(** C5, as stated, does not hold: the catalog's entries for Caesar, Affine
    and Gronsfeld are not the ones the specification words. *)
Lemma catalog_not_as_worded :
  dict_get cipher_params "Caesar" ≠ dict_get spec_catalog "Caesar"
  ∧ dict_get cipher_params "Affine" ≠ dict_get spec_catalog "Affine"
  ∧ dict_get cipher_params "Gronsfeld" ≠ dict_get spec_catalog "Gronsfeld".
Proof. repeat split; vm_compute; congruence. Qed.

(** C5, amended. The catalog maps Caesar to [key] with default 13, Affine
    to [a] with default 5 and [b] with default 9, Atbash to no parameter,
    and Gronsfeld to [key] with the default text [[5, 4, 7, 9]], a literal
    of the list of these four integers. *)
Theorem catalog_entries :
  dict_get cipher_params "Caesar" = Some [("key", VInt 13)]
  ∧ dict_get cipher_params "Affine" = Some [("a", VInt 5); ("b", VInt 9)]
  ∧ dict_get cipher_params "Atbash" = Some []
  ∧ dict_get cipher_params "Gronsfeld" = Some [("key", VStr "[5, 4, 7, 9]")]
  ∧ Literal.literal_eval_known (VStr "[5, 4, 7, 9]")
    = Some (Return (VList [VInt 5; VInt 4; VInt 7; VInt 9])).
Proof. repeat split; by vm_compute. Qed.

(** ** Effects only append

    A computation of the page reads nothing of the world it starts in: its
    result and what it adds to the page and to the provider's trace are
    those of a run from the empty world. *)

Lemma extend_empty_r w : extend w empty_world = w.
Proof. destruct w. unfold extend. simpl. by rewrite !app_nil_r. Qed.

Lemma extend_empty_l d : extend empty_world d = d.
Proof. by destruct d. Qed.

Lemma extend_assoc w d1 d2 : extend (extend w d1) d2 = extend w (extend d1 d2).
Proof. unfold extend. simpl. by rewrite !app_assoc. Qed.

Lemma framed_intro {A} (c : M A) (r : result A) (d : world) :
  (∀ w, c w = (r, extend w d)) → framed c.
Proof.
  intros H w. rewrite (H empty_world), extend_empty_l. simpl. apply H.
Qed.

Lemma framed_ret {A} (a : A) : framed (mret a : M A).
Proof.
  apply (framed_intro _ (Return a) empty_world).
  intros w. by rewrite extend_empty_r.
Qed.

Lemma framed_lift {A} (r : result A) : framed (lift r).
Proof.
  apply (framed_intro _ r empty_world).
  intros w. by rewrite extend_empty_r.
Qed.

Lemma framed_ask {A} (c : call) (r : result A) : framed (ask c r).
Proof.
  apply (framed_intro _ r (World [] [c])).
  intros [u cs]. unfold ask, extend. simpl. by rewrite app_nil_r.
Qed.

Lemma framed_show (m : ui_msg) : framed (show m).
Proof.
  apply (framed_intro _ (Return tt) (World [m] [])).
  intros [u cs]. unfold show, extend. simpl. by rewrite app_nil_r.
Qed.

Lemma framed_bind {A B} (c : M A) (k : A → M B) :
  framed c → (∀ a, framed (k a)) → framed (c ≫= k).
Proof.
  intros Hc Hk w. unfold mbind, M_bind.
  rewrite (Hc w). destruct (c empty_world) as [[a|e] d]; simpl.
  - rewrite (Hk a (extend w d)), (Hk a d). simpl. by rewrite extend_assoc.
  - done.
Qed.

Lemma framed_try {A} (body : M A) (handler : exn → M A) :
  framed body → (∀ e, framed (handler e)) →
  framed (try_except_Exception body handler).
Proof.
  intros Hb Hh w. unfold try_except_Exception.
  rewrite (Hb w). destruct (body empty_world) as [[a|e] d]; simpl; [done|].
  destruct (is_Exception (exn_cls e)); [|done].
  rewrite (Hh e (extend w d)), (Hh e d). simpl. by rewrite extend_assoc.
Qed.

Lemma framed_for_each {A S} (xs : list A) (body : S → A → M S) (s : S) :
  (∀ s x, framed (body s x)) → framed (for_each xs body s).
Proof.
  intros Hb. revert s. induction xs as [|x xs IH]; intros s; simpl.
  - apply framed_ret.
  - apply framed_bind; [apply Hb | apply IH].
Qed.

Ltac framed :=
  repeat first
    [ apply framed_ret | apply framed_lift | apply framed_ask
    | apply framed_show | apply framed_try | apply framed_for_each
    | apply framed_bind | progress intros
    | match goal with
      | |- framed (match ?x with _ => _ end) => destruct x
      | |- framed (if ?b then _ else _) => destruct b
      | |- framed (let '(_, _) := ?p in _) => destruct p
      end ].

Section PageFrames.

Variable literal_eval : pyval → result pyval.
Variable pycipher : string → result cipher_class.
Variable st : widgets.

Lemma framed_param_row name pre acc item :
  framed (param_row literal_eval st name pre acc item).
Proof. unfold param_row. framed. Qed.

Lemma framed_build_param_ui name pre :
  framed (build_param_ui literal_eval st name pre).
Proof.
  unfold build_param_ui. framed. apply framed_param_row.
Qed.

Lemma framed_safe_cipher_instance name inputs :
  framed (safe_cipher_instance pycipher name inputs).
Proof. unfold safe_cipher_instance. framed. Qed.

Lemma framed_encipher_clicked name inputs text :
  framed (encipher_clicked pycipher name inputs text).
Proof.
  unfold encipher_clicked.
  apply framed_bind; [apply framed_safe_cipher_instance|]. framed.
Qed.

Lemma framed_decipher_clicked name inputs text :
  framed (decipher_clicked pycipher name inputs text).
Proof.
  unfold decipher_clicked.
  apply framed_bind; [apply framed_safe_cipher_instance|]. framed.
Qed.

Lemma framed_main : framed (main literal_eval pycipher st).
Proof.
  unfold main.
  apply framed_bind; [apply framed_build_param_ui|]. intros enc_inputs.
  apply framed_bind; [apply framed_build_param_ui|]. intros dec_inputs.
  apply framed_bind.
  - destruct (button st "enc_btn");
      [apply framed_encipher_clicked | apply framed_ret].
  - intros _. destruct (button st "dec_btn");
      [apply framed_decipher_clicked | apply framed_ret].
Qed.

End PageFrames.

(** ** Guarded construction *)

Section Construction.

Variable pycipher : string → result cipher_class.

(** [safe_cipher_instance], path by path. *)
Lemma safe_cipher_instance_unfold name user_inputs w :
  safe_cipher_instance pycipher name user_inputs w =
  match pycipher name with
  | Raise e => reported e [Getattr name] w
  | Return cls =>
      match init_parameters cls with
      | Raise e => reported e [Getattr name; Signature name] w
      | Return accepted =>
          let cs := [Getattr name; Signature name;
                     Construct name (kept accepted user_inputs)] in
          match new cls (kept accepted user_inputs) with
          | Raise e => reported e cs w
          | Return obj => (Return (Some obj), extend w (World [] cs))
          end
      end
  end.
Proof.
  destruct w as [u cs].
  unfold safe_cipher_instance, try_except_Exception, reported, kept,
    mbind, M_bind, ask, show, mret, M_ret, extend.
  simpl.
  destruct (pycipher name) as [cls|e]; simpl.
  2: { destruct (is_Exception (exn_cls e)); simpl; by rewrite ?app_nil_r. }
  destruct (init_parameters cls) as [accepted|e]; simpl.
  2: { destruct (is_Exception (exn_cls e)); simpl;
       by rewrite ?app_nil_r, <- ?app_assoc. }
  destruct (new cls _) as [obj|e]; simpl.
  - by rewrite ?app_nil_r, <- ?app_assoc.
  - destruct (is_Exception (exn_cls e)); simpl;
      by rewrite ?app_nil_r, <- ?app_assoc.
Qed.

Lemma kept_insert_unaccepted accepted k v (user_inputs : gmap string pyval) :
  k ∉ accepted →
  kept accepted (<[k := v]> user_inputs) = kept accepted user_inputs.
Proof. intros Hk. unfold kept. by apply map_filter_insert_not. Qed.

Lemma kept_lookup_unaccepted accepted k (user_inputs : gmap string pyval) :
  k ∉ accepted → kept accepted user_inputs !! k = None.
Proof.
  intros Hk. unfold kept. apply map_lookup_filter_None. right.
  intros x _. done.
Qed.

Lemma kept_lookup_absent accepted k (user_inputs : gmap string pyval) :
  user_inputs !! k = None → kept accepted user_inputs !! k = None.
Proof.
  intros Hk. unfold kept. apply map_lookup_filter_None. by left.
Qed.

End Construction.

Lemma reported_calls e cs w :
  calls (reported e cs w).2 = calls w ++ cs.
Proof. unfold reported. by destruct (is_Exception _). Qed.

Lemma reported_Exception e cs w :
  is_Exception (exn_cls e) = true →
  reported e cs w
  = (Return None,
     extend w (World [StError ("Error creating cipher instance: " +:+ exn_msg e)] cs)).
Proof. intros He. unfold reported. by rewrite He. Qed.

Lemma encipher_clicked_None pycipher name inputs text w w' :
  safe_cipher_instance pycipher name inputs w = (Return None, w') →
  encipher_clicked pycipher name inputs text w = (Return tt, w').
Proof. intros H. unfold encipher_clicked, mbind, M_bind. by rewrite H. Qed.

Lemma decipher_clicked_None pycipher name inputs text w w' :
  safe_cipher_instance pycipher name inputs w = (Return None, w') →
  decipher_clicked pycipher name inputs text w = (Return tt, w').
Proof. intros H. unfold decipher_clicked, mbind, M_bind. by rewrite H. Qed.

(** C3. An unrecognized key is dropped silently: when [k] is not a parameter
    name of the constructor that [cipher_name] resolves to,
    [safe_cipher_instance] does with [k] present exactly what it does with
    [k] absent (same result, same message, same calls to the provider), and
    the keyword arguments of the construction do not hold [k]. *)
Theorem unrecognized_key_dropped (pycipher : string → result cipher_class)
    (cipher_name k : string) (v : pyval) (user_inputs : gmap string pyval)
    (w : world) :
  ¬ accepts pycipher cipher_name k →
  safe_cipher_instance pycipher cipher_name (<[k := v]> user_inputs) w
  = safe_cipher_instance pycipher cipher_name (delete k user_inputs) w
  ∧ (user_inputs !! k = None →
     safe_cipher_instance pycipher cipher_name (<[k := v]> user_inputs) w
     = safe_cipher_instance pycipher cipher_name user_inputs w)
  ∧ (∀ kwargs,
       Construct cipher_name kwargs
         ∈ calls (safe_cipher_instance pycipher cipher_name
                    (<[k := v]> user_inputs) empty_world).2 →
       kwargs !! k = None).
Proof.
  intros Hk.
  assert (Hsame : ∀ accepted cls,
            pycipher cipher_name = Return cls →
            init_parameters cls = Return accepted →
            k ∉ accepted).
  { intros accepted cls H1 H2 H3. apply Hk. by exists cls, accepted. }
  rewrite !safe_cipher_instance_unfold.
  destruct (pycipher cipher_name) as [cls|e] eqn:Hcls.
  2: { split; [done|]. split; [done|].
       intros kwargs. rewrite reported_calls. simpl.
       rewrite !elem_of_cons, elem_of_nil. intros [|[]]; discriminate. }
  destruct (init_parameters cls) as [accepted|e] eqn:Hacc.
  2: { split; [done|]. split; [done|].
       intros kwargs. rewrite reported_calls. simpl.
       rewrite !elem_of_cons, elem_of_nil. intros [|[|[]]]; discriminate. }
  specialize (Hsame accepted cls eq_refl Hacc).
  rewrite kept_insert_unaccepted by done.
  assert (Hdel : kept accepted (delete k user_inputs) = kept accepted user_inputs).
  { unfold kept. apply map_filter_delete_not. intros y _. done. }
  rewrite Hdel.
  split; [done|]. split; [done|].
  intros kwargs Hin.
  assert (kwargs = kept accepted user_inputs) as ->.
  { cbv zeta in Hin.
    assert (Hcs : Construct cipher_name kwargs
                    ∈ [Getattr cipher_name; Signature cipher_name;
                       Construct cipher_name (kept accepted user_inputs)]).
    { destruct (new cls _); [done|]. by rewrite reported_calls in Hin. }
    rewrite !elem_of_cons, elem_of_nil in Hcs.
    destruct Hcs as [|[|[|[]]]]; congruence. }
  by apply kept_lookup_unaccepted.
Qed.



(** ** The parameter form *)

Section Form.

Variable literal_eval : pyval → result pyval.
Variable st : widgets.
Variables cipher_name section_prefix : string.

Lemma param_row_spec (acc : gmap string pyval) (p : string) (d : pyval) (w : world) :
  ∃ v, param_row literal_eval st cipher_name section_prefix acc (p, d) w
       = (Return (if enabled st cipher_name section_prefix p
                   then <[p := v]> acc else acc), w).
Proof.
  unfold param_row, enabled, mbind, M_bind, lift, mret, M_ret.
  destruct (parse_param_returns literal_eval d) as [pd ->].
  destruct (checkbox st _); [|by exists VNone].
  match goal with
  | |- context [parse_param literal_eval (VStr ?s)] =>
      destruct (parse_param_returns literal_eval (VStr s)) as [v ->]
  end.
  by exists v.
Qed.

Lemma for_each_rows (params : list (string * pyval)) (acc : gmap string pyval)
    (w : world) :
  ∃ m, for_each params (param_row literal_eval st cipher_name section_prefix) acc w
       = (Return m, w)
       ∧ ∀ p, is_Some (m !! p) ↔
              is_Some (acc !! p)
              ∨ (p ∈ params.*1 ∧ enabled st cipher_name section_prefix p = true).
Proof.
  revert acc. induction params as [|[q d] params IH]; intros acc;
    cbn [for_each fmap list_fmap].
  - exists acc. split; [done|]. intros p. rewrite elem_of_nil. tauto.
  - unfold mbind, M_bind.
    destruct (param_row_spec acc q d w) as [v ->].
    destruct (IH (if enabled st cipher_name section_prefix q
                  then <[q := v]> acc else acc)) as (m & -> & Hm).
    exists m. split; [done|]. intros p. rewrite Hm, elem_of_cons.
    destruct (enabled st cipher_name section_prefix q) eqn:Hq.
    + rewrite lookup_insert_is_Some. destruct (decide (q = p)) as [->|];
        naive_solver.
    + destruct (decide (p = q)) as [->|]; [rewrite Hq|]; naive_solver.
Qed.

End Form.

(** C7. A disabled parameter is left out: for a cipher of the catalog,
    [build_param_ui] returns a mapping whose keys are exactly the catalog's
    parameters of that cipher whose checkbox is ticked; a parameter whose
    checkbox is not ticked has no entry at all (not even one holding
    [None]), in that mapping and in the keyword arguments that
    [safe_cipher_instance] keeps of it. *)
Theorem disabled_parameters_omitted (literal_eval : pyval → result pyval)
    (st : widgets) (cipher_name section_prefix : string)
    (params : list (string * pyval)) (w : world) :
  dict_get cipher_params cipher_name = Some params →
  ∃ (user_inputs : gmap string pyval) (w' : world),
    build_param_ui literal_eval st cipher_name section_prefix w
    = (Return user_inputs, w')
    ∧ (∀ p, is_Some (user_inputs !! p) ↔
            p ∈ params.*1 ∧ enabled st cipher_name section_prefix p = true)
    ∧ (∀ p accepted,
         enabled st cipher_name section_prefix p = false →
         user_inputs !! p = None ∧ kept accepted user_inputs !! p = None).
Proof.
  intros Hparams.
  unfold build_param_ui, dict_getitem, mbind, M_bind, lift.
  rewrite Hparams.
  assert (Hgoal : ∀ (m : gmap string pyval),
            (∀ p, is_Some (m !! p) ↔
                  p ∈ params.*1 ∧ enabled st cipher_name section_prefix p = true) →
            ∀ p accepted,
              enabled st cipher_name section_prefix p = false →
              m !! p = None ∧ kept accepted m !! p = None).
  { intros m Hm p accepted Hp.
    assert (m !! p = None) as Hnone.
    { apply eq_None_not_Some. rewrite Hm. intros [_ Hen]. congruence. }
    split; [done|]. by apply kept_lookup_absent. }
  destruct params as [|item params].
  - eexists ∅, _. split; [reflexivity|].
    assert (Hnil : ∀ p, is_Some ((∅ : gmap string pyval) !! p) ↔
              p ∈ ([] : list (string * pyval)).*1
              ∧ enabled st cipher_name section_prefix p = true).
    { intros p. rewrite lookup_empty. simpl. rewrite elem_of_nil.
      split; [intros [? ?]; discriminate | tauto]. }
    split; [exact Hnil|by apply Hgoal].
  - unfold show. cbv beta iota.
    match goal with
    | |- context [for_each _ _ _ ?w1] =>
        destruct (for_each_rows literal_eval st cipher_name section_prefix
                    (item :: params) ∅ w1) as (m & Hrun & Hm);
        exists m, w1
    end.
    split; [exact Hrun|].
    assert (Hm' : ∀ p, is_Some (m !! p) ↔
              p ∈ (item :: params).*1
              ∧ enabled st cipher_name section_prefix p = true).
    { intros p. rewrite Hm, lookup_empty. split; [|tauto].
      intros [[? ?]|?]; [discriminate|done]. }
    split; [exact Hm'|by apply Hgoal].
Qed.

(** ** Independent runs *)

Lemma framed_same_outcome {A} (c : M A) : framed c → same_outcome c.
Proof.
  intros Hc w1 w2. rewrite (Hc w1), (Hc w2). simpl.
  split; [done|]. by exists (c empty_world).2.
Qed.

(** No computation of the page reads what earlier computations left:
    parsing the form, constructing the instance and applying either
    transform, and the page run as a whole, give the same result and add
    the same messages to the page whatever world they start in.  This is a
    fact about how the page is written down here (its effects are appended
    to a log that nothing reads), not about the interpreter or the library
    it runs on. *)
Lemma pipeline_deterministic (literal_eval : pyval → result pyval)
    (pycipher : string → result cipher_class) (st : widgets) :
  same_outcome (main literal_eval pycipher st)
  ∧ (∀ cipher_name section_prefix,
       same_outcome (build_param_ui literal_eval st cipher_name section_prefix))
  ∧ (∀ cipher_name user_inputs,
       same_outcome (safe_cipher_instance pycipher cipher_name user_inputs))
  ∧ (∀ cipher_name user_inputs text,
       same_outcome (encipher_clicked pycipher cipher_name user_inputs text)
       ∧ same_outcome (decipher_clicked pycipher cipher_name user_inputs text)).
Proof.
  split; [apply framed_same_outcome, framed_main|].
  split; [intros; apply framed_same_outcome, framed_build_param_ui|].
  split; [intros; apply framed_same_outcome, framed_safe_cipher_instance|].
  intros. split; apply framed_same_outcome.
  - apply framed_encipher_clicked.
  - apply framed_decipher_clicked.
Qed.

(** ** Instances for the general statements *)

Ltac raised_is_Exception H :=
  simpl in H;
  unfold rbind, Pycipher.bind_keywords in H;
  repeat case_match; simplify_eq; reflexivity.

Lemma getattr_raises_only_Exception : raises_only_Exception Pycipher.getattr.
Proof.
  intros name. unfold Pycipher.getattr, Pycipher.known.
  repeat (destruct (String.eqb name _);
          [split; [discriminate | intros kwargs e H; raised_is_Exception H]|]).
  reflexivity.
Qed.

Lemma Caesar_rejects_shift : ¬ accepts Pycipher.getattr "Caesar" "shift".
Proof.
  intros (cls & accepted & Hcls & Hacc & Hin).
  vm_compute in Hcls. injection Hcls as <-.
  simpl in Hacc. injection Hacc as <-.
  rewrite !elem_of_cons, elem_of_nil in Hin.
  destruct Hin as [|[|[]]]; discriminate.
Qed.

Lemma unrecognized_key_dropped_witness :
  safe_cipher_instance Pycipher.getattr "Caesar"
    (<["shift" := VInt 3]> {["key" := VInt 13]}) empty_world
  = safe_cipher_instance Pycipher.getattr "Caesar"
      (delete "shift" {["key" := VInt 13]}) empty_world
  ∧ (({["key" := VInt 13]} : gmap string pyval) !! "shift" = None →
     safe_cipher_instance Pycipher.getattr "Caesar"
       (<["shift" := VInt 3]> {["key" := VInt 13]}) empty_world
     = safe_cipher_instance Pycipher.getattr "Caesar"
         {["key" := VInt 13]} empty_world)
  ∧ (∀ kwargs,
       Construct "Caesar" kwargs
         ∈ calls (safe_cipher_instance Pycipher.getattr "Caesar"
                    (<["shift" := VInt 3]> {["key" := VInt 13]}) empty_world).2 →
       kwargs !! "shift" = None).
Proof.
  apply (unrecognized_key_dropped Pycipher.getattr "Caesar" "shift" (VInt 3)
           {["key" := VInt 13]} empty_world).
  exact Caesar_rejects_shift.
Defined.


Lemma disabled_parameters_omitted_witness :
  ∃ (user_inputs : gmap string pyval) (w' : world),
    build_param_ui Literal.literal_eval_default
      (untouched_but ["enc_chk_Affine_b"]) "Affine" "enc" empty_world
    = (Return user_inputs, w')
    ∧ (∀ p, is_Some (user_inputs !! p) ↔
            p ∈ [("a", VInt 5); ("b", VInt 9)].*1
            ∧ enabled (untouched_but ["enc_chk_Affine_b"]) "Affine" "enc" p = true)
    ∧ (∀ p accepted,
         enabled (untouched_but ["enc_chk_Affine_b"]) "Affine" "enc" p = false →
         user_inputs !! p = None ∧ kept accepted user_inputs !! p = None).
Proof.
  apply (disabled_parameters_omitted Literal.literal_eval_default
           (untouched_but ["enc_chk_Affine_b"]) "Affine" "enc"
           [("a", VInt 5); ("b", VInt 9)] empty_world).
  reflexivity.
Defined.

Example form_without_b :
  (build_param_ui Literal.literal_eval_default
     (untouched_but ["enc_chk_Affine_b"]) "Affine" "enc" empty_world).1
  = Return {["a" := VInt 5]}.
Proof. by vm_compute. Qed.

(** ** The described ciphers *)

Section Ciphers.
Import Pycipher.

Lemma below_26 (P : Z → Prop) :
  Forall P (seqZ 0 26) → ∀ i, 0 ≤ i < 26 → P i.
Proof.
  intros HP i Hi. rewrite Forall_forall in HP. apply HP.
  apply elem_of_seqZ. lia.
Qed.

Ltac each_below_26 := vm_compute seqZ; repeat constructor.

Lemma Affine_inverse_mod (a : Z) : Affine_inverse a = Affine_inverse (a mod 26).
Proof.
  unfold Affine_inverse. cbn [fold_left].
  by rewrite !Z.mul_mod_idemp_l by lia.
Qed.

Lemma Affine_inverse_coprime (a : Z) :
  in_range (Affine_inverse a) = (Z.gcd a 26 =? 1).
Proof.
  rewrite Affine_inverse_mod, <- (Z.gcd_comm 26), <- Z.gcd_mod by lia.
  apply (below_26 (λ r, in_range (Affine_inverse r) = (Z.gcd r 26 =? 1)));
    [each_below_26 | by apply Z.mod_pos_bound].
Qed.

Lemma Affine_inverse_correct (a : Z) :
  in_range (Affine_inverse a) = true → (a * Affine_inverse a) mod 26 = 1.
Proof.
  rewrite <- Z.mul_mod_idemp_l by lia. rewrite Affine_inverse_mod.
  apply (below_26 (λ r, in_range (Affine_inverse r) = true →
                        (r * Affine_inverse r) mod 26 = 1));
    [|by apply Z.mod_pos_bound].
  each_below_26; vm_compute; congruence.
Qed.

(** What constructing an [Affine] from [a] and [b] gives. *)
Lemma Affine_new (a : Z) (b : pyval) :
  new Affine (Affine_kwargs (VInt a) b) =
  if in_range (Affine_inverse a)
  then Return (CipherObj (Affine_encipher a b)
                         (Affine_decipher (Affine_inverse a) b))
  else Raise (Exn AssertionError
         ("invalid key: a=" +:+ pretty a +:+ ", no inverse exists (mod 26)")).
Proof. reflexivity. Qed.

Lemma kept_Affine (a b : pyval) :
  kept ["self"; "a"; "b"] (Affine_kwargs a b) = Affine_kwargs a b.
Proof.
  unfold kept. apply map_filter_id. intros k v Hk. simpl.
  unfold Affine_kwargs in Hk.
  apply lookup_insert_Some in Hk as [[<- _]|[_ Hk]].
  - rewrite !elem_of_cons. tauto.
  - apply lookup_singleton_Some in Hk as [<- _]. rewrite !elem_of_cons. tauto.
Qed.

Lemma safe_cipher_instance_Affine pycipher (a : Z) (b : pyval) (w : world) :
  pycipher "Affine" = Return Affine →
  safe_cipher_instance pycipher "Affine" (Affine_kwargs (VInt a) b) w =
  let cs := [Getattr "Affine"; Signature "Affine";
             Construct "Affine" (Affine_kwargs (VInt a) b)] in
  if Z.gcd a 26 =? 1
  then (Return (Some (CipherObj (Affine_encipher a b)
                                (Affine_decipher (Affine_inverse a) b))),
        extend w (World [] cs))
  else (Return None,
        extend w (World [StError ("Error creating cipher instance: "
                                  +:+ "invalid key: a=" +:+ pretty a
                                  +:+ ", no inverse exists (mod 26)")] cs)).
Proof.
  intros Hcls. rewrite safe_cipher_instance_unfold, Hcls.
  cbn [init_parameters Affine]. cbv zeta.
  rewrite kept_Affine, Affine_new, <- Affine_inverse_coprime.
  by destruct (in_range _).
Qed.

End Ciphers.

(** The multiplier and the additive shift of Affine are its parameters [a]
    and [b], as the catalog names them.  Entries under other names, such as
    [multiplier] and [additive], are not parameters of the constructor:
    both are dropped and the cipher is built from its defaults. *)
Lemma Affine_worded_keys_are_dropped :
  safe_cipher_instance Pycipher.getattr "Affine"
    (<["multiplier" := VInt 2]> {["additive" := VInt 9]}) empty_world
  = (Return (Some (CipherObj (Pycipher.Affine_encipher 5 (VInt 9))
                             (Pycipher.Affine_decipher 21 (VInt 9)))),
     World [] [Getattr "Affine"; Signature "Affine"; Construct "Affine" ∅]).
Proof.
  rewrite safe_cipher_instance_unfold.
  assert (Hkept : kept ["self"; "a"; "b"]
            (<["multiplier" := VInt 2]> {["additive" := VInt 9]}) = ∅)
    by (by vm_compute).
  cbn [Pycipher.getattr Pycipher.known String.eqb Ascii.eqb Bool.eqb
       init_parameters Pycipher.Affine].
  cbv zeta. rewrite Hkept. reflexivity.
Qed.

(** C4. Instantiating the Affine cipher with multiplier 2 and additive
    shift 9 (its parameters [a] and [b]) fails at construction, because
    gcd(2, 26) = 2: [safe_cipher_instance] shows the error and returns
    [None], and a click on either button stops there, asking the provider
    for no transform.  With multiplier 5 construction succeeds.  In general
    construction from an integer [a] succeeds exactly when [a] is coprime
    to 26. *)
Theorem Affine_construction (pycipher : string → result cipher_class) (w : world) :
  pycipher "Affine" = Return Pycipher.Affine →
  Z.gcd 2 26 = 2
  ∧ (∃ d,
       safe_cipher_instance pycipher "Affine" (Affine_kwargs (VInt 2) (VInt 9)) w
       = (Return None, extend w d)
       ∧ ui d = [StError ("Error creating cipher instance: "
                          +:+ "invalid key: a=2, no inverse exists (mod 26)")]
       ∧ calls d = [Getattr "Affine"; Signature "Affine";
                    Construct "Affine" (Affine_kwargs (VInt 2) (VInt 9))]
       ∧ ∀ text,
           encipher_clicked pycipher "Affine"
             (Affine_kwargs (VInt 2) (VInt 9)) text w = (Return tt, extend w d)
           ∧ decipher_clicked pycipher "Affine"
               (Affine_kwargs (VInt 2) (VInt 9)) text w = (Return tt, extend w d))
  ∧ (∃ obj d,
       safe_cipher_instance pycipher "Affine" (Affine_kwargs (VInt 5) (VInt 9)) w
       = (Return (Some obj), extend w d)
       ∧ ui d = []
       ∧ encipher obj "HELLO" = Return "SDMMB"
       ∧ decipher obj "SDMMB" = Return "HELLO")
  ∧ (∀ (a : Z) (b : pyval),
       (safe_cipher_instance pycipher "Affine" (Affine_kwargs (VInt a) b) w).1
       = Return None
       ↔ Z.gcd a 26 ≠ 1).
Proof.
  intros Hcls. split; [reflexivity|].
  split; [|split].
  - pose proof (safe_cipher_instance_Affine pycipher 2 (VInt 9) w Hcls) as Hrun.
    change (Z.gcd 2 26 =? 1) with false in Hrun. cbv zeta iota in Hrun.
    eexists. split; [exact Hrun|]. split; [reflexivity|]. split; [reflexivity|].
    intros text. split.
    + by apply encipher_clicked_None.
    + by apply decipher_clicked_None.
  - pose proof (safe_cipher_instance_Affine pycipher 5 (VInt 9) w Hcls) as Hrun.
    change (Z.gcd 5 26 =? 1) with true in Hrun. cbv zeta iota in Hrun.
    eexists _, _. split; [exact Hrun|]. split; [reflexivity|].
    split; by vm_compute.
  - intros a b. rewrite (safe_cipher_instance_Affine pycipher a b w Hcls).
    cbv zeta. destruct (Z.eqb_spec (Z.gcd a 26) 1) as [->|Hne]; simpl.
    + split; [discriminate|]. intros Hne. by destruct Hne.
    + by split.
Qed.

Lemma Affine_construction_witness :
  Z.gcd 2 26 = 2
  ∧ (∃ d,
       safe_cipher_instance Pycipher.getattr "Affine"
         (Affine_kwargs (VInt 2) (VInt 9)) empty_world
       = (Return None, extend empty_world d)
       ∧ ui d = [StError ("Error creating cipher instance: "
                          +:+ "invalid key: a=2, no inverse exists (mod 26)")]
       ∧ calls d = [Getattr "Affine"; Signature "Affine";
                    Construct "Affine" (Affine_kwargs (VInt 2) (VInt 9))]
       ∧ ∀ text,
           encipher_clicked Pycipher.getattr "Affine"
             (Affine_kwargs (VInt 2) (VInt 9)) text empty_world
           = (Return tt, extend empty_world d)
           ∧ decipher_clicked Pycipher.getattr "Affine"
               (Affine_kwargs (VInt 2) (VInt 9)) text empty_world
             = (Return tt, extend empty_world d))
  ∧ (∃ obj d,
       safe_cipher_instance Pycipher.getattr "Affine"
         (Affine_kwargs (VInt 5) (VInt 9)) empty_world
       = (Return (Some obj), extend empty_world d)
       ∧ ui d = []
       ∧ encipher obj "HELLO" = Return "SDMMB"
       ∧ decipher obj "SDMMB" = Return "HELLO")
  ∧ (∀ (a : Z) (b : pyval),
       (safe_cipher_instance Pycipher.getattr "Affine"
          (Affine_kwargs (VInt a) b) empty_world).1
       = Return None
       ↔ Z.gcd a 26 ≠ 1).
Proof.
  apply (Affine_construction Pycipher.getattr empty_world). reflexivity.
Defined.

(** The catalog entries without parameters are those of Atbash and Rot13. *)
Lemma parameterless_names (name : string) :
  dict_get cipher_params name = Some [] → name = "Atbash" ∨ name = "Rot13".
Proof.
  unfold cipher_params. cbn [dict_get].
  repeat match goal with
         | |- context [String.eqb ?k name] =>
             destruct (String.eqb_spec k name) as [<-|_]
         end;
    try discriminate; auto.
Qed.

Lemma kept_empty (accepted : list string) : kept accepted ∅ = ∅.
Proof. unfold kept. apply map_filter_empty. Qed.

(** C6. A cipher whose catalog entry declares no parameter (Atbash, Rot13)
    is always instantiated from the empty parameter set: the form yields
    the empty set, [safe_cipher_instance] returns an instance and shows no
    error.  Atbash so built enciphers HELLO to SVOOL, which is what a click
    on the Encipher button shows. *)
Theorem parameterless_ciphers_instantiate
    (literal_eval : pyval → result pyval)
    (pycipher : string → result cipher_class) (st : widgets) (w : world) :
  Pycipher.provides pycipher →
  (∀ cipher_name section_prefix,
     dict_get cipher_params cipher_name = Some [] →
     (build_param_ui literal_eval st cipher_name section_prefix w).1 = Return ∅
     ∧ ∃ obj,
         safe_cipher_instance pycipher cipher_name ∅ w
         = (Return (Some obj),
            extend w (World [] [Getattr cipher_name; Signature cipher_name;
                                Construct cipher_name ∅])))
  ∧ (∃ obj,
       (safe_cipher_instance pycipher "Atbash" ∅ w).1 = Return (Some obj)
       ∧ encipher obj "HELLO" = Return "SVOOL")
  ∧ encipher_clicked pycipher "Atbash" ∅ "HELLO" w
    = (Return tt,
       extend w (World [StSuccess ("🔐 Result:" +:+ Text.newline +:+ "SVOOL")]
                       [Getattr "Atbash"; Signature "Atbash";
                        Construct "Atbash" ∅; Encipher "HELLO"])).
Proof.
  intros Hprov.
  assert (HA : pycipher "Atbash" = Return Pycipher.Atbash) by (by apply Hprov).
  assert (HR : pycipher "Rot13" = Return Pycipher.Rot13) by (by apply Hprov).
  assert (Hrun : ∀ name cls enc,
            pycipher name = Return cls →
            init_parameters cls = Return ["self"] →
            new cls ∅ = Return (CipherObj enc enc) →
            safe_cipher_instance pycipher name ∅ w
            = (Return (Some (CipherObj enc enc)),
               extend w (World [] [Getattr name; Signature name;
                                   Construct name ∅]))).
  { intros name cls enc Hcls Hsig Hnew.
    rewrite safe_cipher_instance_unfold, Hcls, Hsig. cbv zeta.
    by rewrite kept_empty, Hnew. }
  split; [|split].
  - intros cipher_name section_prefix Hnone. split.
    + unfold build_param_ui, dict_getitem, mbind, M_bind, lift.
      by rewrite Hnone.
    + destruct (parameterless_names _ Hnone) as [-> | ->]; eexists.
      * by apply (Hrun "Atbash" _ Pycipher.Atbash_encipher HA).
      * by apply (Hrun "Rot13" _ Pycipher.Rot13_encipher HR).
  - eexists. rewrite (Hrun "Atbash" _ Pycipher.Atbash_encipher HA) by done.
    split; [reflexivity|]. by vm_compute.
  - unfold encipher_clicked, mbind, M_bind.
    rewrite (Hrun "Atbash" _ Pycipher.Atbash_encipher HA) by done.
    destruct w as [u cs]. unfold try_except_Exception, ask, show, extend.
    cbn [ui calls encipher].
    change (Text.strip "HELLO") with "HELLO".
    change (Pycipher.Atbash_encipher "HELLO") with (@Return string "SVOOL").
    cbv beta iota. cbn [ui calls].
    by rewrite ?app_nil_r, <- ?app_assoc.
Qed.

Lemma getattr_provides : Pycipher.provides Pycipher.getattr.
Proof. intros name cls H. unfold Pycipher.getattr. by rewrite H. Qed.

Lemma parameterless_ciphers_instantiate_witness :
  (∀ cipher_name section_prefix,
     dict_get cipher_params cipher_name = Some [] →
     (build_param_ui Literal.literal_eval_default (untouched_but [])
        cipher_name section_prefix empty_world).1 = Return ∅
     ∧ ∃ obj,
         safe_cipher_instance Pycipher.getattr cipher_name ∅ empty_world
         = (Return (Some obj),
            extend empty_world
              (World [] [Getattr cipher_name; Signature cipher_name;
                         Construct cipher_name ∅])))
  ∧ (∃ obj,
       (safe_cipher_instance Pycipher.getattr "Atbash" ∅ empty_world).1
       = Return (Some obj)
       ∧ encipher obj "HELLO" = Return "SVOOL")
  ∧ encipher_clicked Pycipher.getattr "Atbash" ∅ "HELLO" empty_world
    = (Return tt,
       extend empty_world
         (World [StSuccess ("🔐 Result:" +:+ Text.newline +:+ "SVOOL")]
                [Getattr "Atbash"; Signature "Atbash";
                 Construct "Atbash" ∅; Encipher "HELLO"])).
Proof.
  apply (parameterless_ciphers_instantiate Literal.literal_eval_default
           Pycipher.getattr (untouched_but []) empty_world).
  exact getattr_provides.
Defined.

(** ** Round trips of the letter-by-letter ciphers *)

Section RoundTrip.
Import Pycipher.

Lemma code_chr (n : Z) : 0 ≤ n < 256 → Text.code (Text.chr n) = n.
Proof.
  intros Hn. unfold Text.code, Text.chr.
  rewrite N_ascii_embedding by lia. lia.
Qed.

Lemma chr_code (c : ascii) : Text.chr (Text.code c) = c.
Proof.
  unfold Text.code, Text.chr. rewrite N2Z.id. apply ascii_N_embedding.
Qed.

Lemma is_upper_bounds (c : ascii) :
  Text.is_upper c = true → 65 ≤ Text.code c ≤ 90.
Proof. unfold Text.is_upper. intros H. apply andb_true_iff in H. lia. Qed.

Lemma upper_char_upper (c : ascii) :
  Text.is_upper c = true → Text.upper_char c = c.
Proof.
  intros H. apply is_upper_bounds in H. unfold Text.upper_char, Text.is_lower.
  destruct (Z.leb_spec 97 (Text.code c)); [lia|done].
Qed.

Lemma a2i_upper (c : ascii) :
  Text.is_upper c = true → a2i c = Return (Text.code c - 65).
Proof. intros H. unfold a2i. by rewrite upper_char_upper, H. Qed.

Lemma isalpha_upper (c : ascii) : Text.is_upper c = true → Text.isalpha c = true.
Proof. intros H. unfold Text.isalpha. by rewrite H. Qed.

Lemma code_i2a (n : Z) : Text.code (i2a n) = 65 + n mod 26.
Proof.
  unfold i2a. pose proof (Z.mod_pos_bound n 26 ltac:(lia)).
  apply code_chr. lia.
Qed.

Lemma is_upper_i2a (n : Z) : Text.is_upper (i2a n) = true.
Proof.
  unfold Text.is_upper. rewrite code_i2a.
  pose proof (Z.mod_pos_bound n 26 ltac:(lia)).
  apply andb_true_iff. lia.
Qed.

Lemma remove_punctuation_upper (x : string) :
  upper_text (Text.chars x) → remove_punctuation x = Text.chars x.
Proof.
  unfold remove_punctuation. induction 1 as [|c s Hc Hs IH]; [done|].
  cbn [map List.filter]. by rewrite upper_char_upper, Hc, IH.
Qed.

Lemma chars_str (s : list ascii) : Text.chars (Text.str s) = s.
Proof. apply list_ascii_of_string_of_list_ascii. Qed.

Lemma str_chars (x : string) : Text.str (Text.chars x) = x.
Proof. apply string_of_list_ascii_of_string. Qed.

Lemma each_letter_round_trip (f1 f2 : Z → result ascii) (s : list ascii) :
  undoes f1 f2 → upper_text s →
  ∃ t, each_letter f1 s = Return t
       ∧ upper_text t
       ∧ each_letter f2 t = Return s.
Proof.
  intros Hf. induction 1 as [|c s Hc Hs IH].
  - exists []. split; [done|]. split; [constructor|done].
  - destruct IH as (t & Ht & Hup & Hback).
    pose proof (is_upper_bounds c Hc) as Hb.
    destruct (Hf (Text.code c - 65) ltac:(lia)) as (c' & Hc' & Hup' & Hback').
    exists (c' :: t). cbn [each_letter].
    rewrite (isalpha_upper c Hc), (a2i_upper c Hc). cbn [rbind].
    rewrite Hc', Ht. cbn [rbind].
    split; [done|]. split; [by constructor|].
    rewrite (isalpha_upper c' Hup'), (a2i_upper c' Hup'). cbn [rbind].
    rewrite Hback', Hback. cbn [rbind].
    replace (65 + (Text.code c - 65)) with (Text.code c) by lia.
    by rewrite chr_code.
Qed.

Lemma letterwise_round_trip (f1 f2 : Z → result ascii) (x : string) :
  undoes f1 f2 → upper_text (Text.chars x) →
  ∃ y, rmap Text.str (each_letter f1 (remove_punctuation x)) = Return y
       ∧ rmap Text.str (each_letter f2 (remove_punctuation y)) = Return x.
Proof.
  intros Hf Hx.
  destruct (each_letter_round_trip f1 f2 _ Hf Hx) as (t & Ht & Hup & Hback).
  exists (Text.str t).
  rewrite (remove_punctuation_upper x Hx), Ht.
  split; [done|].
  rewrite remove_punctuation_upper by (by rewrite chars_str).
  rewrite chars_str, Hback. unfold rmap, rbind. by rewrite str_chars.
Qed.

Ltac each_position :=
  apply below_26; vm_compute seqZ; repeat constructor;
  eexists; (split; [|split]); vm_compute; reflexivity.

Lemma Atbash_undoes : undoes (key_at Atbash_key) (key_at Atbash_key).
Proof. unfold undoes. each_position. Qed.

Lemma Rot13_undoes : undoes (key_at Rot13_key) (key_at Rot13_key).
Proof. unfold undoes. each_position. Qed.

Lemma Caesar_undoes (key : Z) :
  undoes (λ i, Return (i2a (i + key))) (λ i, Return (i2a (i - key))).
Proof.
  intros i Hi. exists (i2a (i + key)).
  split; [done|]. split; [apply is_upper_i2a|].
  rewrite code_i2a. f_equal. unfold i2a. f_equal. f_equal.
  replace (65 + (i + key) mod 26 - 65) with ((i + key) mod 26) by lia.
  rewrite Zminus_mod_idemp_l.
  replace (i + key - key) with i by lia.
  by apply Z.mod_small.
Qed.

Lemma Affine_undoes (a : Z) (b : pyval) :
  in_range (Affine_inverse a) = true → is_Some (as_int b) →
  undoes (λ x, Affine_shift b (λ b, a * x + b))
         (λ x, Affine_shift b (λ b, Affine_inverse a * (x - b))).
Proof.
  intros Hinv [bz Hb] i Hi. apply Affine_inverse_correct in Hinv.
  unfold Affine_shift. rewrite Hb.
  exists (i2a (a * i + bz)).
  split; [done|]. split; [apply is_upper_i2a|].
  rewrite code_i2a. f_equal. unfold i2a.
  f_equal. f_equal.
  replace (65 + (a * i + bz) mod 26 - 65) with ((a * i + bz) mod 26) by lia.
  rewrite <- Z.mul_mod_idemp_r, Zminus_mod_idemp_l by lia.
  replace (a * i + bz - bz) with (a * i) by lia.
  rewrite Z.mul_mod_idemp_r by lia.
  replace (Affine_inverse a * (a * i)) with (i * (a * Affine_inverse a)) by lia.
  rewrite <- Z.mul_mod_idemp_r, Hinv by lia.
  rewrite Z.mul_1_r. by apply Z.mod_small.
Qed.

Lemma Atbash_round_trips kwargs obj x :
  new Atbash kwargs = Return obj → upper_text (Text.chars x) →
  round_trips obj x.
Proof.
  cbn [new Atbash]. destruct (bind_keywords _ _); [|discriminate].
  intros [= <-] Hx. apply letterwise_round_trip; [apply Atbash_undoes | done].
Qed.

Lemma Rot13_round_trips kwargs obj x :
  new Rot13 kwargs = Return obj → upper_text (Text.chars x) →
  round_trips obj x.
Proof.
  cbn [new Rot13]. destruct (bind_keywords _ _); [|discriminate].
  intros [= <-] Hx. apply letterwise_round_trip; [apply Rot13_undoes | done].
Qed.

Lemma Caesar_round_trips kwargs obj x :
  new Caesar kwargs = Return obj → upper_text (Text.chars x) →
  round_trips obj x.
Proof.
  cbn [new Caesar]. destruct (bind_keywords _ _); [|discriminate].
  cbn [rbind]. destruct (as_int _) as [key|]; [|discriminate].
  intros [= <-] Hx. apply letterwise_round_trip; [apply Caesar_undoes | done].
Qed.

Lemma Affine_round_trips kwargs obj x :
  new Affine kwargs = Return obj →
  is_Some (as_int (keyword kwargs "b" (VInt 9))) →
  upper_text (Text.chars x) →
  round_trips obj x.
Proof.
  cbn [new Affine]. destruct (bind_keywords _ _) as [bound|]; [|discriminate].
  cbn [rbind]. destruct (as_int (keyword kwargs "a" _)) as [a|]; [|discriminate].
  cbv zeta. fold (in_range (Affine_inverse a)).
  destruct (in_range (Affine_inverse a)) eqn:Hinv; [|discriminate].
  intros [= <-] Hb Hx. apply letterwise_round_trip; [by apply Affine_undoes | done].
Qed.

End RoundTrip.

(** Deciphering does not undo enciphering for every cipher: Playfair, built
    from the catalog's own key, enciphers HELLO two letters at a time, after
    replacing the second L of the pair LL and padding the odd length, and
    deciphering gives HELXOX back, not HELLO. *)
Lemma Playfair_does_not_round_trip :
  ∃ obj,
    dict_get cipher_params "Playfair" = Some [("key", VStr "ABCDEFGHIKLMNOPQRSTUVWXYZ")]
    ∧ new Pycipher.Playfair {["key" := VStr "ABCDEFGHIKLMNOPQRSTUVWXYZ"]} = Return obj
    ∧ upper_text (Text.chars "HELLO")
    ∧ encipher obj "HELLO" = Return "KCNVNY"
    ∧ decipher obj "KCNVNY" = Return "HELXOX"
    ∧ ¬ round_trips obj "HELLO".
Proof.
  eexists. split; [reflexivity|]. split; [reflexivity|].
  split; [repeat constructor|].
  split; [by vm_compute|]. split; [by vm_compute|].
  intros (y & Hy & Hback).
  assert (y = "KCNVNY") as -> by (vm_compute in Hy; congruence).
  vm_compute in Hback. discriminate.
Qed.

(** * Further properties of the padding page *)

Section PaddingSchemes.
Import Padding.

Lemma pad_len_bounds {A} (data : list A) (n : Z) :
  1 ≤ n → 1 ≤ n - len data mod n ≤ n.
Proof.
  intros Hn. pose proof (Z.mod_pos_bound (len data) n ltac:(lia)). lia.
Qed.

Lemma padded_length_multiple {A} (data : list A) (n : Z) :
  1 ≤ n → (len data + (n - len data mod n)) mod n = 0.
Proof.
  intros Hn.
  replace (len data + (n - len data mod n))
    with (len data - len data mod n + 1 * n) by lia.
  rewrite Z.mod_add by lia.
  rewrite <- Zminus_mod_idemp_l, Z.sub_diag. apply Z.mod_0_l. lia.
Qed.

Lemma bytes_too_large (m : nat) (k : Z) :
  255 < k →
  bytes (replicate (S m) k) = Raise (Exn ValueError "bytes must be in range(0, 256)").
Proof.
  intros Hk. cbn [replicate bytes].
  destruct (Z.leb_spec 0 k); [|lia].
  assert (Byte.of_N (Z.to_N k) = None) as -> by (apply Byte.of_N_None_iff; lia).
  done.
Qed.

Lemma bytes_zeros (m : nat) :
  bytes (replicate m 0) = Return (replicate m "000"%byte).
Proof. by apply bytes_replicate. Qed.

Lemma bytes_singleton (k : Z) (b : byte) :
  0 ≤ k → Byte.of_N (Z.to_N k) = Some b → bytes [k] = Return [b].
Proof. intros. by apply (bytes_replicate 1). Qed.

Lemma byte_of_its_int (b : byte) :
  Byte.of_N (Z.to_N (int_of_byte b)) = Some b.
Proof. unfold int_of_byte. rewrite N2Z.id. apply Byte.of_to_N. Qed.

Lemma int_of_byte_bounds (b : byte) : 0 ≤ int_of_byte b ≤ 255.
Proof.
  unfold int_of_byte. pose proof (Byte.to_N_bounded b). lia.
Qed.

Lemma int_of_byte_inj (b c : byte) : int_of_byte b = int_of_byte c → b = c.
Proof.
  intros H. pose proof (byte_of_its_int b) as Hb.
  rewrite H, byte_of_its_int in Hb. congruence.
Qed.

Lemma last_is_Some {A} (l : list A) (x : A) :
  last l = Some x → ∃ l', l = l' ++ [x].
Proof.
  intros H. destruct l as [|y l] using rev_ind; [done|].
  rewrite last_snoc in H. injection H as ->. by exists l.
Qed.

(** [data[:-k]] and [data[-k:]] split [data], for [1 ≤ k ≤ len(data)]. *)
Lemma slices_split {A} (data : list A) (k : Z) :
  1 ≤ k ≤ len data →
  data = slice_to data (- k) ++ slice_from data (- k)
  ∧ len (slice_from data (- k)) = k.
Proof.
  intros Hk. unfold slice_to, slice_from, bound.
  destruct (Z.ltb_spec (- k) 0); [|lia].
  split; [by rewrite take_drop|].
  unfold len in *. rewrite length_drop. lia.
Qed.

(** The reading of the last byte and the length check that the three
    unpadding functions share. *)
Lemma unpad_header (data : list byte) (k : Z) :
  last_byte data = Return k → ((k <? 1) || (len data <? k)) = false →
  ∃ front b, data = front ++ [b] ∧ int_of_byte b = k ∧ 1 ≤ k ≤ len data.
Proof.
  unfold last_byte. intros Hlast Hlen.
  destruct (last data) as [b|] eqn:Hb; [|discriminate].
  injection Hlast as <-.
  apply last_is_Some in Hb as [front ->].
  exists front, b. split; [done|]. split; [done|].
  apply orb_false_iff in Hlen as [H1 H2].
  apply Z.ltb_ge in H1, H2. lia.
Qed.

End PaddingSchemes.

Section Pkcs7Limits.
Import Padding.

Lemma pkcs7_pad_returns (data : list byte) (n : Z) :
  1 ≤ n → n - len data mod n ≤ 255 →
  ∃ b m, pkcs7_pad data n = Return (data ++ replicate (S m) b)
         ∧ int_of_byte b = Z.of_nat (S m)
         ∧ Z.of_nat (S m) = n - len data mod n.
Proof.
  intros Hn Hk. unfold pkcs7_pad.
  destruct (Z.eqb_spec n 0); [lia|].
  pose proof (pad_len_bounds data n Hn) as Hb.
  set (k := n - len data mod n) in *.
  destruct (byte_of_int k ltac:(lia)) as (b & Hof & Hint).
  exists b, (Z.to_nat k - 1)%nat.
  replace (S (Z.to_nat k - 1)) with (Z.to_nat k) by lia.
  unfold repeated. rewrite (bytes_replicate _ _ b) by (done || lia).
  split; [done|]. split; lia.
Qed.

Lemma pkcs7_pad_raises (data : list byte) (n : Z) :
  1 ≤ n → 255 < n - len data mod n →
  pkcs7_pad data n = Raise (Exn ValueError "bytes must be in range(0, 256)").
Proof.
  intros Hn Hk. unfold pkcs7_pad.
  destruct (Z.eqb_spec n 0); [lia|].
  set (k := n - len data mod n) in *. unfold repeated.
  replace (Z.to_nat k) with (S (Z.to_nat k - 1)) by lia.
  by rewrite bytes_too_large.
Qed.

End Pkcs7Limits.

(** X1. [pkcs7_pad] at any block size from 1 on: it returns exactly when the
    number of bytes to add, [n - len(data) % n], is at most 255, and then
    [pkcs7_unpad] gives the data back; otherwise [bytes] refuses the value
    and a [ValueError] is raised.  At block size 256, the largest the page
    offers, this happens for every input whose length is a multiple of 256,
    the empty input included. *)
Theorem pkcs7_pad_byte_limit (data : list byte) (n : Z) :
  1 ≤ n →
  (n - Padding.len data mod n ≤ 255 →
   ∃ padded, Padding.pkcs7_pad data n = Return padded
             ∧ Padding.pkcs7_unpad padded = Return data
             ∧ Padding.len padded = Padding.len data + (n - Padding.len data mod n))
  ∧ (255 < n - Padding.len data mod n →
     Padding.pkcs7_pad data n
     = Raise (Exn ValueError "bytes must be in range(0, 256)"))
  ∧ (n = 256 → Padding.len data mod 256 = 0 →
     Padding.pkcs7_pad data n
     = Raise (Exn ValueError "bytes must be in range(0, 256)")).
Proof.
  intros Hn. split; [|split].
  - intros Hk.
    destruct (pkcs7_pad_returns data n Hn Hk) as (b & m & Hpad & Hb & Hm).
    eexists. split; [exact Hpad|]. split; [by apply pkcs7_unpad_padded|].
    rewrite len_app, len_replicate. lia.
  - by apply pkcs7_pad_raises.
  - intros -> Hmod. apply pkcs7_pad_raises; [lia|]. rewrite Hmod. lia.
Qed.

Lemma pkcs7_pad_byte_limit_witness :
  (256 - Padding.len (@nil byte) mod 256 ≤ 255 →
   ∃ padded, Padding.pkcs7_pad [] 256 = Return padded
             ∧ Padding.pkcs7_unpad padded = Return []
             ∧ Padding.len padded
               = Padding.len (@nil byte) + (256 - Padding.len (@nil byte) mod 256))
  ∧ (255 < 256 - Padding.len (@nil byte) mod 256 →
     Padding.pkcs7_pad [] 256
     = Raise (Exn ValueError "bytes must be in range(0, 256)"))
  ∧ (256 = 256 → Padding.len (@nil byte) mod 256 = 0 →
     Padding.pkcs7_pad [] 256
     = Raise (Exn ValueError "bytes must be in range(0, 256)")).
Proof. apply (pkcs7_pad_byte_limit [] 256). lia. Defined.

(** X2. [pkcs7_unpad] accepts exactly well-formed padding: it returns [r]
    if and only if the data is [r] followed by [k] bytes of value [k], for
    some [k] from 1 on.  Anything else (empty data, a last byte of 0 or
    beyond the length, a differing padding byte) is an error. *)
Theorem pkcs7_unpad_accepts_iff (data r : list byte) :
  Padding.pkcs7_unpad data = Return r
  ↔ ∃ (k : nat) (b : byte),
      (1 ≤ k)%nat ∧ Padding.int_of_byte b = Z.of_nat k
      ∧ data = r ++ replicate k b.
Proof.
  split.
  - unfold Padding.pkcs7_unpad.
    destruct (Padding.last_byte data) as [k|] eqn:Hlast; [|discriminate].
    cbn [rbind].
    destruct ((k <? 1) || (Padding.len data <? k)) eqn:Hlen; [discriminate|].
    destruct (unpad_header data k Hlast Hlen) as (front & b & -> & Hb & Hk).
    unfold Padding.repeated.
    rewrite (bytes_replicate _ _ b)
      by (lia || (rewrite <- Hb; apply byte_of_its_int)).
    cbn [rbind]. case_bool_decide as Hpad; [discriminate|].
    intros [= <-].
    destruct (slices_split (front ++ [b]) k Hk) as [Hsplit _].
    exists (Z.to_nat k), b. split; [lia|]. split; [lia|].
    by rewrite <- Hpad.
  - intros (k & b & Hk & Hb & ->).
    destruct k as [|m]; [lia|]. by apply pkcs7_unpad_padded.
Qed.

Section OtherSchemes.
Import Padding.

Lemma ansi_x923_pad_returns (data : list byte) (n : Z) :
  1 ≤ n → n - len data mod n ≤ 255 →
  ∃ b m, ansi_x923_pad data n = Return (data ++ replicate m "000"%byte ++ [b])
         ∧ int_of_byte b = Z.of_nat (S m)
         ∧ Z.of_nat (S m) = n - len data mod n.
Proof.
  intros Hn Hk. unfold ansi_x923_pad.
  destruct (Z.eqb_spec n 0); [lia|].
  pose proof (pad_len_bounds data n Hn) as Hb.
  set (k := n - len data mod n) in *.
  destruct (byte_of_int k ltac:(lia)) as (b & Hof & Hint).
  exists b, (Z.to_nat (k - 1)).
  unfold repeated. rewrite bytes_zeros. cbn [rbind].
  rewrite (bytes_singleton k b) by (done || lia).
  split; [done|]. split; lia.
Qed.

Lemma ansi_x923_pad_raises (data : list byte) (n : Z) :
  1 ≤ n → 255 < n - len data mod n →
  ansi_x923_pad data n = Raise (Exn ValueError "bytes must be in range(0, 256)").
Proof.
  intros Hn Hk. unfold ansi_x923_pad.
  destruct (Z.eqb_spec n 0); [lia|].
  set (k := n - len data mod n) in *.
  unfold repeated. rewrite bytes_zeros. cbn [rbind].
  change [k] with (replicate 1 k). by rewrite (bytes_too_large 0 k).
Qed.

Lemma last_byte_snoc (front : list byte) (b : byte) :
  last_byte (front ++ [b]) = Return (int_of_byte b).
Proof. unfold last_byte. by rewrite last_snoc. Qed.

Lemma length_check_snoc (front : list byte) (b : byte) (k : Z) :
  int_of_byte b = k → 1 ≤ k ≤ len (front ++ [b]) →
  ((k <? 1) || (len (front ++ [b]) <? k)) = false.
Proof.
  intros _ Hk. apply orb_false_iff. split; apply Z.ltb_ge; lia.
Qed.

(** [data[-k:-1]] on [r ++ mid ++ [x]] with [k = len(mid) + 1]. *)
Lemma slice_middle {A} (r mid : list A) (x : A) (k : Z) :
  k = len mid + 1 → slice (r ++ mid ++ [x]) (- k) (-1) = mid.
Proof.
  intros ->. unfold slice, bound.
  assert (0 ≤ len mid) by (unfold len; lia).
  assert (0 ≤ len r) by (unfold len; lia).
  destruct (Z.ltb_spec (- (len mid + 1)) 0); [|lia].
  destruct (Z.ltb_spec (-1) 0); [|lia].
  rewrite !len_app.
  replace (len [x]) with 1 by done.
  replace (Z.to_nat (Z.min _ (Z.max 0 (len r + (len mid + 1) + - (len mid + 1)))))
    with (length r) by (unfold len in *; lia).
  replace (Z.to_nat (Z.min _ (Z.max 0 (len r + (len mid + 1) + -1))) - length r)%nat
    with (length mid) by (unfold len in *; lia).
  rewrite drop_app_length. by rewrite take_app_length.
Qed.

(** [data[:-k]] on [r ++ s] with [k = len(s)]. *)
Lemma slice_to_front {A} (r s : list A) (k : Z) :
  k = len s → s ≠ [] → slice_to (r ++ s) (- k) = r.
Proof. intros ->. apply slice_to_suffix. Qed.

Lemma ansi_x923_unpad_padded (data : list byte) (b : byte) (m : nat) :
  int_of_byte b = Z.of_nat (S m) →
  ansi_x923_unpad (data ++ replicate m "000"%byte ++ [b]) = Return data.
Proof.
  intros Hb. unfold ansi_x923_unpad.
  rewrite (app_assoc data), last_byte_snoc. cbn [rbind]. rewrite Hb.
  rewrite length_check_snoc; [|done|].
  2: { rewrite !len_app, len_replicate. unfold len. simpl. lia. }
  unfold repeated.
  replace (Z.to_nat (Z.of_nat (S m) - 1)) with m by lia.
  rewrite bytes_zeros. cbn [rbind]. rewrite <- (app_assoc data).
  rewrite slice_middle by (rewrite len_replicate; lia).
  rewrite bool_decide_eq_false_2 by (intros Hne; by apply Hne).
  rewrite slice_to_front; [done| |by destruct m].
  rewrite len_app, len_replicate. unfold len. simpl. lia.
Qed.

(** A list of [k ≥ 1] items ending in [b] is its first [k - 1] items and [b]. *)
Lemma split_last_item {A} (front s r : list A) (b : A) :
  front ++ [b] = r ++ s → s ≠ [] →
  ∃ mid, s = mid ++ [b] ∧ front = r ++ mid.
Proof.
  intros Heq Hs.
  destruct s as [|y s] using rev_ind; [done|]. clear IHs.
  rewrite app_assoc in Heq. apply app_inj_tail in Heq as [-> ->].
  by exists s.
Qed.

End OtherSchemes.

(** X3. [ansi_x923_pad] at any block size from 1 on returns exactly when
    the number of bytes to add, [n - len(data) % n], is at most 255; the
    result is the data, then that number less one of zero bytes, then a
    last byte holding that number; its length is a multiple of the block
    size above that of the data, and [ansi_x923_unpad] gives the data
    back.  Otherwise, as at block size 256 on full blocks, it
    raises [ValueError]. *)
Theorem ansi_x923_roundtrip (data : list byte) (n : Z) :
  1 ≤ n →
  (n - Padding.len data mod n ≤ 255 →
   ∃ (padded : list byte) (m : nat) (b : byte),
     Padding.ansi_x923_pad data n = Return padded
     ∧ padded = data ++ replicate m "000"%byte ++ [b]
     ∧ Padding.int_of_byte b = n - Padding.len data mod n
     ∧ Z.of_nat m + 1 = n - Padding.len data mod n
     ∧ Padding.ansi_x923_unpad padded = Return data
     ∧ Padding.len padded mod n = 0
     ∧ Padding.len data < Padding.len padded)
  ∧ (255 < n - Padding.len data mod n →
     Padding.ansi_x923_pad data n
     = Raise (Exn ValueError "bytes must be in range(0, 256)")).
Proof.
  intros Hn. split; [|by apply ansi_x923_pad_raises].
  intros Hk.
  destruct (ansi_x923_pad_returns data n Hn Hk) as (b & m & Hpad & Hb & Hm).
  exists (data ++ replicate m "000"%byte ++ [b]), m, b.
  split; [exact Hpad|]. split; [done|]. split; [lia|]. split; [lia|].
  split; [by apply ansi_x923_unpad_padded|].
  rewrite !len_app, len_replicate.
  replace (Padding.len [b]) with 1 by done.
  replace (Padding.len data + (Z.of_nat m + 1))
    with (Padding.len data + (n - Padding.len data mod n)) by lia.
  split; [by apply padded_length_multiple|].
  pose proof (pad_len_bounds data n Hn). lia.
Qed.

Lemma ansi_x923_roundtrip_witness :
  (8 - Padding.len ["H"%byte; "i"%byte] mod 8 ≤ 255 →
   ∃ (padded : list byte) (m : nat) (b : byte),
     Padding.ansi_x923_pad ["H"%byte; "i"%byte] 8 = Return padded
     ∧ padded = ["H"%byte; "i"%byte] ++ replicate m "000"%byte ++ [b]
     ∧ Padding.int_of_byte b = 8 - Padding.len ["H"%byte; "i"%byte] mod 8
     ∧ Z.of_nat m + 1 = 8 - Padding.len ["H"%byte; "i"%byte] mod 8
     ∧ Padding.ansi_x923_unpad padded = Return ["H"%byte; "i"%byte]
     ∧ Padding.len padded mod 8 = 0
     ∧ Padding.len ["H"%byte; "i"%byte] < Padding.len padded)
  ∧ (255 < 8 - Padding.len ["H"%byte; "i"%byte] mod 8 →
     Padding.ansi_x923_pad ["H"%byte; "i"%byte] 8
     = Raise (Exn ValueError "bytes must be in range(0, 256)")).
Proof. apply (ansi_x923_roundtrip ["H"%byte; "i"%byte] 8). lia. Defined.

(** X4. [ansi_x923_unpad] accepts exactly well-formed padding: it returns
    [r] if and only if the data is [r], then [k - 1] zero bytes, then a
    byte of value [k], for some [k] from 1 on. *)
Theorem ansi_x923_unpad_accepts_iff (data r : list byte) :
  Padding.ansi_x923_unpad data = Return r
  ↔ ∃ (m : nat) (b : byte),
      Padding.int_of_byte b = Z.of_nat (S m)
      ∧ data = r ++ replicate m "000"%byte ++ [b].
Proof.
  split.
  - unfold Padding.ansi_x923_unpad.
    destruct (Padding.last_byte data) as [k|] eqn:Hlast; [|discriminate].
    cbn [rbind].
    destruct ((k <? 1) || (Padding.len data <? k)) eqn:Hlen; [discriminate|].
    destruct (unpad_header data k Hlast Hlen) as (front & b & -> & Hb & Hk).
    unfold Padding.repeated. rewrite bytes_zeros. cbn [rbind].
    case_bool_decide as Hpad; [discriminate|].
    intros [= <-].
    destruct (slices_split (front ++ [b]) k Hk) as [Hsplit Hlen'].
    destruct (split_last_item _ _ _ _ Hsplit) as (mid & Hmid & Hfront).
    { intros Hnil. rewrite Hnil in Hlen'. unfold Padding.len in Hlen'.
      simpl in Hlen'. lia. }
    exists (Z.to_nat (k - 1)), b. split; [lia|].
    rewrite Hsplit at 1. f_equal. rewrite Hmid. f_equal.
    rewrite Hmid, len_app in Hlen'.
    replace (Padding.len [b]) with 1 in Hlen' by done.
    rewrite <- Hpad.
    rewrite Hsplit at 1. rewrite Hmid.
    by rewrite slice_middle by lia.
  - intros (m & b & Hb & ->). by apply ansi_x923_unpad_padded.
Qed.

Section Iso10126.
Import Padding.

Lemma urandom_zeros_ok : urandom_ok urandom_zeros.
Proof.
  intros n. unfold urandom_zeros.
  destruct (Z.ltb_spec n 0); [by eexists|].
  eexists. split; [done|]. unfold repeated. rewrite len_replicate. lia.
Qed.

Lemma iso_10126_unpad_padded (data noise : list byte) (b : byte) :
  int_of_byte b = len noise + 1 →
  iso_10126_unpad (data ++ noise ++ [b]) = Return data.
Proof.
  intros Hb. unfold iso_10126_unpad.
  rewrite (app_assoc data), last_byte_snoc. cbn [rbind].
  assert (0 ≤ len noise) by (unfold len; lia).
  rewrite length_check_snoc; [|done|].
  2: { rewrite Hb, !len_app. unfold len in *. simpl. lia. }
  rewrite <- (app_assoc data).
  rewrite slice_to_front; [done| |by destruct noise].
  rewrite Hb, len_app. done.
Qed.

Lemma iso_10126_pad_returns (urandom : Z → result (list byte))
    (data : list byte) (n : Z) :
  urandom_ok urandom → 1 ≤ n → n - len data mod n ≤ 255 →
  ∃ (noise : list byte) (b : byte),
    iso_10126_pad urandom data n = Return (data ++ noise ++ [b])
    ∧ int_of_byte b = n - len data mod n
    ∧ len noise + 1 = n - len data mod n.
Proof.
  intros Hrand Hn Hmax. unfold iso_10126_pad.
  destruct (Z.eqb_spec n 0); [lia|].
  pose proof (pad_len_bounds data n Hn) as Hb.
  set (k := n - len data mod n) in *.
  specialize (Hrand (k - 1)).
  destruct (Z.ltb_spec (k - 1) 0); [lia|].
  destruct Hrand as (noise & -> & Hnoise). cbn [rbind].
  destruct (byte_of_int k ltac:(lia)) as (b & Hof & Hint).
  rewrite (bytes_singleton k b) by (done || lia). cbn [rbind].
  exists noise, b. split; [done|]. split; [done|lia].
Qed.

End Iso10126.

(** X5. [iso_10126_pad] round-trips whatever the random bytes: with a
    source that returns as many bytes as asked for, and a block size
    between 1 and 255, padding returns a byte string that
    [iso_10126_unpad] turns back into the data, of a length that is a
    multiple of the block size above that of the data. *)
Theorem iso_10126_roundtrip (urandom : Z → result (list byte))
    (data : list byte) (n : Z) :
  Padding.urandom_ok urandom → 1 ≤ n ≤ 255 →
  ∃ padded,
    Padding.iso_10126_pad urandom data n = Return padded
    ∧ Padding.iso_10126_unpad padded = Return data
    ∧ Padding.len padded mod n = 0
    ∧ Padding.len data < Padding.len padded.
Proof.
  intros Hrand Hn.
  pose proof (pad_len_bounds data n ltac:(lia)) as Hb.
  destruct (iso_10126_pad_returns urandom data n Hrand ltac:(lia) ltac:(lia))
    as (noise & b & Hpad & Hint & Hnoise).
  eexists. split; [exact Hpad|].
  split; [apply iso_10126_unpad_padded; lia|].
  rewrite !len_app. replace (Padding.len [b]) with 1 by done.
  replace (Padding.len data + (Padding.len noise + 1))
    with (Padding.len data + (n - Padding.len data mod n)) by lia.
  split; [apply padded_length_multiple; lia|]. lia.
Qed.

Lemma iso_10126_roundtrip_witness :
  ∃ padded,
    Padding.iso_10126_pad Padding.urandom_zeros ["H"%byte; "i"%byte] 16
    = Return padded
    ∧ Padding.iso_10126_unpad padded = Return ["H"%byte; "i"%byte]
    ∧ Padding.len padded mod 16 = 0
    ∧ Padding.len ["H"%byte; "i"%byte] < Padding.len padded.
Proof.
  apply (iso_10126_roundtrip Padding.urandom_zeros ["H"%byte; "i"%byte] 16).
  - exact urandom_zeros_ok.
  - lia.
Defined.

(** X6. [iso_10126_unpad] looks at the last byte only: it returns [r] if
    and only if the data is [r], then any bytes, then a last byte that
    counts those bytes and itself.  In particular it also removes what
    [pkcs7_pad] and [ansi_x923_pad] add, at any block size from 1 on. *)
Theorem iso_10126_unpad_accepts_iff (data r : list byte) :
  (Padding.iso_10126_unpad data = Return r
   ↔ ∃ (noise : list byte) (b : byte),
       Padding.int_of_byte b = Padding.len noise + 1
       ∧ data = r ++ noise ++ [b])
  ∧ (∀ n, 1 ≤ n → Padding.pkcs7_pad r n = Return data →
          Padding.iso_10126_unpad data = Return r)
  ∧ (∀ n, 1 ≤ n → Padding.ansi_x923_pad r n = Return data →
          Padding.iso_10126_unpad data = Return r).
Proof.
  split; [split|split].
  - unfold Padding.iso_10126_unpad.
    destruct (Padding.last_byte data) as [k|] eqn:Hlast; [|discriminate].
    cbn [rbind].
    destruct ((k <? 1) || (Padding.len data <? k)) eqn:Hlen; [discriminate|].
    destruct (unpad_header data k Hlast Hlen) as (front & b & -> & Hb & Hk).
    intros [= <-].
    destruct (slices_split (front ++ [b]) k Hk) as [Hsplit Hlen'].
    destruct (split_last_item _ _ _ _ Hsplit) as (mid & Hmid & Hfront).
    { intros Hnil. rewrite Hnil in Hlen'. unfold Padding.len in Hlen'.
      simpl in Hlen'. lia. }
    exists mid, b. rewrite Hmid, len_app in Hlen'.
    replace (Padding.len [b]) with 1 in Hlen' by done.
    split; [lia|]. rewrite Hsplit at 1. by rewrite Hmid.
  - intros (noise & b & Hb & ->). by apply iso_10126_unpad_padded.
  - intros n Hn Hpad.
    destruct (Z_le_gt_dec (n - Padding.len r mod n) 255) as [Hk|Hk].
    + destruct (pkcs7_pad_returns r n Hn Hk) as (b & m & Hpad' & Hb & _).
      assert (data = r ++ replicate (S m) b) as -> by congruence.
      rewrite replicate_S_end.
      apply iso_10126_unpad_padded. rewrite len_replicate. lia.
    + rewrite pkcs7_pad_raises in Hpad by lia. discriminate.
  - intros n Hn Hpad.
    destruct (Z_le_gt_dec (n - Padding.len r mod n) 255) as [Hk|Hk].
    + destruct (ansi_x923_pad_returns r n Hn Hk) as (b & m & Hpad' & Hb & _).
      assert (data = r ++ replicate m "000"%byte ++ [b]) as -> by congruence.
      apply iso_10126_unpad_padded. rewrite len_replicate. lia.
    + rewrite ansi_x923_pad_raises in Hpad by lia. discriminate.
Qed.

Section ZeroPadding.
Import Padding.

Lemma zero_unpad_zeros (m : nat) : zero_unpad (replicate m "000"%byte) = [].
Proof.
  induction m as [|m IH]; [done|].
  unfold zero_unpad in *. cbn [replicate fold_right]. rewrite IH.
  by rewrite bool_decide_eq_true_2.
Qed.

Lemma zero_unpad_keeps (l : list byte) (x : byte) :
  x ≠ "000"%byte → zero_unpad (l ++ [x]) = l ++ [x].
Proof.
  intros Hx. unfold zero_unpad. rewrite fold_right_app. cbn [fold_right].
  rewrite bool_decide_eq_false_2 by done.
  induction l as [|b l IH]; [done|].
  cbn [fold_right app]. rewrite IH. by destruct l.
Qed.

Lemma zero_unpad_app_zeros (l : list byte) (m : nat) :
  zero_unpad (l ++ replicate m "000"%byte) = zero_unpad l.
Proof.
  unfold zero_unpad. rewrite fold_right_app.
  fold (zero_unpad (replicate m "000"%byte)). by rewrite zero_unpad_zeros.
Qed.

(** What [rstrip] leaves and what it removes. *)
Lemma zero_unpad_spec (l : list byte) :
  ∃ m, l = zero_unpad l ++ replicate m "000"%byte
       ∧ last (zero_unpad l) ≠ Some "000"%byte.
Proof.
  induction l as [|x l IH] using rev_ind.
  - exists 0%nat. by split.
  - destruct (decide (x = "000"%byte)) as [->|Hx].
    + destruct IH as (m & Hl & Hlast).
      exists (S m).
      change ["000"%byte] with (replicate 1 "000"%byte).
      rewrite zero_unpad_app_zeros. split; [|done].
      rewrite (replicate_S_end m), app_assoc. by rewrite <- Hl.
    + exists 0%nat. rewrite zero_unpad_keeps by done.
      rewrite app_nil_r, last_snoc. split; [done|]. congruence.
Qed.

Lemma zero_unpad_fixed_iff (l : list byte) :
  zero_unpad l = l ↔ last l ≠ Some "000"%byte.
Proof.
  split.
  - intros H. destruct (zero_unpad_spec l) as (m & _ & Hlast). by rewrite H in Hlast.
  - intros Hlast. destruct l as [|x l _] using rev_ind; [done|].
    rewrite last_snoc in Hlast. apply zero_unpad_keeps. congruence.
Qed.

Lemma zero_pad_returns (data : list byte) (n : Z) :
  1 ≤ n →
  zero_pad data n
  = Return (data ++ replicate (Z.to_nat (n - len data mod n)) "000"%byte).
Proof.
  intros Hn. unfold zero_pad.
  destruct (Z.eqb_spec n 0); [lia|].
  unfold repeated. by rewrite bytes_zeros.
Qed.

End ZeroPadding.

(** X7. Zero padding at any block size from 1 on always returns: it adds
    between 1 and [n] zero bytes and reaches a multiple of the block size.
    Unpadding the result gives what unpadding the data itself gives, so the
    data comes back if and only if it does not end in a zero byte. *)
Theorem zero_pad_roundtrip_iff (data : list byte) (n : Z) :
  1 ≤ n →
  ∃ m : nat,
    1 ≤ Z.of_nat m ≤ n
    ∧ Padding.zero_pad data n = Return (data ++ replicate m "000"%byte)
    ∧ Padding.len (data ++ replicate m "000"%byte) mod n = 0
    ∧ Padding.zero_unpad (data ++ replicate m "000"%byte)
      = Padding.zero_unpad data
    ∧ (Padding.zero_unpad (data ++ replicate m "000"%byte) = data
       ↔ last data ≠ Some "000"%byte).
Proof.
  intros Hn.
  pose proof (pad_len_bounds data n Hn) as Hb.
  exists (Z.to_nat (n - Padding.len data mod n)).
  split; [lia|]. split; [by apply zero_pad_returns|].
  split.
  { rewrite len_app, len_replicate.
    replace (Z.of_nat (Z.to_nat (n - Padding.len data mod n)))
      with (n - Padding.len data mod n) by lia.
    by apply padded_length_multiple. }
  rewrite zero_unpad_app_zeros. split; [done|]. apply zero_unpad_fixed_iff.
Qed.

Lemma zero_pad_roundtrip_iff_witness :
  ∃ m : nat,
    1 ≤ Z.of_nat m ≤ 300
    ∧ Padding.zero_pad ["H"%byte; "000"%byte] 300
      = Return (["H"%byte; "000"%byte] ++ replicate m "000"%byte)
    ∧ Padding.len (["H"%byte; "000"%byte] ++ replicate m "000"%byte) mod 300 = 0
    ∧ Padding.zero_unpad (["H"%byte; "000"%byte] ++ replicate m "000"%byte)
      = Padding.zero_unpad ["H"%byte; "000"%byte]
    ∧ (Padding.zero_unpad (["H"%byte; "000"%byte] ++ replicate m "000"%byte)
       = ["H"%byte; "000"%byte]
       ↔ last ["H"%byte; "000"%byte] ≠ Some "000"%byte).
Proof. apply (zero_pad_roundtrip_iff ["H"%byte; "000"%byte] 300). lia. Defined.

(** X8. [zero_unpad] removes exactly the trailing zero bytes: the data is
    the result followed by zero bytes only, the result does not end in a
    zero byte, and unpadding a second time changes nothing. *)
Theorem zero_unpad_strips_trailing_zeros (data : list byte) :
  (∃ m : nat, data = Padding.zero_unpad data ++ replicate m "000"%byte)
  ∧ last (Padding.zero_unpad data) ≠ Some "000"%byte
  ∧ Padding.zero_unpad (Padding.zero_unpad data) = Padding.zero_unpad data.
Proof.
  destruct (zero_unpad_spec data) as (m & Hdata & Hlast).
  split; [by exists m|]. split; [done|]. by apply zero_unpad_fixed_iff.
Qed.

(** X9. The two length-and-content checking schemes do not mix: what
    [pkcs7_pad] adds is refused by [ansi_x923_unpad] as soon as it is two
    bytes or more, and accepted when it is the single byte 1, the one case
    where both schemes add the same bytes. *)
Theorem ansi_x923_unpad_of_pkcs7 (data : list byte) (n : Z) :
  1 ≤ n → n - Padding.len data mod n ≤ 255 →
  ∃ padded,
    Padding.pkcs7_pad data n = Return padded
    ∧ (n - Padding.len data mod n = 1 →
       Padding.ansi_x923_pad data n = Return padded
       ∧ Padding.ansi_x923_unpad padded = Return data)
    ∧ (2 ≤ n - Padding.len data mod n →
       Padding.ansi_x923_unpad padded
       = Raise (Exn ValueError "Invalid ANSI X.923 padding")).
Proof.
  intros Hn Hk.
  destruct (pkcs7_pad_returns data n Hn Hk) as (b & m & Hpad & Hb & Hm).
  eexists. split; [exact Hpad|]. split.
  - intros H1. assert (m = 0%nat) as -> by lia.
    destruct (ansi_x923_pad_returns data n Hn Hk) as (b' & m' & Hpad' & Hb' & Hm').
    assert (m' = 0%nat) as -> by lia.
    assert (b' = b) as -> by (apply int_of_byte_inj; congruence).
    split; [exact Hpad'|]. by apply (ansi_x923_unpad_padded data b 0).
  - intros H2. destruct m as [|m]; [lia|].
    rewrite (replicate_S_end (S m)).
    unfold Padding.ansi_x923_unpad.
    rewrite (app_assoc data), last_byte_snoc. cbn [rbind]. rewrite Hb.
    rewrite length_check_snoc; [|done|].
    2: { rewrite !len_app, len_replicate. unfold Padding.len. simpl. lia. }
    unfold Padding.repeated.
    replace (Z.to_nat (Z.of_nat (S (S m)) - 1)) with (S m) by lia.
    rewrite bytes_zeros. cbn [rbind]. rewrite <- (app_assoc data).
    rewrite slice_middle by (rewrite len_replicate; lia).
    rewrite bool_decide_eq_true_2; [done|].
    cbn [replicate]. intros [= Hzero _].
    rewrite Hzero in Hb. vm_compute in Hb. lia.
Qed.

Lemma ansi_x923_unpad_of_pkcs7_witness :
  ∃ padded,
    Padding.pkcs7_pad ["H"%byte; "i"%byte] 8 = Return padded
    ∧ (8 - Padding.len ["H"%byte; "i"%byte] mod 8 = 1 →
       Padding.ansi_x923_pad ["H"%byte; "i"%byte] 8 = Return padded
       ∧ Padding.ansi_x923_unpad padded = Return ["H"%byte; "i"%byte])
    ∧ (2 ≤ 8 - Padding.len ["H"%byte; "i"%byte] mod 8 →
       Padding.ansi_x923_unpad padded
       = Raise (Exn ValueError "Invalid ANSI X.923 padding")).
Proof.
  apply (ansi_x923_unpad_of_pkcs7 ["H"%byte; "i"%byte] 8); vm_compute; congruence.
Defined.

Section HexText.
Import Padding.

(** One byte, written by [hex], is read back by [fromhex], and holds no
    whitespace. *)
Lemma hex_byte_facts (b : byte) :
  let n := int_of_byte b in
  let c1 := Codec.hex_char (n / 16) in
  let c2 := Codec.hex_char (n mod 16) in
  Codec.c_isspace c1 = false
  ∧ Codec.isspace c1 = false ∧ Codec.isspace c2 = false
  ∧ Codec.ascii_char c1 = true ∧ Codec.ascii_char c2 = true
  ∧ ∃ top bot, Codec.hex_val c1 = Some top ∧ Codec.hex_val c2 = Some bot
               ∧ Byte.of_N (Z.to_N (16 * top + bot)) = Some b.
Proof.
  destruct b; vm_compute; repeat split; eexists _, _; repeat split.
Qed.

Lemma fromhex_from_hex (bs : list byte) (pos : nat) :
  Codec.fromhex_from pos (Text.chars (Codec.hex bs)) = Return bs.
Proof.
  unfold Codec.hex. rewrite chars_str. revert pos.
  induction bs as [|b bs IH]; intros pos; [done|].
  cbn [map concat app Codec.fromhex_from].
  destruct (hex_byte_facts b) as (Hsp & _ & _ & _ & _ & top & bot & Htop & Hbot & Hb).
  cbv zeta in *. rewrite Hsp, Htop, Hbot, Hb, IH. done.
Qed.

Lemma hex_is_ascii (bs : list byte) (pos : nat) :
  Codec.first_non_ascii pos (Text.chars (Codec.hex bs)) = None.
Proof.
  unfold Codec.hex. rewrite chars_str. revert pos.
  induction bs as [|b bs IH]; intros pos; [done|].
  cbn [map concat app Codec.first_non_ascii].
  destruct (hex_byte_facts b) as (_ & _ & _ & H1 & H2 & _).
  cbv zeta in *. by rewrite H1, H2.
Qed.

Lemma join_split_hex (bs : list byte) :
  Codec.join_split (Codec.hex bs) = Codec.hex bs.
Proof.
  unfold Codec.join_split, Codec.hex. rewrite chars_str. f_equal.
  induction bs as [|b bs IH]; [done|].
  cbn [map concat app List.filter].
  destruct (hex_byte_facts b) as (_ & H1 & H2 & _).
  cbv zeta in *. rewrite H1, H2. cbn [negb]. by rewrite IH.
Qed.

Lemma length_hex (bs : list byte) :
  String.length (Codec.hex bs) = (2 * length bs)%nat.
Proof.
  unfold Codec.hex, Text.str.
  induction bs as [|b bs IH]; [done|].
  cbn [map concat app string_of_list_ascii String.length length].
  rewrite IH. lia.
Qed.

(** A hexadecimal text written by [hex] passes the checks of the [Unpad]
    branch. *)
Lemma unpad_branch_reads_hex (bs : list byte) :
  bs ≠ [] →
  ((String.length (Codec.join_split (Codec.hex bs)) =? 0)%nat
   || negb (String.length (Codec.join_split (Codec.hex bs)) mod 2 =? 0)%nat)
  = false
  ∧ Codec.fromhex (Codec.join_split (Codec.hex bs)) = Return bs.
Proof.
  intros Hne. rewrite join_split_hex, length_hex. split.
  - apply orb_false_iff. split.
    + apply Nat.eqb_neq. destruct bs; simpl; [done|lia].
    + apply negb_false_iff, Nat.eqb_eq.
      rewrite Nat.mul_comm. apply Nat.Div0.mod_mul.
  - unfold Codec.fromhex. rewrite hex_is_ascii. apply fromhex_from_hex.
Qed.

End HexText.

Section PageComputation.
Import Padding PaddingPage.

Variable urandom : Z → result (list byte).
Variable encode : string → result (list byte).
Variable decode : list byte → result string.

Lemma compute_pad_then_unpad (ty : string) (sch : scheme) (n : Z)
    (text : string) (bs padded : list byte) :
  dict_get (paddings urandom) ty = Some sch →
  encode text = Return bs → decode bs = Return text →
  pad_func sch bs n = Return padded → unpad_func sch padded = Return bs →
  padded ≠ [] →
  compute urandom encode decode ty "Pad" n text
  = Return (Outputs (Codec.hex padded) "" None)
  ∧ ∀ n', compute urandom encode decode ty "Unpad" n' (Codec.hex padded)
          = Return (Outputs (Codec.hex bs) text None).
Proof.
  intros Hty Henc Hdec Hpad Hunpad Hne.
  unfold compute, compute_body, dict_getitem. rewrite Hty. cbn [rbind].
  split.
  - change (String.eqb "Pad" "Pad") with true.
    change (String.eqb "Pad" "Unpad") with false.
    cbv iota. by rewrite Henc; cbn [rbind]; rewrite Hpad.
  - intros n'.
    change (String.eqb "Unpad" "Pad") with false.
    change (String.eqb "Unpad" "Unpad") with true.
    cbv iota zeta.
    destruct (unpad_branch_reads_hex padded Hne) as [-> ->].
    rewrite Hunpad. cbn [rbind]. by rewrite Hdec.
Qed.

Lemma compute_pad_fails (ty : string) (sch : scheme) (n : Z)
    (text : string) (bs : list byte) (msg : string) :
  dict_get (paddings urandom) ty = Some sch →
  encode text = Return bs →
  pad_func sch bs n = Raise (Exn ValueError msg) →
  compute urandom encode decode ty "Pad" n text
  = Return (Outputs "" "" (Some msg)).
Proof.
  intros Hty Henc Hpad.
  unfold compute, compute_body, dict_getitem. rewrite Hty. cbn [rbind].
  change (String.eqb "Pad" "Pad") with true. cbv iota.
  rewrite Henc. cbn [rbind]. by rewrite Hpad.
Qed.

Lemma iso_10126_pad_raises (data : list byte) (n : Z) :
  urandom_ok urandom → 1 ≤ n → 255 < n - len data mod n →
  iso_10126_pad urandom data n
  = Raise (Exn ValueError "bytes must be in range(0, 256)").
Proof.
  intros Hrand Hn Hk. unfold iso_10126_pad.
  destruct (Z.eqb_spec n 0); [lia|].
  set (k := n - len data mod n) in *.
  specialize (Hrand (k - 1)).
  destruct (Z.ltb_spec (k - 1) 0); [lia|].
  destruct Hrand as (noise & -> & _). cbn [rbind].
  change [k] with (replicate 1 k). by rewrite (bytes_too_large 0 k).
Qed.

End PageComputation.

(** X10. Padding and unpadding through the page round-trip: when the text
    is encoded to [bs] and [bs] decodes to the text, a [Pad] computation
    with PKCS7, ANSI X.923 or ISO 10126 at a block size between 1 and 255,
    or with Zero at any block size from 1 on when [bs] does not end in a
    zero byte, leaves a hexadecimal output and no error, and an [Unpad]
    computation on that output leaves the text, the hexadecimal form of
    [bs], and no error. *)
Theorem page_pad_unpad_roundtrip (urandom : Z → result (list byte))
    (encode : string → result (list byte)) (decode : list byte → result string)
    (padding_type : string) (block_size : Z) (text : string) (bs : list byte) :
  Padding.urandom_ok urandom →
  encode text = Return bs → decode bs = Return text →
  1 ≤ block_size →
  ((padding_type = "PKCS7" ∨ padding_type = "ANSI X.923"
    ∨ padding_type = "ISO 10126") ∧ block_size ≤ 255)
  ∨ (padding_type = "Zero" ∧ last bs ≠ Some "000"%byte) →
  ∃ h,
    PaddingPage.compute urandom encode decode padding_type "Pad" block_size text
    = Return (PaddingPage.Outputs h "" None)
    ∧ ∀ n', PaddingPage.compute urandom encode decode padding_type "Unpad" n' h
            = Return (PaddingPage.Outputs (Codec.hex bs) text None).
Proof.
  intros Hrand Henc Hdec Hn Hcase.
  assert (Hgrow : ∀ padded : list byte,
            Padding.len bs < Padding.len padded → padded ≠ []).
  { intros padded Hlen ->. unfold Padding.len in Hlen. simpl in Hlen. lia. }
  destruct Hcase as [[[-> | [-> | ->]] Hmax] | [-> Hlast]].
  - destruct (pkcs7_pad_returns bs block_size Hn) as (b & m & Hpad & Hb & Hm).
    { pose proof (pad_len_bounds bs block_size Hn). lia. }
    eexists.
    apply (compute_pad_then_unpad urandom encode decode "PKCS7"
             (PaddingPage.Scheme Padding.pkcs7_pad Padding.pkcs7_unpad)
             block_size text bs (bs ++ replicate (S m) b));
      [reflexivity | done | done | exact Hpad
      | by apply pkcs7_unpad_padded | by destruct bs].
  - destruct (ansi_x923_pad_returns bs block_size Hn) as (b & m & Hpad & Hb & Hm).
    { pose proof (pad_len_bounds bs block_size Hn). lia. }
    eexists.
    apply (compute_pad_then_unpad urandom encode decode "ANSI X.923"
             (PaddingPage.Scheme Padding.ansi_x923_pad Padding.ansi_x923_unpad)
             block_size text bs (bs ++ replicate m "000"%byte ++ [b]));
      [reflexivity | done | done | exact Hpad
      | by apply ansi_x923_unpad_padded
      | destruct bs; [by destruct m|done]].
  - pose proof (pad_len_bounds bs block_size Hn).
    destruct (iso_10126_pad_returns urandom bs block_size Hrand Hn ltac:(lia))
      as (noise & b & Hpad & Hb & Hnoise).
    eexists.
    apply (compute_pad_then_unpad urandom encode decode "ISO 10126"
             (PaddingPage.Scheme (Padding.iso_10126_pad urandom)
                                 Padding.iso_10126_unpad)
             block_size text bs (bs ++ noise ++ [b]));
      [reflexivity | done | done | exact Hpad
      | apply iso_10126_unpad_padded; lia
      | destruct bs; [by destruct noise|done]].
  - pose proof (pad_len_bounds bs block_size Hn).
    eexists.
    apply (compute_pad_then_unpad urandom encode decode "Zero"
             (PaddingPage.Scheme Padding.zero_pad
                (λ data, Return (Padding.zero_unpad data)))
             block_size text bs
             (bs ++ replicate (Z.to_nat (block_size - Padding.len bs mod block_size))
                     "000"%byte));
      [reflexivity | done | done | by apply zero_pad_returns | |].
    + cbn [PaddingPage.unpad_func]. f_equal.
      rewrite zero_unpad_app_zeros. by apply zero_unpad_fixed_iff.
    + destruct (Z.to_nat _) eqn:Hm; [lia|]. by destruct bs.
Qed.

Lemma page_pad_unpad_roundtrip_witness :
  ∃ h,
    PaddingPage.compute Padding.urandom_zeros Codec.encode_default
      Codec.decode_default "PKCS7" "Pad" 16 "Hi"
    = Return (PaddingPage.Outputs h "" None)
    ∧ ∀ n', PaddingPage.compute Padding.urandom_zeros Codec.encode_default
              Codec.decode_default "PKCS7" "Unpad" n' h
            = Return (PaddingPage.Outputs (Codec.hex ["H"%byte; "i"%byte]) "Hi" None).
Proof.
  apply (page_pad_unpad_roundtrip Padding.urandom_zeros Codec.encode_default
           Codec.decode_default "PKCS7" 16 "Hi" ["H"%byte; "i"%byte]).
  - exact urandom_zeros_ok.
  - reflexivity.
  - reflexivity.
  - lia.
  - left. split; [by left|lia].
Defined.

(** X11. The largest block size the page offers is out of reach of three
    schemes: when the number of bytes to add exceeds 255 (at block size 256,
    when the encoded text has a length that is a multiple of 256, the empty
    text included), a [Pad] computation with PKCS7, ANSI X.923 or ISO 10126
    ends with the error of [bytes] and empty outputs, while Zero padding
    returns its hexadecimal output. *)
Theorem page_block_size_limit (urandom : Z → result (list byte))
    (encode : string → result (list byte)) (decode : list byte → result string)
    (block_size : Z) (text : string) (bs : list byte) :
  Padding.urandom_ok urandom → encode text = Return bs →
  1 ≤ block_size → 255 < block_size - Padding.len bs mod block_size →
  (∀ padding_type,
     padding_type = "PKCS7" ∨ padding_type = "ANSI X.923"
     ∨ padding_type = "ISO 10126" →
     PaddingPage.compute urandom encode decode padding_type "Pad" block_size text
     = Return (PaddingPage.Outputs "" ""
                 (Some "bytes must be in range(0, 256)")))
  ∧ PaddingPage.compute urandom encode decode "Zero" "Pad" block_size text
    = Return (PaddingPage.Outputs
                (Codec.hex
                   (bs ++ replicate
                            (Z.to_nat (block_size - Padding.len bs mod block_size))
                            "000"%byte))
                "" None).
Proof.
  intros Hrand Henc Hn Hk. split.
  - intros padding_type [-> | [-> | ->]].
    + apply (compute_pad_fails urandom encode decode "PKCS7"
               (PaddingPage.Scheme Padding.pkcs7_pad Padding.pkcs7_unpad)
               block_size text bs);
        [reflexivity | done | by apply pkcs7_pad_raises].
    + apply (compute_pad_fails urandom encode decode "ANSI X.923"
               (PaddingPage.Scheme Padding.ansi_x923_pad Padding.ansi_x923_unpad)
               block_size text bs);
        [reflexivity | done | by apply ansi_x923_pad_raises].
    + apply (compute_pad_fails urandom encode decode "ISO 10126"
               (PaddingPage.Scheme (Padding.iso_10126_pad urandom)
                                   Padding.iso_10126_unpad)
               block_size text bs);
        [reflexivity | done | by apply iso_10126_pad_raises].
  - unfold PaddingPage.compute, PaddingPage.compute_body, dict_getitem.
    cbn [PaddingPage.paddings dict_get].
    change (String.eqb "PKCS7" "Zero") with false.
    change (String.eqb "Zero" "Zero") with true.
    change (String.eqb "Pad" "Pad") with true.
    change (String.eqb "Pad" "Unpad") with false.
    cbv iota. cbn [rbind PaddingPage.pad_func]. rewrite Henc. cbn [rbind].
    by rewrite zero_pad_returns.
Qed.

Lemma page_block_size_limit_witness :
  (∀ padding_type,
     padding_type = "PKCS7" ∨ padding_type = "ANSI X.923"
     ∨ padding_type = "ISO 10126" →
     PaddingPage.compute Padding.urandom_zeros Codec.encode_default
       Codec.decode_default padding_type "Pad" 256 ""
     = Return (PaddingPage.Outputs "" ""
                 (Some "bytes must be in range(0, 256)")))
  ∧ PaddingPage.compute Padding.urandom_zeros Codec.encode_default
      Codec.decode_default "Zero" "Pad" 256 ""
    = Return (PaddingPage.Outputs
                (Codec.hex
                   ([] ++ replicate (Z.to_nat (256 - Padding.len (@nil byte) mod 256))
                            "000"%byte))
                "" None).
Proof.
  apply (page_block_size_limit Padding.urandom_zeros Codec.encode_default
           Codec.decode_default 256 "" []).
  - exact urandom_zeros_ok.
  - reflexivity.
  - lia.
  - vm_compute. reflexivity.
Defined.

Section PageErrors.
Import Padding PaddingPage.

Lemma bytes_raises (ints : list Z) (e : exn) :
  bytes ints = Raise e → exn_cls e = ValueError.
Proof.
  revert e. induction ints as [|i ints IH]; intros e; [done|].
  cbn [bytes].
  destruct (if 0 <=? i then Byte.of_N (Z.to_N i) else None); [|by intros [= <-]].
  destruct (bytes ints) as [bs|e']; [done|].
  cbn [rbind]. intros [= <-]. by apply IH.
Qed.

Lemma last_byte_raises (data : list byte) (e : exn) :
  last_byte data = Raise e → exn_cls e = IndexError.
Proof. unfold last_byte. destruct (last data); [done|]. by intros [= <-]. Qed.

Lemma fromhex_from_raises (cs : list ascii) (pos : nat) (e : exn) :
  Codec.fromhex_from pos cs = Raise e → exn_cls e = ValueError.
Proof.
  revert pos. induction cs as [cs IH] using (induction_ltof1 _ (@length _)).
  unfold ltof in IH. intros pos.
  destruct cs as [|c cs1]; [done|]. cbn [Codec.fromhex_from].
  destruct (Codec.c_isspace c); [apply IH; simpl; lia|].
  destruct (Codec.hex_val c); [|by intros [= <-]].
  destruct cs1 as [|d cs2]; [by intros [= <-]|].
  destruct (Codec.hex_val d); [|by intros [= <-]].
  destruct (Byte.of_N _); [|by intros [= <-]].
  destruct (Codec.fromhex_from _ cs2) as [bs|e'] eqn:Hrest; [done|].
  cbn [rbind]. intros [= <-]. apply (IH cs2) in Hrest; [done|simpl; lia].
Qed.

Lemma fromhex_raises (text : string) (e : exn) :
  Codec.fromhex text = Raise e → exn_cls e = ValueError.
Proof.
  unfold Codec.fromhex. destruct (Codec.first_non_ascii _ _).
  - by intros [= <-].
  - apply fromhex_from_raises.
Qed.

Lemma rbind_raises {A B} (r : result A) (k : A → result B) (e : exn) :
  rbind r k = Raise e → r = Raise e ∨ ∃ a, r = Return a ∧ k a = Raise e.
Proof.
  destruct r as [a|e']; cbn [rbind]; intros H.
  - right. by exists a.
  - left. by injection H as ->.
Qed.

Variable urandom : Z → result (list byte).
Variable encode : string → result (list byte).
Variable decode : list byte → result string.
Hypothesis urandom_raises : raises_Exception_only urandom.
Hypothesis encode_raises : raises_Exception_only encode.
Hypothesis decode_raises : raises_Exception_only decode.

Ltac raised :=
  repeat match goal with
  | H : (if ?c then _ else _) = Raise _ |- _ => destruct c
  | H : Raise _ = Raise _ |- _ => injection H as <-
  | H : Return _ = Raise _ |- _ => discriminate H
  | H : rbind _ _ = Raise _ |- _ =>
      apply rbind_raises in H; destruct H as [H | (? & _ & H)]
  | H : bytes _ = Raise _ |- _ => apply bytes_raises in H; rewrite H
  | H : last_byte _ = Raise _ |- _ => apply last_byte_raises in H; rewrite H
  | H : urandom _ = Raise _ |- _ => by apply urandom_raises in H
  end; try done.

Lemma schemes_raise_only_Exception (ty : string) (sch : scheme) :
  dict_get (paddings urandom) ty = Some sch →
  (∀ data n e, pad_func sch data n = Raise e → is_Exception (exn_cls e) = true)
  ∧ raises_Exception_only (unpad_func sch).
Proof.
  unfold paddings. cbn [dict_get].
  repeat (destruct (String.eqb _ ty); [intros [= <-]|]); [..|done];
    (split; [intros data n e H|intros data e H]); cbn [pad_func unpad_func] in H.
  - unfold pkcs7_pad in H. raised.
  - unfold pkcs7_unpad in H. raised.
  - unfold zero_pad in H. raised.
  - done.
  - unfold ansi_x923_pad in H. raised.
  - unfold ansi_x923_unpad in H. raised.
  - unfold iso_10126_pad in H. raised.
  - unfold iso_10126_unpad in H. raised.
Qed.

Lemma compute_body_outcome (padding_type action : string) (block_size : Z)
    (input_text : string) :
  match compute_body urandom encode decode padding_type action block_size
          input_text with
  | Return o => error o = None ∧ (action ≠ "Unpad" → output_text o = "")
  | Raise e => is_Exception (exn_cls e) = true
  end.
Proof.
  destruct (compute_body _ _ _ _ _ _ _) as [o|e] eqn:H.
  - unfold compute_body in H.
    destruct (dict_getitem _ _) as [funcs|]; [|done]. cbn [rbind] in H.
    match type of H with rbind ?r _ = _ => destruct r as [out|]; [|done] end.
    cbn [rbind] in H.
    destruct (String.eqb_spec action "Unpad") as [->|Hact].
    + destruct (decode out); [|done]. injection H as <-. done.
    + injection H as <-. done.
  - unfold compute_body in H.
    apply rbind_raises in H. destruct H as [H | (funcs & Hty & H)].
    { unfold dict_getitem in H. destruct (dict_get _ _); [done|].
      by injection H as <-. }
    unfold dict_getitem in Hty.
    destruct (dict_get _ _) as [sch|] eqn:Hsch; [|done]. injection Hty as ->.
    destruct (schemes_raise_only_Exception _ _ Hsch) as [Hpad Hunpad].
    apply rbind_raises in H. destruct H as [H | (out & _ & H)].
    + destruct (String.eqb action "Pad").
      * apply rbind_raises in H. destruct H as [H | (ib & _ & H)].
        -- by apply encode_raises in H.
        -- by apply Hpad in H.
      * cbv zeta in H.
        destruct (_ || _); [by injection H as <-|].
        destruct (Codec.fromhex _) as [ib|e'] eqn:Hhex.
        -- by apply Hunpad in H.
        -- apply fromhex_raises in Hhex. rewrite Hhex in H.
           by injection H as <-.
    + apply rbind_raises in H. destruct H as [H | (? & _ & H)]; [|done].
      destruct (String.eqb action "Unpad"); [|done].
      by apply decode_raises in H.
Qed.

End PageErrors.

Lemma urandom_zeros_raises : raises_Exception_only Padding.urandom_zeros.
Proof.
  intros n e. unfold Padding.urandom_zeros.
  destruct (n <? 0); [|done]. by intros [= <-].
Qed.

Lemma encode_default_raises : raises_Exception_only Codec.encode_default.
Proof.
  intros s e. unfold Codec.encode_default.
  destruct (Codec.encode_known s); [done|]. by intros [= <-].
Qed.

Lemma decode_default_raises : raises_Exception_only Codec.decode_default.
Proof.
  intros bs e. unfold Codec.decode_default.
  destruct (Codec.decode_known bs); [done|]. by intros [= <-].
Qed.

(** X12. A computation of the padding page never lets an exception escape:
    when the standard library functions it relies on raise subclasses of
    [Exception] only, it returns for every scheme name, action, block size
    and text, and leaves either no error, or an error with both outputs
    empty; and the decoded text is empty unless the action is [Unpad]. *)
Theorem compute_never_raises (urandom : Z → result (list byte))
    (encode : string → result (list byte)) (decode : list byte → result string)
    (padding_type action : string) (block_size : Z) (input_text : string) :
  raises_Exception_only urandom → raises_Exception_only encode →
  raises_Exception_only decode →
  ∃ o,
    PaddingPage.compute urandom encode decode padding_type action block_size
      input_text = Return o
    ∧ (PaddingPage.error o = None
       ∨ (PaddingPage.output_hex o = "" ∧ PaddingPage.output_text o = ""))
    ∧ (action ≠ "Unpad" → PaddingPage.output_text o = "").
Proof.
  intros Hrand Henc Hdec. unfold PaddingPage.compute.
  pose proof (compute_body_outcome urandom encode decode Hrand Henc Hdec
                padding_type action block_size input_text) as H.
  destruct (PaddingPage.compute_body _ _ _ _ _ _ _) as [o|e].
  - destruct H as [Hnone Htext]. exists o. split; [done|]. split; [by left|done].
  - rewrite H. eexists. split; [done|]. split; [by right|done].
Qed.

Lemma compute_never_raises_witness :
  ∃ o,
    PaddingPage.compute Padding.urandom_zeros Codec.encode_default
      Codec.decode_default "PKCS7" "Unpad" 16 "4869"
    = Return o
    ∧ (PaddingPage.error o = None
       ∨ (PaddingPage.output_hex o = "" ∧ PaddingPage.output_text o = ""))
    ∧ ("Unpad" ≠ "Unpad" → PaddingPage.output_text o = "").
Proof.
  apply (compute_never_raises Padding.urandom_zeros Codec.encode_default
           Codec.decode_default "PKCS7" "Unpad" 16 "4869").
  - exact urandom_zeros_raises.
  - exact encode_default_raises.
  - exact decode_default_raises.
Defined.

Section HexInput.
Import Padding PaddingPage.

Lemma length_chars (s : string) : length (Text.chars s) = String.length s.
Proof. induction s as [|c s IH]; [done|]. simpl. by rewrite IH. Qed.

Lemma join_split_no_space (text : string) :
  Forall (λ c, Codec.isspace c = false) (Text.chars (Codec.join_split text)).
Proof.
  unfold Codec.join_split. rewrite chars_str.
  apply List.Forall_forall. intros c Hc.
  apply filter_In in Hc. destruct Hc as [_ Hc]. by apply negb_true_iff in Hc.
Qed.

Lemma c_isspace_isspace (c : ascii) :
  Codec.isspace c = false → Codec.c_isspace c = false.
Proof. by destruct c as [[] [] [] [] [] [] [] []]; vm_compute. Qed.

(** A hexadecimal digit is ASCII, and [hex] writes it in lower case. *)
Lemma hex_val_spec (c : ascii) (v : Z) :
  Codec.hex_val c = Some v →
  0 ≤ v < 16 ∧ Codec.hex_char v = Text.lower_char c ∧ Codec.ascii_char c = true.
Proof.
  intros H.
  destruct c as [[] [] [] [] [] [] [] []]; vm_compute in H; try discriminate H;
    injection H as <-; (split; [lia|]); split; reflexivity.
Qed.

Lemma non_ascii_not_hex (c : ascii) :
  Codec.ascii_char c = false → Codec.hex_val c = None.
Proof.
  intros Hc. destruct (Codec.hex_val c) as [v|] eqn:Hv; [|done].
  apply hex_val_spec in Hv. destruct Hv as (_ & _ & Hv). congruence.
Qed.

Lemma byte_of_pair (top bot : Z) :
  0 ≤ top < 16 → 0 ≤ bot < 16 →
  ∃ b, Byte.of_N (Z.to_N (16 * top + bot)) = Some b
       ∧ int_of_byte b / 16 = top ∧ int_of_byte b mod 16 = bot.
Proof.
  intros Htop Hbot.
  destruct (byte_of_int (16 * top + bot) ltac:(lia)) as (b & Hb & Hint).
  exists b. split; [done|]. rewrite Hint. split; symmetry.
  - apply (Z.div_unique _ 16 top bot); lia.
  - apply (Z.mod_unique _ 16 top bot); lia.
Qed.

Lemma first_non_ascii_spec (cs : list ascii) (pos p : nat) :
  Codec.first_non_ascii pos cs = Some p →
  ∃ i c, p = (pos + i)%nat ∧ cs !! i = Some c ∧ Codec.hex_val c = None.
Proof.
  revert pos. induction cs as [|c cs IH]; intros pos; [done|].
  cbn [Codec.first_non_ascii].
  destruct (Codec.ascii_char c) eqn:Hc.
  - intros H. destruct (IH _ H) as (i & d & -> & Hi & Hd).
    exists (S i), d. split; [lia|]. by split.
  - intros [= <-]. exists 0%nat, c. split; [lia|].
    split; [done|]. by apply non_ascii_not_hex.
Qed.

Lemma first_non_ascii_None (cs : list ascii) (pos : nat) :
  Forall (λ c, Codec.ascii_char c = true) cs →
  Codec.first_non_ascii pos cs = None.
Proof.
  intros H. revert pos. induction H as [|c cs Hc _ IH]; intros pos; [done|].
  cbn [Codec.first_non_ascii]. by rewrite Hc.
Qed.

(** [fromhex] on an even number of characters, none of them a blank:
    either some character is no hexadecimal digit and the error names the
    position of one, or the bytes are those the digits denote. *)
Lemma fromhex_from_spec (cs : list ascii) (pos : nat) :
  Forall (λ c, Codec.c_isspace c = false) cs →
  (length cs mod 2 = 0)%nat →
  (∃ i c, cs !! i = Some c ∧ Codec.hex_val c = None
          ∧ Codec.fromhex_from pos cs = Raise (Codec.not_hex (pos + i)))
  ∨ (∃ bs, Codec.fromhex_from pos cs = Return bs
           ∧ Text.chars (Codec.hex bs) = map Text.lower_char cs
           ∧ (2 * length bs = length cs)%nat
           ∧ Forall (λ c, Codec.ascii_char c = true) cs).
Proof.
  revert pos. induction cs as [cs IH] using (induction_ltof1 _ (@length _)).
  unfold ltof in IH. intros pos Hsp Heven.
  destruct cs as [|c [|d cs]].
  - right. exists []. by repeat split.
  - done.
  - apply Forall_cons in Hsp as [Hc Hsp]. apply Forall_cons in Hsp as [Hd Hsp].
    cbn [Codec.fromhex_from]. rewrite Hc.
    destruct (Codec.hex_val c) as [top|] eqn:Htop.
    2: { left. exists 0%nat, c. rewrite Nat.add_0_r. by repeat split. }
    destruct (Codec.hex_val d) as [bot|] eqn:Hbot.
    2: { left. exists 1%nat, d. rewrite Nat.add_1_r. by repeat split. }
    destruct (hex_val_spec c top Htop) as (Ht & Hct & Hca).
    destruct (hex_val_spec d bot Hbot) as (Hb & Hdb & Hda).
    destruct (byte_of_pair top bot Ht Hb) as (b & -> & Hdiv & Hmod).
    destruct (IH cs ltac:(simpl; lia) (S (S pos)) Hsp) as
      [(i & x & Hi & Hx & ->) | (bs & -> & Hhex & Hlen & Hascii)].
    { change (length (c :: d :: cs)) with (2 + length cs)%nat in Heven.
      by rewrite Nat.Div0.add_mod, Nat.Div0.mod_same, Nat.add_0_l,
        Nat.Div0.mod_mod in Heven. }
    + left. exists (S (S i)), x. split; [done|]. split; [done|].
      cbn [rbind].
      by replace (pos + S (S i))%nat with (S (S pos) + i)%nat by lia.
    + right. exists (b :: bs). cbn [rbind]. split; [done|].
      split; [|split; [simpl; lia|by repeat constructor]].
      unfold Codec.hex in *. rewrite chars_str in *.
      cbn [map concat app]. cbv zeta. by rewrite Hdiv, Hmod, Hct, Hdb, Hhex.
Qed.

Lemma fromhex_spec (text : string) :
  Forall (λ c, Codec.isspace c = false) (Text.chars text) →
  (String.length text mod 2 = 0)%nat →
  (∃ i c, Text.chars text !! i = Some c ∧ Codec.hex_val c = None
          ∧ Codec.fromhex text = Raise (Codec.not_hex i))
  ∨ (∃ bs, Codec.fromhex text = Return bs
           ∧ Codec.hex bs = lower_text text
           ∧ (2 * length bs = String.length text)%nat).
Proof.
  intros Hsp Heven. unfold Codec.fromhex.
  destruct (Codec.first_non_ascii 0 _) as [p|] eqn:Hp.
  { apply first_non_ascii_spec in Hp. destruct Hp as (i & c & -> & Hi & Hc).
    left. by exists i, c. }
  rewrite <- length_chars in Heven.
  destruct (fromhex_from_spec (Text.chars text) 0) as
    [(i & c & Hi & Hc & ->) | (bs & -> & Hhex & Hlen & _)]; [|done|..].
  - eapply Forall_impl; [exact Hsp|]. apply c_isspace_isspace.
  - left. by exists i, c.
  - right. exists bs. split; [done|]. split.
    + unfold lower_text. rewrite <- Hhex. by rewrite str_chars.
    + by rewrite <- length_chars.
Qed.

End HexInput.

(** X13. What an [Unpad] computation does with its input, whitespace
    removed: an empty or odd-length text is refused with the page's own
    message; an even-length text with a character that is no hexadecimal
    digit is refused with the message of [bytes.fromhex], which names the
    position of such a character; otherwise the unpadding function is
    applied to the bytes that the digits denote, in either case of the
    letters, and its result or its error is what the page leaves. *)
Theorem unpad_input_validation (urandom : Z → result (list byte))
    (encode : string → result (list byte)) (decode : list byte → result string)
    (padding_type : string) (sch : PaddingPage.scheme) (block_size : Z)
    (input_text : string) :
  dict_get (PaddingPage.paddings urandom) padding_type = Some sch →
  (String.length (Codec.join_split input_text) = 0%nat
   ∨ (String.length (Codec.join_split input_text) mod 2)%nat ≠ 0%nat →
   PaddingPage.compute urandom encode decode padding_type "Unpad" block_size
     input_text
   = Return (PaddingPage.Outputs "" ""
               (Some "Input hex string must be even-length and not empty")))
  ∧ (String.length (Codec.join_split input_text) ≠ 0%nat →
     (String.length (Codec.join_split input_text) mod 2)%nat = 0%nat →
     (∃ (i : nat) (c : ascii),
        Text.chars (Codec.join_split input_text) !! i = Some c
        ∧ Codec.hex_val c = None
        ∧ PaddingPage.compute urandom encode decode padding_type "Unpad"
            block_size input_text
          = Return (PaddingPage.Outputs "" ""
                      (Some ("Invalid hex input: "
                             +:+ exn_msg (Codec.not_hex i)))))
     ∨ (∃ bs : list byte,
          bs ≠ []
          ∧ Codec.hex bs = lower_text (Codec.join_split input_text)
          ∧ (∀ out text,
               PaddingPage.unpad_func sch bs = Return out →
               decode out = Return text →
               PaddingPage.compute urandom encode decode padding_type "Unpad"
                 block_size input_text
               = Return (PaddingPage.Outputs (Codec.hex out) text None))
          ∧ (∀ e,
               PaddingPage.unpad_func sch bs = Raise e →
               is_Exception (exn_cls e) = true →
               PaddingPage.compute urandom encode decode padding_type "Unpad"
                 block_size input_text
               = Return (PaddingPage.Outputs "" "" (Some (exn_msg e)))))).
Proof.
  intros Hty.
  unfold PaddingPage.compute, PaddingPage.compute_body, dict_getitem.
  rewrite Hty. cbn [rbind].
  change (String.eqb "Unpad" "Pad") with false.
  change (String.eqb "Unpad" "Unpad") with true.
  cbv iota zeta.
  set (hex_clean := Codec.join_split input_text).
  split.
  - intros Hbad.
    assert ((String.length hex_clean =? 0)%nat
            || negb (String.length hex_clean mod 2 =? 0)%nat = true) as ->; [|done].
    apply orb_true_iff. destruct Hbad as [Hlen|Hodd].
    + left. by apply Nat.eqb_eq.
    + right. by apply negb_true_iff, Nat.eqb_neq.
  - intros Hlen Heven.
    assert ((String.length hex_clean =? 0)%nat
            || negb (String.length hex_clean mod 2 =? 0)%nat = false) as ->.
    { apply orb_false_iff. split; [by apply Nat.eqb_neq|].
      by apply negb_false_iff, Nat.eqb_eq. }
    destruct (fromhex_spec hex_clean (join_split_no_space input_text) Heven)
      as [(i & c & Hi & Hc & ->) | (bs & -> & Hhex & Hbs)].
    + left. by exists i, c.
    + right. exists bs. split; [intros ->; simpl in Hbs; lia|].
      split; [done|]. split.
      * intros out text -> . cbn [rbind]. by intros ->.
      * intros e -> He. cbn [rbind]. by rewrite He.
Qed.

Lemma unpad_input_validation_witness :
  (String.length (Codec.join_split "48 69 0202") = 0%nat
   ∨ (String.length (Codec.join_split "48 69 0202") mod 2)%nat ≠ 0%nat →
   PaddingPage.compute Padding.urandom_zeros Codec.encode_default
     Codec.decode_default "PKCS7" "Unpad" 16 "48 69 0202"
   = Return (PaddingPage.Outputs "" ""
               (Some "Input hex string must be even-length and not empty")))
  ∧ (String.length (Codec.join_split "48 69 0202") ≠ 0%nat →
     (String.length (Codec.join_split "48 69 0202") mod 2)%nat = 0%nat →
     (∃ (i : nat) (c : ascii),
        Text.chars (Codec.join_split "48 69 0202") !! i = Some c
        ∧ Codec.hex_val c = None
        ∧ PaddingPage.compute Padding.urandom_zeros Codec.encode_default
            Codec.decode_default "PKCS7" "Unpad" 16 "48 69 0202"
          = Return (PaddingPage.Outputs "" ""
                      (Some ("Invalid hex input: "
                             +:+ exn_msg (Codec.not_hex i)))))
     ∨ (∃ bs : list byte,
          bs ≠ []
          ∧ Codec.hex bs = lower_text (Codec.join_split "48 69 0202")
          ∧ (∀ out text,
               Padding.pkcs7_unpad bs = Return out →
               Codec.decode_default out = Return text →
               PaddingPage.compute Padding.urandom_zeros Codec.encode_default
                 Codec.decode_default "PKCS7" "Unpad" 16 "48 69 0202"
               = Return (PaddingPage.Outputs (Codec.hex out) text None))
          ∧ (∀ e,
               Padding.pkcs7_unpad bs = Raise e →
               is_Exception (exn_cls e) = true →
               PaddingPage.compute Padding.urandom_zeros Codec.encode_default
                 Codec.decode_default "PKCS7" "Unpad" 16 "48 69 0202"
               = Return (PaddingPage.Outputs "" "" (Some (exn_msg e)))))).
Proof.
  apply (unpad_input_validation Padding.urandom_zeros Codec.encode_default
           Codec.decode_default "PKCS7"
           (PaddingPage.Scheme Padding.pkcs7_pad Padding.pkcs7_unpad)
           16 "48 69 0202").
  reflexivity.
Defined.

(** * Further properties of the cipher page *)

Section Clicks.

Variable pycipher : string → result cipher_class.
Hypothesis provider_raises : raises_only_Exception pycipher.
Hypothesis transforms_raise : transforms_raise_only_Exception pycipher.

(** What a construction leaves: an instance that the provider built, after
    three calls, or [None] with the error shown. *)
Lemma safe_cipher_instance_outcome (name : string)
    (inputs : gmap string pyval) (w : world) :
  (∃ cls accepted obj,
     pycipher name = Return cls
     ∧ new cls (kept accepted inputs) = Return obj
     ∧ safe_cipher_instance pycipher name inputs w
       = (Return (Some obj),
          extend w (World [] [Getattr name; Signature name;
                              Construct name (kept accepted inputs)])))
  ∨ (∃ e cs,
       List.filter is_transform cs = []
       ∧ safe_cipher_instance pycipher name inputs w
         = (Return None,
            extend w (World [StError ("Error creating cipher instance: "
                                      +:+ exn_msg e)] cs))).
Proof.
  rewrite safe_cipher_instance_unfold.
  pose proof (provider_raises name) as Hsafe.
  destruct (pycipher name) as [cls|e].
  2: { right. exists e, [Getattr name]. split; [done|].
       by rewrite reported_Exception. }
  destruct Hsafe as [Hsig Hnew].
  destruct (init_parameters cls) as [accepted|e] eqn:Hacc.
  2: { right. exists e, [Getattr name; Signature name]. split; [done|].
       rewrite reported_Exception; [done|]. by apply Hsig. }
  cbv zeta. destruct (new cls (kept accepted inputs)) as [obj|e] eqn:Hobj.
  - left. by exists cls, accepted, obj.
  - right.
    exists e, [Getattr name; Signature name;
               Construct name (kept accepted inputs)].
    split; [done|]. rewrite reported_Exception; [done|].
    by apply (Hnew (kept accepted inputs)).
Qed.

Lemma extend_extend (w : world) (m : list ui_msg) (cs : list call)
    (m' : list ui_msg) (cs' : list call) :
  World (ui (extend w (World m cs)) ++ m') (calls (extend w (World m cs)) ++ cs')
  = extend w (World (m ++ m') (cs ++ cs')).
Proof. unfold extend. simpl. by rewrite !app_assoc. Qed.

Lemma encipher_clicked_outcome (name : string) (inputs : gmap string pyval)
    (text : string) (w : world) :
  ∃ (m : ui_msg) (cs : list call),
    encipher_clicked pycipher name inputs text w
    = (Return tt, extend w (World [m] cs))
    ∧ ((List.filter is_transform cs = []
        ∧ ∃ e, m = StError ("Error creating cipher instance: " +:+ exn_msg e))
       ∨ (List.filter is_transform cs = [Encipher (Text.strip text)]
          ∧ ∃ obj w1,
              safe_cipher_instance pycipher name inputs w = (Return (Some obj), w1)
              ∧ match encipher obj (Text.strip text) with
                | Return result =>
                    m = StSuccess ("🔐 Result:" +:+ Text.newline +:+ result)
                | Raise e => m = StError ("Encipher Failed: " +:+ exn_msg e)
                end)).
Proof.
  unfold encipher_clicked, mbind, M_bind.
  destruct (safe_cipher_instance_outcome name inputs w) as
    [(cls & accepted & obj & Hcls & Hobj & Hrun) | (e & cs & Hcs & Hrun)];
    rewrite Hrun.
  - destruct (transforms_raise name cls _ obj Hcls Hobj) as [Henc _].
    unfold try_except_Exception, mbind, M_bind, ask, show. cbv zeta.
    destruct (encipher obj (Text.strip text)) as [result|e] eqn:Hres.
    + cbn [ui calls]. rewrite extend_extend. eexists _, _. split; [reflexivity|].
      right. split; [done|]. eexists obj, _. split; [done|]. by rewrite Hres.
    + cbn [exn_cls]. rewrite (Henc _ _ Hres).
      cbn [ui calls]. rewrite extend_extend. eexists _, _. split; [reflexivity|].
      right. split; [done|]. eexists obj, _. split; [done|]. by rewrite Hres.
  - eexists _, cs. split; [reflexivity|]. left. split; [done|]. by exists e.
Qed.

Lemma decipher_clicked_outcome (name : string) (inputs : gmap string pyval)
    (text : string) (w : world) :
  ∃ (m : ui_msg) (cs : list call),
    decipher_clicked pycipher name inputs text w
    = (Return tt, extend w (World [m] cs))
    ∧ ((List.filter is_transform cs = []
        ∧ ∃ e, m = StError ("Error creating cipher instance: " +:+ exn_msg e))
       ∨ (List.filter is_transform cs = [Decipher (Text.strip text)]
          ∧ ∃ obj w1,
              safe_cipher_instance pycipher name inputs w = (Return (Some obj), w1)
              ∧ match decipher obj (Text.strip text) with
                | Return result =>
                    m = StSuccess ("🔓 Result:" +:+ Text.newline +:+ result)
                | Raise e => m = StError ("Decipher Failed: " +:+ exn_msg e)
                end)).
Proof.
  unfold decipher_clicked, mbind, M_bind.
  destruct (safe_cipher_instance_outcome name inputs w) as
    [(cls & accepted & obj & Hcls & Hobj & Hrun) | (e & cs & Hcs & Hrun)];
    rewrite Hrun.
  - destruct (transforms_raise name cls _ obj Hcls Hobj) as [_ Hdec].
    unfold try_except_Exception, mbind, M_bind, ask, show. cbv zeta.
    destruct (decipher obj (Text.strip text)) as [result|e] eqn:Hres.
    + cbn [ui calls]. rewrite extend_extend. eexists _, _. split; [reflexivity|].
      right. split; [done|]. eexists obj, _. split; [done|]. by rewrite Hres.
    + cbn [exn_cls]. rewrite (Hdec _ _ Hres).
      cbn [ui calls]. rewrite extend_extend. eexists _, _. split; [reflexivity|].
      right. split; [done|]. eexists obj, _. split; [done|]. by rewrite Hres.
  - eexists _, cs. split; [reflexivity|]. left. split; [done|]. by exists e.
Qed.

End Clicks.

(** X14. A click on a button shows exactly one outcome and never raises:
    with a provider whose classes and instances raise subclasses of
    [Exception] only, the handler of either button returns after adding one
    message: the construction error, and then no transform was asked for;
    or, for an instance that [safe_cipher_instance] returned, the result of
    its transform of the stripped text, or the failure of that transform,
    which was asked for exactly once. *)
Theorem click_shows_one_outcome (pycipher : string → result cipher_class)
    (cipher_name : string) (user_inputs : gmap string pyval) (text : string)
    (w : world) :
  raises_only_Exception pycipher → transforms_raise_only_Exception pycipher →
  (∃ (m : ui_msg) (cs : list call),
     encipher_clicked pycipher cipher_name user_inputs text w
     = (Return tt, extend w (World [m] cs))
     ∧ ((List.filter is_transform cs = []
         ∧ ∃ e, m = StError ("Error creating cipher instance: " +:+ exn_msg e))
        ∨ (List.filter is_transform cs = [Encipher (Text.strip text)]
           ∧ ∃ obj w1,
               safe_cipher_instance pycipher cipher_name user_inputs w
               = (Return (Some obj), w1)
               ∧ match encipher obj (Text.strip text) with
                 | Return result =>
                     m = StSuccess ("🔐 Result:" +:+ Text.newline +:+ result)
                 | Raise e => m = StError ("Encipher Failed: " +:+ exn_msg e)
                 end)))
  ∧ (∃ (m : ui_msg) (cs : list call),
       decipher_clicked pycipher cipher_name user_inputs text w
       = (Return tt, extend w (World [m] cs))
       ∧ ((List.filter is_transform cs = []
           ∧ ∃ e, m = StError ("Error creating cipher instance: " +:+ exn_msg e))
          ∨ (List.filter is_transform cs = [Decipher (Text.strip text)]
             ∧ ∃ obj w1,
                 safe_cipher_instance pycipher cipher_name user_inputs w
                 = (Return (Some obj), w1)
                 ∧ match decipher obj (Text.strip text) with
                   | Return result =>
                       m = StSuccess ("🔓 Result:" +:+ Text.newline +:+ result)
                   | Raise e => m = StError ("Decipher Failed: " +:+ exn_msg e)
                   end))).
Proof.
  intros Hsafe Htrans. split.
  - by apply encipher_clicked_outcome.
  - by apply decipher_clicked_outcome.
Qed.

Section ProviderTransforms.
Import Pycipher.

Ltac safe_raise :=
  repeat match goal with
  | H : rbind _ _ = Raise _ |- _ =>
      apply rbind_raises in H; destruct H as [H | (? & ? & H)]
  | H : Return _ = Raise _ |- _ => discriminate H
  | H : Raise _ = Raise _ |- _ => injection H as <-
  | H : (if ?c then _ else _) = Raise _ |- _ => destruct c
  | H : match ?x with _ => _ end = Raise _ |- _ => destruct x eqn:?
  end; try done.

Lemma a2i_raises : raises_Exception_only a2i.
Proof. intros c e H. unfold a2i in H. cbv zeta in H. safe_raise. Qed.

Lemma key_at_raises (key : list ascii) : raises_Exception_only (key_at key).
Proof. intros i e H. unfold key_at in H. safe_raise. Qed.

Lemma index_of_raises (key : list ascii) : raises_Exception_only (index_of key).
Proof. intros c e H. unfold index_of in H. safe_raise. Qed.

Lemma rmap_raises {A B} (f : A → B) (r : result A) (e : exn) :
  rmap f r = Raise e → r = Raise e.
Proof.
  unfold rmap. destruct r as [a|e']; cbn [rbind]; [done|].
  intros H. by injection H as ->.
Qed.

Lemma each_letter_raises (f : Z → result ascii) :
  raises_Exception_only f → raises_Exception_only (each_letter f).
Proof.
  intros Hf s. induction s as [|c s IH]; intros e H; [done|].
  cbn [each_letter] in H.
  apply rbind_raises in H. destruct H as [H | (c' & _ & H)].
  - destruct (Text.isalpha c); [|done].
    apply rbind_raises in H. destruct H as [H | (i & _ & H)].
    + by apply a2i_raises in H.
    + by apply Hf in H.
  - apply rbind_raises in H. destruct H as [H | (r & _ & H)]; [|done].
    by apply IH.
Qed.

Lemma by_pairs_raises (f : ascii → ascii → result (list ascii)) :
  (∀ a, raises_Exception_only (f a)) → raises_Exception_only (by_pairs f).
Proof.
  intros Hf s. induction s as [s IH] using (induction_ltof1 _ (@length _)).
  unfold ltof in IH. intros e H.
  destruct s as [|a [|b s]]; [done..|].
  cbn [by_pairs] in H.
  apply rbind_raises in H. destruct H as [H | (r & _ & H)].
  - by apply Hf in H.
  - apply rbind_raises in H. destruct H as [H | (rest & _ & H)]; [|done].
    apply (IH s); [simpl; lia|done].
Qed.

Lemma Playfair_pair_raises (step : Z) (key : list ascii) (a : ascii) :
  raises_Exception_only (Playfair_pair step key a).
Proof.
  intros b e H. unfold Playfair_pair in H.
  apply rbind_raises in H. destruct H as [H | (ia & _ & H)];
    [by apply index_of_raises in H|].
  apply rbind_raises in H. destruct H as [H | (ib & _ & H)];
    [by apply index_of_raises in H|].
  cbv beta iota zeta in H.
  repeat match goal with
  | H : (if ?c then _ else _) = Raise _ |- _ => destruct c
  | H : rbind _ _ = Raise _ |- _ =>
      apply rbind_raises in H; destruct H as [H | (? & _ & H)]
  | H : key_at _ _ = Raise _ |- _ => by apply key_at_raises in H
  | H : Return _ = Raise _ |- _ => discriminate H
  end.
Qed.

Lemma letterwise_raises (f : Z → result ascii) :
  raises_Exception_only f →
  raises_Exception_only
    (λ text, rmap Text.str (each_letter f (remove_punctuation text))).
Proof.
  intros Hf text e H. apply rmap_raises in H.
  by apply (each_letter_raises f Hf) in H.
Qed.

Lemma pairwise_raises (f : ascii → ascii → result (list ascii))
    (prepare : string → list ascii) :
  (∀ a, raises_Exception_only (f a)) →
  raises_Exception_only (λ text, rmap Text.str (by_pairs f (prepare text))).
Proof.
  intros Hf text e H. apply rmap_raises in H.
  by apply (by_pairs_raises f Hf) in H.
Qed.

Lemma Affine_shift_raises (b : pyval) (k : Z → Z → Z) :
  raises_Exception_only (λ x, Affine_shift b (k x)).
Proof. intros x e H. unfold Affine_shift in H. safe_raise. Qed.

Lemma getattr_transforms_raise : transforms_raise_only_Exception getattr.
Proof.
  intros name cls kwargs obj Hcls Hobj.
  unfold getattr, known in Hcls.
  repeat match type of Hcls with
  | context [String.eqb name ?k] => destruct (String.eqb name k)
  end; try discriminate Hcls; injection Hcls as <-;
    unfold Atbash, Rot13, Caesar, Affine, Playfair in Hobj; cbn [new] in Hobj;
    (destruct (bind_keywords _ _); [|discriminate Hobj]); cbn [rbind] in Hobj.
  - injection Hobj as <-. cbn [encipher decipher].
    split; apply letterwise_raises, key_at_raises.
  - injection Hobj as <-. cbn [encipher decipher].
    split; apply letterwise_raises, key_at_raises.
  - destruct (as_int _); [|discriminate Hobj]. injection Hobj as <-.
    cbn [encipher decipher]. split; by apply letterwise_raises.
  - destruct (as_int _); [|discriminate Hobj]. cbv zeta in Hobj.
    destruct (_ && _); [|discriminate Hobj]. injection Hobj as <-.
    cbn [encipher decipher].
    split; apply letterwise_raises, Affine_shift_raises.
  - destruct (keyword _ _ _); try discriminate Hobj.
    destruct (_ =? _)%nat; [|discriminate Hobj]. injection Hobj as <-.
    cbn [encipher decipher]. split.
    + apply (pairwise_raises _
               (λ text, pad_X (map (λ c, if (c =? "J")%char then "I"%char else c)
                                 (remove_punctuation text)))).
      intros x y e H. unfold encipher_pair in H.
      by apply Playfair_pair_raises in H.
    + apply (pairwise_raises _ (λ text, pad_X (remove_punctuation text))).
      intros x y e H. unfold decipher_pair in H.
      destruct (x =? y)%char; [by injection H as <-|].
      by apply Playfair_pair_raises in H.
Qed.

End ProviderTransforms.

Lemma click_shows_one_outcome_witness :
  (∃ (m : ui_msg) (cs : list call),
     encipher_clicked Pycipher.getattr "Caesar" {["key" := VInt 13]} " hello "
       empty_world
     = (Return tt, extend empty_world (World [m] cs))
     ∧ ((List.filter is_transform cs = []
         ∧ ∃ e, m = StError ("Error creating cipher instance: " +:+ exn_msg e))
        ∨ (List.filter is_transform cs = [Encipher (Text.strip " hello ")]
           ∧ ∃ obj w1,
               safe_cipher_instance Pycipher.getattr "Caesar"
                 {["key" := VInt 13]} empty_world
               = (Return (Some obj), w1)
               ∧ match encipher obj (Text.strip " hello ") with
                 | Return result =>
                     m = StSuccess ("🔐 Result:" +:+ Text.newline +:+ result)
                 | Raise e => m = StError ("Encipher Failed: " +:+ exn_msg e)
                 end)))
  ∧ (∃ (m : ui_msg) (cs : list call),
       decipher_clicked Pycipher.getattr "Caesar" {["key" := VInt 13]} " hello "
         empty_world
       = (Return tt, extend empty_world (World [m] cs))
       ∧ ((List.filter is_transform cs = []
           ∧ ∃ e, m = StError ("Error creating cipher instance: " +:+ exn_msg e))
          ∨ (List.filter is_transform cs = [Decipher (Text.strip " hello ")]
             ∧ ∃ obj w1,
                 safe_cipher_instance Pycipher.getattr "Caesar"
                   {["key" := VInt 13]} empty_world
                 = (Return (Some obj), w1)
                 ∧ match decipher obj (Text.strip " hello ") with
                   | Return result =>
                       m = StSuccess ("🔓 Result:" +:+ Text.newline +:+ result)
                   | Raise e => m = StError ("Decipher Failed: " +:+ exn_msg e)
                   end))).
Proof.
  apply (click_shows_one_outcome Pycipher.getattr "Caesar"
           {["key" := VInt 13]} " hello " empty_world).
  - exact getattr_raises_only_Exception.
  - exact getattr_transforms_raise.
Defined.

Section MainRun.

Variable literal_eval : pyval → result pyval.
Variable pycipher : string → result cipher_class.
Variable st : widgets.
Hypothesis provider_raises : raises_only_Exception pycipher.
Hypothesis transforms_raise : transforms_raise_only_Exception pycipher.

Lemma dict_get_is_Some {V} (d : list (string * V)) (k : string) :
  k ∈ map fst d → is_Some (dict_get d k).
Proof.
  induction d as [|[k' v] d IH]; cbn [map fst dict_get].
  - by rewrite elem_of_nil.
  - rewrite elem_of_cons. intros [->|H].
    + rewrite String.eqb_refl. eauto.
    + destruct (String.eqb k' k); eauto.
Qed.

(** The names offered by the two select boxes are names of the catalog. *)
Lemma cipher_names_catalog (name : string) :
  name ∈ cipher_names → is_Some (dict_get cipher_params name).
Proof.
  unfold cipher_names. intros H. apply dict_get_is_Some.
  by rewrite merge_sort_Permutation in H.
Qed.

(** The form of a cipher of the catalog returns, shows its heading and
    asks nothing of the provider. *)
Lemma build_param_ui_outcome (name pre : string) (w : world) :
  is_Some (dict_get cipher_params name) →
  ∃ m msgs,
    build_param_ui literal_eval st name pre w
    = (Return m, extend w (World msgs [])).
Proof.
  intros [params Hp].
  unfold build_param_ui, dict_getitem, mbind, M_bind, lift. rewrite Hp.
  unfold show. cbv beta iota.
  destruct params as [|item params].
  - eexists ∅, [_; _]. unfold mret, M_ret, extend. cbn [ui calls].
    by rewrite <- app_assoc, app_nil_r.
  - match goal with
    | |- context [for_each _ _ _ ?w1] =>
        destruct (for_each_rows literal_eval st name pre (item :: params) ∅ w1)
          as (m & Hrun & _)
    end.
    rewrite Hrun. eexists m, [_]. unfold extend. cbn [ui calls].
    by rewrite app_nil_r.
Qed.

Lemma transform_among (cs : list call) (c : call) (kept_calls : list call) :
  List.filter is_transform cs = kept_calls →
  c ∈ cs → is_transform c = true → c ∈ kept_calls.
Proof.
  intros <- Hc Ht. apply list_elem_of_In, filter_In.
  split; [by apply list_elem_of_In|done].
Qed.

Lemma encipher_step (clicked : bool) (name : string)
    (inputs : gmap string pyval) (text : string) (w : world) :
  ∃ d,
    (if clicked then encipher_clicked pycipher name inputs text else mret tt) w
    = (Return tt, extend w d)
    ∧ (clicked = false → d = empty_world)
    ∧ (∀ c, c ∈ calls d → is_transform c = true →
         c = Encipher (Text.strip text) ∧ clicked = true).
Proof.
  destruct clicked.
  - destruct (encipher_clicked_outcome pycipher provider_raises transforms_raise
                name inputs text w) as (m & cs & Hrun & Hcs).
    exists (World [m] cs). split; [done|]. split; [done|].
    intros c Hc Ht. split; [|done]. cbn [calls] in Hc.
    destruct Hcs as [[Hcs _]|[Hcs _]];
      pose proof (transform_among _ _ _ Hcs Hc Ht) as Hin.
    + by apply elem_of_nil in Hin.
    + by apply list_elem_of_singleton in Hin.
  - exists empty_world. rewrite extend_empty_r. split; [done|]. split; [done|].
    intros c Hc. by apply elem_of_nil in Hc.
Qed.

Lemma decipher_step (clicked : bool) (name : string)
    (inputs : gmap string pyval) (text : string) (w : world) :
  ∃ d,
    (if clicked then decipher_clicked pycipher name inputs text else mret tt) w
    = (Return tt, extend w d)
    ∧ (clicked = false → d = empty_world)
    ∧ (∀ c, c ∈ calls d → is_transform c = true →
         c = Decipher (Text.strip text) ∧ clicked = true).
Proof.
  destruct clicked.
  - destruct (decipher_clicked_outcome pycipher provider_raises transforms_raise
                name inputs text w) as (m & cs & Hrun & Hcs).
    exists (World [m] cs). split; [done|]. split; [done|].
    intros c Hc Ht. split; [|done]. cbn [calls] in Hc.
    destruct Hcs as [[Hcs _]|[Hcs _]];
      pose proof (transform_among _ _ _ Hcs Hc Ht) as Hin.
    + by apply elem_of_nil in Hin.
    + by apply list_elem_of_singleton in Hin.
  - exists empty_world. rewrite extend_empty_r. split; [done|]. split; [done|].
    intros c Hc. by apply elem_of_nil in Hc.
Qed.

Lemma main_outcome (w : world) :
  selectbox st "enc_cipher" cipher_names ∈ cipher_names →
  selectbox st "dec_cipher" cipher_names ∈ cipher_names →
  ∃ d,
    main literal_eval pycipher st w = (Return tt, extend w d)
    ∧ (button st "enc_btn" = false → button st "dec_btn" = false →
       calls d = [])
    ∧ (∀ c, c ∈ calls d → is_transform c = true →
         (c = Encipher (Text.strip (text_area st "enc_text" "HELLO"))
          ∧ button st "enc_btn" = true)
         ∨ (c = Decipher (Text.strip (text_area st "dec_text" ""))
            ∧ button st "dec_btn" = true)).
Proof.
  intros Henc Hdec. unfold main. cbv zeta. unfold mbind, M_bind.
  destruct (build_param_ui_outcome _ "enc" w (cipher_names_catalog _ Henc))
    as (enc_inputs & msgs1 & ->).
  destruct (build_param_ui_outcome _ "dec" (extend w (World msgs1 []))
              (cipher_names_catalog _ Hdec))
    as (dec_inputs & msgs2 & ->).
  match goal with
  | |- context [(if button st "enc_btn" then ?c else _) ?w1] =>
      destruct (encipher_step (button st "enc_btn")
                  (selectbox st "enc_cipher" cipher_names) enc_inputs
                  (text_area st "enc_text" "HELLO") w1)
        as (d3 & -> & Hnone3 & Hcalls3)
  end.
  match goal with
  | |- context [(if button st "dec_btn" then ?c else _) ?w1] =>
      destruct (decipher_step (button st "dec_btn")
                  (selectbox st "dec_cipher" cipher_names) dec_inputs
                  (text_area st "dec_text" "") w1)
        as (d4 & -> & Hnone4 & Hcalls4)
  end.
  rewrite !extend_assoc. eexists. split; [reflexivity|].
  unfold extend. cbn [ui calls app]. split.
  - intros H3 H4. by rewrite (Hnone3 H3), (Hnone4 H4).
  - intros c Hc Ht. apply elem_of_app in Hc. destruct Hc as [Hc|Hc].
    + left. by apply Hcalls3.
    + right. by apply Hcalls4.
Qed.

End MainRun.

(** X15. A run of the page never raises and touches the provider only on a
    click: with a provider whose classes and instances raise subclasses of
    [Exception] only, and select boxes that return one of the names they
    offer, [main] returns; when no button is clicked it asks nothing of the
    provider; and every transform it asks for is the enciphering of the
    stripped text of the first area, the [Encipher] button being clicked, or
    the deciphering of the stripped text of the second area, the [Decipher]
    button being clicked. *)
Theorem main_never_raises (literal_eval : pyval → result pyval)
    (pycipher : string → result cipher_class) (st : widgets) (w : world) :
  raises_only_Exception pycipher → transforms_raise_only_Exception pycipher →
  selectbox st "enc_cipher" cipher_names ∈ cipher_names →
  selectbox st "dec_cipher" cipher_names ∈ cipher_names →
  ∃ d,
    main literal_eval pycipher st w = (Return tt, extend w d)
    ∧ (button st "enc_btn" = false → button st "dec_btn" = false →
       calls d = [])
    ∧ (∀ c, c ∈ calls d → is_transform c = true →
         (c = Encipher (Text.strip (text_area st "enc_text" "HELLO"))
          ∧ button st "enc_btn" = true)
         ∨ (c = Decipher (Text.strip (text_area st "dec_text" ""))
            ∧ button st "dec_btn" = true)).
Proof.
  intros Hsafe Htrans Henc Hdec. by apply main_outcome.
Qed.

Lemma first_name_offered :
  default "" (head cipher_names) ∈ cipher_names.
Proof. vm_compute. apply list_elem_of_here. Qed.

Lemma main_never_raises_witness :
  ∃ d,
    main Literal.literal_eval_default Pycipher.getattr
      {| checkbox _ := true;
         text_input _ value := value;
         text_area _ value := value;
         selectbox _ options := default "" (head options);
         button _ := true |} empty_world
    = (Return tt, extend empty_world d)
    ∧ (true = false → true = false → calls d = [])
    ∧ (∀ c, c ∈ calls d → is_transform c = true →
         (c = Encipher (Text.strip "HELLO") ∧ true = true)
         ∨ (c = Decipher (Text.strip "") ∧ true = true)).
Proof.
  apply (main_never_raises Literal.literal_eval_default Pycipher.getattr
           {| checkbox _ := true;
              text_input _ value := value;
              text_area _ value := value;
              selectbox _ options := default "" (head options);
              button _ := true |} empty_world).
  - exact getattr_raises_only_Exception.
  - exact getattr_transforms_raise.
  - exact first_name_offered.
  - exact first_name_offered.
Defined.

Section FormValues.

Variable literal_eval : pyval → result pyval.
Variable st : widgets.
Variables cipher_name section_prefix : string.

Lemma param_row_value (acc : gmap string pyval) (p : string) (d : pyval)
    (w : world) :
  ∃ pd v,
    parse_param literal_eval d = Return pd
    ∧ parse_param literal_eval
        (VStr (field_text st cipher_name section_prefix p pd)) = Return v
    ∧ param_row literal_eval st cipher_name section_prefix acc (p, d) w
      = (Return (if enabled st cipher_name section_prefix p
                 then <[p := v]> acc else acc), w).
Proof.
  destruct (parse_param_returns literal_eval d) as [pd Hpd].
  destruct (parse_param_returns literal_eval
              (VStr (field_text st cipher_name section_prefix p pd))) as [v Hv].
  exists pd, v. split; [done|]. split; [done|].
  unfold param_row, enabled, mbind, M_bind, lift, mret, M_ret.
  rewrite Hpd. destruct (checkbox st _); [|done].
  unfold field_text in Hv. cbv zeta. by rewrite Hv.
Qed.

Lemma for_each_values (params : list (string * pyval))
    (acc : gmap string pyval) (w : world) :
  NoDup (map fst params) →
  ∃ m,
    for_each params (param_row literal_eval st cipher_name section_prefix) acc w
    = (Return m, w)
    ∧ (∀ p, p ∉ map fst params → m !! p = acc !! p)
    ∧ (∀ p d, (p, d) ∈ params →
         enabled st cipher_name section_prefix p = true →
         ∃ pd v,
           parse_param literal_eval d = Return pd
           ∧ parse_param literal_eval
               (VStr (field_text st cipher_name section_prefix p pd)) = Return v
           ∧ m !! p = Some v).
Proof.
  revert acc. induction params as [|[q dq] params IH]; intros acc Hnd;
    cbn [for_each map fst] in *.
  - exists acc. split; [done|]. split; [done|].
    intros p d Hin. by apply elem_of_nil in Hin.
  - apply NoDup_cons in Hnd as [Hq Hnd].
    unfold mbind, M_bind.
    destruct (param_row_value acc q dq w) as (pd & v & Hpd & Hv & ->).
    destruct (IH (if enabled st cipher_name section_prefix q
                  then <[q := v]> acc else acc) Hnd) as (m & -> & Hkeep & Hval).
    exists m. split; [done|]. split.
    + intros p Hp. apply not_elem_of_cons in Hp as [Hpq Hp].
      rewrite (Hkeep p Hp).
      destruct (enabled st cipher_name section_prefix q); [|done].
      by rewrite lookup_insert_ne.
    + intros p d Hin Hen. apply elem_of_cons in Hin as [[= -> ->]|Hin].
      * exists pd, v. split; [done|]. split; [done|].
        rewrite (Hkeep q Hq), Hen. by rewrite lookup_insert_eq.
      * by apply Hval.
Qed.

End FormValues.

Lemma dict_get_elem_of {V} (d : list (string * V)) (k : string) (v : V) :
  dict_get d k = Some v → (k, v) ∈ d.
Proof.
  induction d as [|[k' v'] d IH]; cbn [dict_get]; [done|].
  destruct (String.eqb_spec k' k) as [->|_].
  - intros [= ->]. apply list_elem_of_here.
  - intros H. apply list_elem_of_further. by apply IH.
Qed.

(** No cipher of the catalog names a parameter twice. *)
Lemma catalog_NoDup (name : string) (params : list (string * pyval)) :
  dict_get cipher_params name = Some params → NoDup (map fst params).
Proof.
  intros H. apply dict_get_elem_of in H.
  assert (Hall : Forall (λ entry, NoDup (map fst entry.2)) cipher_params).
  { unfold cipher_params.
    repeat (apply Forall_cons; split;
            [apply (bool_decide_unpack _); by vm_compute|]).
    apply Forall_nil_2. }
  rewrite Forall_forall in Hall. apply (Hall _ H).
Qed.

(** X16. What the form passes for a ticked parameter: for a cipher of the
    catalog and a parameter of it whose checkbox is ticked, the mapping that
    [build_param_ui] returns holds for that parameter [parse_param] of the
    text of its field, the field being shown with the parsed default of the
    catalog.  So an empty field and the text [None] pass [None], a text
    that [ast.literal_eval] reads passes the value read, and a text on which
    it raises is passed unchanged as text. *)
Theorem enabled_parameter_value (literal_eval : pyval → result pyval)
    (st : widgets) (cipher_name section_prefix : string)
    (params : list (string * pyval)) (p : string) (d : pyval) (w : world) :
  dict_get cipher_params cipher_name = Some params →
  (p, d) ∈ params →
  enabled st cipher_name section_prefix p = true →
  ∃ (user_inputs : gmap string pyval) (w' : world) (pd v : pyval),
    build_param_ui literal_eval st cipher_name section_prefix w
    = (Return user_inputs, w')
    ∧ parse_param literal_eval d = Return pd
    ∧ user_inputs !! p = Some v
    ∧ parse_param literal_eval
        (VStr (field_text st cipher_name section_prefix p pd)) = Return v
    ∧ (field_text st cipher_name section_prefix p pd = ""
       ∨ field_text st cipher_name section_prefix p pd = "None" →
       v = VNone)
    ∧ (field_text st cipher_name section_prefix p pd ≠ "" →
       field_text st cipher_name section_prefix p pd ≠ "None" →
       match literal_eval
               (VStr (field_text st cipher_name section_prefix p pd)) with
       | Return x => v = x
       | Raise _ => v = VStr (field_text st cipher_name section_prefix p pd)
       end).
Proof.
  intros Hparams Hin Hen.
  pose proof (catalog_NoDup _ _ Hparams) as Hnd.
  unfold build_param_ui, dict_getitem, mbind, M_bind, lift.
  rewrite Hparams. unfold show. cbv beta iota.
  destruct params as [|item params]; [by apply elem_of_nil in Hin|].
  match goal with
  | |- context [for_each _ _ _ ?w1] =>
      destruct (for_each_values literal_eval st cipher_name section_prefix
                  (item :: params) ∅ w1 Hnd) as (m & Hrun & _ & Hval)
  end.
  destruct (Hval p d Hin Hen) as (pd & v & Hpd & Hv & Hm).
  eexists m, _, pd, v. split; [exact Hrun|]. split; [done|]. split; [done|].
  split; [done|].
  set (field := field_text st cipher_name section_prefix p pd) in *.
  unfold parse_param, py_in in Hv. cbn [existsb py_eqb] in Hv.
  rewrite orb_false_r in Hv. split.
  - intros [Hf|Hf]; rewrite Hf in Hv; cbn in Hv; congruence.
  - intros H1 H2. apply String.eqb_neq in H1, H2. rewrite H1, H2 in Hv.
    cbn [orb] in Hv. destruct (literal_eval (VStr field)); congruence.
Qed.

Lemma enabled_parameter_value_witness :
  ∃ (user_inputs : gmap string pyval) (w' : world) (pd v : pyval),
    build_param_ui Literal.literal_eval_default (untouched_but []) "Caesar" "enc"
      empty_world
    = (Return user_inputs, w')
    ∧ parse_param Literal.literal_eval_default (VInt 13) = Return pd
    ∧ user_inputs !! "key" = Some v
    ∧ parse_param Literal.literal_eval_default
        (VStr (field_text (untouched_but []) "Caesar" "enc" "key" pd)) = Return v
    ∧ (field_text (untouched_but []) "Caesar" "enc" "key" pd = ""
       ∨ field_text (untouched_but []) "Caesar" "enc" "key" pd = "None" →
       v = VNone)
    ∧ (field_text (untouched_but []) "Caesar" "enc" "key" pd ≠ "" →
       field_text (untouched_but []) "Caesar" "enc" "key" pd ≠ "None" →
       match Literal.literal_eval_default
               (VStr (field_text (untouched_but []) "Caesar" "enc" "key" pd)) with
       | Return x => v = x
       | Raise _ => v = VStr (field_text (untouched_but []) "Caesar" "enc" "key" pd)
       end).
Proof.
  apply (enabled_parameter_value Literal.literal_eval_default (untouched_but [])
           "Caesar" "enc" [("key", VInt 13)] "key" (VInt 13) empty_world).
  - reflexivity.
  - apply list_elem_of_here.
  - reflexivity.
Defined.
